(** * LD2412 radar tools: frame synchroniser, decoder and telemetry analytics

    A shallow embedding of the byte-stream core shared by the front ends of
    the repository:

    - [ld2412_analyzer.py]     (class [LD2412Analyzer])       -> [Module Analyzer]
    - [ld2412_analyzer_cli.py] (class [LD2412AnalyzerCLI])    -> [Module AnalyzerCLI]
    - [ld2412_cli.py]          (class [LD2412CLI])            -> [Module Cli]
    - [test_data_analysis.py]  ([test_frame_parsing])         -> [Module TestDataAnalysis]
    - [ld2412_enhanced_gui.py] ([update_statistics])          -> [Module EnhancedGui]

    Bytes are integers in [0, 256) held in [Z]; a [bytes]/[bytearray] object
    is a list of them.  Indices and lengths are [nat].  Python dictionaries
    with a fixed set of keys are records.  Console output, widgets and the
    serial port are not modelled; the wall clock read by the command-line
    analyser is an explicit input. *)

From Stdlib Require Import ZArith List Bool Lia PeanoNat.
Import ListNotations.
Open Scope Z_scope.

(** ** Bytes and slices *)

Definition bytes := list Z.

(** [b[lo:hi]] for non-negative [lo], [hi]: clipped at the end of [b]. *)
Definition slice {A} (b : list A) (lo hi : nat) : list A :=
  firstn (hi - lo) (skipn lo b).

(** [b[-n:]]: the trailing [n] elements, the whole list if it is shorter. *)
Definition last_n {A} (n : nat) (b : list A) : list A :=
  skipn (length b - n) b.

(** [deque(maxlen=m).append(x)]: the oldest element falls out when full. *)
Definition deque_append {A} (m : nat) (x : A) (d : list A) : list A :=
  last_n m (d ++ [x]).

Fixpoint bytes_eqb (a b : bytes) : bool :=
  match a, b with
  | [], [] => true
  | x :: a', y :: b' => (x =? y) && bytes_eqb a' b'
  | _, _ => false
  end.

(** [b'\xF4\xF3\xF2\xF1'] and [b'\xF8\xF7\xF6\xF5']. *)
Definition HEADER : bytes := [0xF4; 0xF3; 0xF2; 0xF1].
Definition FOOTER : bytes := [0xF8; 0xF7; 0xF6; 0xF5].

(** ** The frame scanner

    Every front end runs the same loop over [bytes(self.raw_buffer)]:
<<
    i = 0
    while i < len(buffer) - 7:
        if buffer[i:i+4] == HEADER:
            end_pos = -1
            for j in range(i + 8, HI):
                if buffer[j:j+4] == FOOTER:
                    end_pos = j + 4
                    break
            if end_pos != -1:
                frame = buffer[i:end_pos]; self.parse(frame); i = end_pos
            else: i += 1
        else: i += 1
>>
    where [HI] is [len(buffer) - 3] in [ld2412_analyzer.py] and
    [min(i + 50, len(buffer) - 3)] in [ld2412_analyzer_cli.py]. *)

(** The inner [for j in range(j, j + n)] loop; returns [end_pos]. *)
Fixpoint find_footer_from (buffer : bytes) (j n : nat) : option nat :=
  match n with
  | O => None
  | S n' =>
      if bytes_eqb (slice buffer j (j + 4)) FOOTER then Some (j + 4)%nat
      else find_footer_from buffer (S j) n'
  end.

(** [for j in range(lo, hi)]: empty when [hi <= lo]. *)
Definition find_footer (buffer : bytes) (lo hi : nat) : option nat :=
  find_footer_from buffer lo (hi - lo).

(** Upper end of the footer search for a header at [i]. *)
Definition unbounded_hi (i len : nat) : nat := (len - 3)%nat.
Definition window_hi (i len : nat) : nat := Nat.min (i + 50) (len - 3).

Section Scanner.
Context {St : Type}.
(** end of the footer search, and the per-frame callback *)
Variable hi : nat -> nat -> nat.
Variable handler : bytes -> St -> St.

(** One iteration of the [while] body at cursor [i]: the frame handed to
    the parser, if any, and the next cursor. *)
Definition scan_step (buffer : bytes) (i : nat) : option bytes * nat :=
  if bytes_eqb (slice buffer i (i + 4)) HEADER then
    match find_footer buffer (i + 8) (hi i (length buffer)) with
    | Some end_pos => (Some (slice buffer i end_pos), end_pos)
    | None => (None, (i + 1)%nat)
    end
  else (None, (i + 1)%nat).

Definition deliver (fr : option bytes) (st : St) : St :=
  match fr with
  | Some frame => handler frame st
  | None => st
  end.

(** The [while i < len(buffer) - 7] loop.  [len(buffer) - 7] may be
    negative in Python; on naturals the test is [i + 7 < len(buffer)].
    The cursor grows in every iteration, so [length buffer] iterations
    always suffice (lemma [frame_loop_fuel]). *)
Fixpoint frame_loop (fuel : nat) (buffer : bytes) (i : nat) (st : St) : St :=
  match fuel with
  | O => st
  | S fuel' =>
      if (i + 7 <? length buffer)%nat then
        let '(fr, i') := scan_step buffer i in
        frame_loop fuel' buffer i' (deliver fr st)
      else st
  end.

Definition scan_frames (buffer : bytes) (st : St) : St :=
  frame_loop (length buffer) buffer 0 st.
End Scanner.

(** The spans handed to the parser by one scan pass, in order. *)
Definition frames_of (hi : nat -> nat -> nat) (buffer : bytes) : list bytes :=
  scan_frames hi (fun frame acc => acc ++ [frame]) buffer [].

(** ** Decoded telemetry fields (common to the front ends) *)

Record Telemetry := {
  t_state : Z;
  t_move_dist : Z;
  t_move_energy : Z;
  t_still_dist : Z;
  t_still_energy : Z;
  t_detect_dist : Z
}.

(** [frame[k]] of a frame already checked to be long enough. *)
Definition byte_at (frame : bytes) (k : nat) : Z := nth k frame 0.

(** [(frame[k+1] << 8) | frame[k]] *)
Definition le16 (frame : bytes) (k : nat) : Z :=
  Z.lor (Z.shiftl (byte_at frame (k + 1)) 8) (byte_at frame k).

Definition read_fields (frame : bytes) : Telemetry :=
  {| t_state := byte_at frame 8;
     t_move_dist := le16 frame 9;
     t_move_energy := byte_at frame 11;
     t_still_dist := le16 frame 12;
     t_still_energy := byte_at frame 14;
     t_detect_dist := le16 frame 15 |}.

(** Python truthiness of [x & mask]. *)
Definition has_bits (x mask : Z) : bool := negb (Z.land x mask =? 0).

(** [if len(self.raw_buffer) > H: self.raw_buffer = self.raw_buffer[-L:]] *)
Definition cleanup (H L : nat) (raw : bytes) : bytes :=
  if (H <? length raw)%nat then last_n L raw else raw.

(** ** [ld2412_analyzer.py] *)

Module Analyzer.

(** [self.data_history]: seven [deque(maxlen=100)].  A ['time'] entry is
    [len(self.data_history['time']) * 0.1]; it is kept as that length,
    i.e. in tenths of a second. *)
Record History := {
  time : list Z;
  moving_distance : list Z;
  moving_energy : list Z;
  still_distance : list Z;
  still_energy : list Z;
  detection_distance : list Z;
  target_state : list Z
}.

Record Stats := {
  total_frames : Z;
  moving_detections : Z;
  still_detections : Z;
  no_target : Z;
  avg_moving_distance : Z;
  avg_still_distance : Z;
  max_distance : Z;
  min_distance : Z
}.

Record Patterns := {
  approach : Z;
  leave : Z;
  stable : Z;
  noise : Z
}.

Record State := {
  raw_buffer : bytes;
  data_history : History;
  stats : Stats;
  patterns : Patterns
}.

(** [LD2412Analyzer.__init__] *)
Definition init : State :=
  {| raw_buffer := [];
     data_history := {| time := []; moving_distance := []; moving_energy := [];
                        still_distance := []; still_energy := [];
                        detection_distance := []; target_state := [] |};
     stats := {| total_frames := 0; moving_detections := 0; still_detections := 0;
                 no_target := 0; avg_moving_distance := 0; avg_still_distance := 0;
                 max_distance := 0; min_distance := 9999 |};
     patterns := {| approach := 0; leave := 0; stable := 0; noise := 0 |} |}.

(** [sum(1 for i in range(1, len(l)) if l[i] != l[i-1])] *)
Fixpoint state_changes (l : list Z) : Z :=
  match l with
  | a :: ((b :: _) as t) => (if a =? b then 0 else 1) + state_changes t
  | _ => 0
  end.

(** The distance branch of [analyze_patterns] on the ten most recent
    detection distances. *)
Definition classify_trend (recent_distances : list Z) (p : Patterns) : Patterns :=
  if forallb (fun d => 0 <? d) recent_distances then
    let distance_diff := last recent_distances 0 - hd 0 recent_distances in
    if distance_diff <? -50 then
      {| approach := approach p + 1; leave := leave p; stable := stable p; noise := noise p |}
    else if 50 <? distance_diff then
      {| approach := approach p; leave := leave p + 1; stable := stable p; noise := noise p |}
    else
      {| approach := approach p; leave := leave p; stable := stable p + 1; noise := noise p |}
  else p.

Definition classify_noise (recent_states : list Z) (p : Patterns) : Patterns :=
  if 5 <? state_changes recent_states then
    {| approach := approach p; leave := leave p; stable := stable p; noise := noise p + 1 |}
  else p.

(** [analyze_patterns] *)
Definition analyze_patterns (st : State) : State :=
  let h := data_history st in
  if (length (detection_distance h) <? 10)%nat then st
  else
    let recent_distances := last_n 10 (detection_distance h) in
    let recent_states := last_n 10 (target_state h) in
    {| raw_buffer := raw_buffer st;
       data_history := h;
       stats := stats st;
       patterns := classify_noise recent_states
                     (classify_trend recent_distances (patterns st)) |}.

(** The history part of [parse_and_analyze_frame]. *)
Definition record_history (r : Telemetry) (h : History) : History :=
  let current_time := Z.of_nat (length (time h)) in
  {| time := deque_append 100 current_time (time h);
     moving_distance := deque_append 100 (t_move_dist r) (moving_distance h);
     moving_energy := deque_append 100 (t_move_energy r) (moving_energy h);
     still_distance := deque_append 100 (t_still_dist r) (still_distance h);
     still_energy := deque_append 100 (t_still_energy r) (still_energy h);
     detection_distance := deque_append 100 (t_detect_dist r) (detection_distance h);
     target_state := deque_append 100 (t_state r) (target_state h) |}.

(** The statistics part of [parse_and_analyze_frame]. *)
Definition update_stats (r : Telemetry) (s : Stats) : Stats :=
  let present := has_bits (t_state r) 0x01 in
  let moving := if present && has_bits (t_state r) 0x02
                then moving_detections s + 1 else moving_detections s in
  let still := if present && has_bits (t_state r) 0x04
               then still_detections s + 1 else still_detections s in
  let absent := if present then no_target s else no_target s + 1 in
  let positive := 0 <? t_detect_dist r in
  {| total_frames := total_frames s + 1;
     moving_detections := moving;
     still_detections := still;
     no_target := absent;
     avg_moving_distance := avg_moving_distance s;
     avg_still_distance := avg_still_distance s;
     max_distance := if positive then Z.max (max_distance s) (t_detect_dist r)
                     else max_distance s;
     min_distance := if positive then Z.min (min_distance s) (t_detect_dist r)
                     else min_distance s |}.

(** Everything [parse_and_analyze_frame] does once the fields are read. *)
Definition analyze_record (r : Telemetry) (st : State) : State :=
  analyze_patterns
    {| raw_buffer := raw_buffer st;
       data_history := record_history r (data_history st);
       stats := update_stats r (stats st);
       patterns := patterns st |}.

(** [parse_and_analyze_frame] *)
Definition parse_and_analyze_frame (frame : bytes) (st : State) : State :=
  if (length frame <? 23)%nat then st
  else analyze_record (read_fields frame) st.

(** [analyze_frames]: the scan over the whole buffer, then the clean-up. *)
Definition analyze_frames (st : State) : State :=
  let st' := scan_frames unbounded_hi parse_and_analyze_frame (raw_buffer st) st in
  {| raw_buffer := cleanup 1000 500 (raw_buffer st');
     data_history := data_history st';
     stats := stats st';
     patterns := patterns st' |}.

(** [process_received_data] *)
Definition process_received_data (data : bytes) (st : State) : State :=
  analyze_frames
    {| raw_buffer := raw_buffer st ++ data;
       data_history := data_history st;
       stats := stats st;
       patterns := patterns st |}.

(** Feeding a list of chunks in order. *)
Definition feed_all (chunks : list bytes) (st : State) : State :=
  fold_left (fun s data => process_received_data data s) chunks st.

(** The states after each feed completes. *)
Fixpoint feed_trace (chunks : list bytes) (st : State) : list State :=
  match chunks with
  | [] => []
  | data :: rest =>
      let st' := process_received_data data st in
      st' :: feed_trace rest st'
  end.

(** [clear_data]: the history deques are emptied and the statistics and
    patterns are reset; [self.raw_buffer] is not touched. *)
Definition clear_data (st : State) : State :=
  {| raw_buffer := raw_buffer st;
     data_history := data_history init;
     stats := stats init;
     patterns := patterns init |}.

(** The keys of [self.patterns], in insertion order. *)
Inductive PatternKey := Approach | Leave | Stable | Noise.

Definition pattern_keys : list PatternKey := [Approach; Leave; Stable; Noise].

(** [self.patterns.get] *)
Definition pattern_get (p : Patterns) (k : PatternKey) : Z :=
  match k with
  | Approach => approach p
  | Leave => leave p
  | Stable => stable p
  | Noise => noise p
  end.

(** [max(keys, key=get)]: the first key whose value is not exceeded by a
    later one replaces the running best only when strictly larger. *)
Definition max_by_key (get : PatternKey -> Z) (first : PatternKey)
           (others : list PatternKey) : PatternKey :=
  fold_left (fun best k => if get best <? get k then k else best) others first.

(** [get_dominant_pattern]: [None] is the answer given when
    [not any(self.patterns.values())]; otherwise the key whose label is
    returned. *)
Definition get_dominant_pattern (p : Patterns) : option PatternKey :=
  if existsb (fun k => negb (pattern_get p k =? 0)) pattern_keys
  then Some (max_by_key (pattern_get p) Approach [Leave; Stable; Noise])
  else None.

End Analyzer.

(** ** [ld2412_analyzer_cli.py] *)

Module AnalyzerCLI.

(** [self.data_history]: eight [deque(maxlen=100)]. *)
Record History := {
  time : list Z;
  moving_distance : list Z;
  moving_energy : list Z;
  still_distance : list Z;
  still_energy : list Z;
  detection_distance : list Z;
  target_state : list Z;
  light_value : list Z
}.

Record Stats := {
  total_frames : Z;
  moving_detections : Z;
  still_detections : Z;
  no_target : Z;
  max_distance : Z;
  min_distance : Z;
  max_moving_energy : Z;
  max_still_energy : Z;
  start_time : Z
}.

Record Patterns := {
  approach_count : Z;
  leave_count : Z;
  stable_count : Z;
  last_distance : Z;
  distance_trend : list Z
}.

(** The alert texts of [check_alerts], by kind and interpolated value. *)
Inductive Alert :=
| CloseRange (distance : Z)
| HighMovingEnergy (energy : Z)
| HighStillEnergy (energy : Z)
| RapidApproach.

(** What is put on [self.data_queue]: [('data', {...})] with the decoded
    fields and ['light'], or [('alert', text)]. *)
Inductive Message :=
| MsgData (r : Telemetry) (light : Z)
| MsgAlert (a : Alert).

(** [time.time()] is the [k]-th reading of a clock [nat -> Z] supplied from
    outside; [clock_reads] counts the readings taken so far. *)
Record State := {
  raw_buffer : bytes;
  data_queue : list Message;
  data_history : History;
  stats : Stats;
  patterns : Patterns;
  clock_reads : nat
}.

(** [self.alerts] *)
Definition close_range : Z := 50.
Definition high_energy : Z := 80.

(** [update_statistics] *)
Definition update_statistics (state move_dist move_energy still_dist still_energy
                              detect_dist : Z) (s : Stats) : Stats :=
  let present := has_bits state 0x01 in
  let moving := if present && has_bits state 0x02
                then moving_detections s + 1 else moving_detections s in
  let still := if present && has_bits state 0x04
               then still_detections s + 1 else still_detections s in
  let absent := if present then no_target s else no_target s + 1 in
  let positive := 0 <? detect_dist in
  {| total_frames := total_frames s + 1;
     moving_detections := moving;
     still_detections := still;
     no_target := absent;
     max_distance := if positive then Z.max (max_distance s) detect_dist
                     else max_distance s;
     min_distance := if positive then Z.min (min_distance s) detect_dist
                     else min_distance s;
     max_moving_energy := Z.max (max_moving_energy s) move_energy;
     max_still_energy := Z.max (max_still_energy s) still_energy;
     start_time := start_time s |}.

(** [analyze_behavior].  [avg_change = (recent[-1] - recent[0]) / 2] is a
    true division of integers by two, so [avg_change < -30] is
    [recent[-1] - recent[0] < -60], and likewise for [> 30]. *)
Definition analyze_behavior (distance : Z) (p : Patterns) : Patterns :=
  if 0 <? distance then
    let appended := distance_trend p ++ [distance] in
    let trend := if (10 <? length appended)%nat then tl appended else appended in
    let recent := last_n 3 trend in
    let change := last recent 0 - hd 0 recent in
    let classified := (3 <=? length trend)%nat in
    {| approach_count := if classified && (change <? -60)
                         then approach_count p + 1 else approach_count p;
       leave_count := if classified && negb (change <? -60) && (60 <? change)
                      then leave_count p + 1 else leave_count p;
       stable_count := if classified && negb (change <? -60) && negb (60 <? change)
                       then stable_count p + 1 else stable_count p;
       last_distance := distance;
       distance_trend := trend |}
  else p.

(** [check_alerts]: the alerts queued, in order. *)
Definition check_alerts (distance move_energy still_energy : Z) (p : Patterns)
  : list Alert :=
  (if (0 <? distance) && (distance <? close_range) then [CloseRange distance] else [])
  ++ (if high_energy <? move_energy then [HighMovingEnergy move_energy] else [])
  ++ (if high_energy <? still_energy then [HighStillEnergy still_energy] else [])
  ++ (if (3 <=? length (distance_trend p))%nat
         && (last (distance_trend p) 0 <? hd 0 (last_n 3 (distance_trend p)) - 50)
      then [RapidApproach] else []).

Section WithClock.
Variable clock : nat -> Z.

(** [LD2412AnalyzerCLI.__init__]: the first clock reading is
    [stats['start_time']]. *)
Definition init : State :=
  {| raw_buffer := [];
     data_queue := [];
     data_history := {| time := []; moving_distance := []; moving_energy := [];
                        still_distance := []; still_energy := [];
                        detection_distance := []; target_state := [];
                        light_value := [] |};
     stats := {| total_frames := 0; moving_detections := 0; still_detections := 0;
                 no_target := 0; max_distance := 0; min_distance := 9999;
                 max_moving_energy := 0; max_still_energy := 0;
                 start_time := clock 0%nat |};
     patterns := {| approach_count := 0; leave_count := 0; stable_count := 0;
                    last_distance := 0; distance_trend := [] |};
     clock_reads := 1 |}.

(** [parse_data_frame] *)
Definition parse_data_frame (frame : bytes) (st : State) : State :=
  if (length frame <? 23)%nat then st
  else
    let r := read_fields frame in
    let light := if (21 <=? length frame)%nat then byte_at frame 17 else 0 in
    let h := data_history st in
    let current_time := clock (clock_reads st) - start_time (stats st) in
    let h' :=
      {| time := deque_append 100 current_time (time h);
         moving_distance := deque_append 100 (t_move_dist r) (moving_distance h);
         moving_energy := deque_append 100 (t_move_energy r) (moving_energy h);
         still_distance := deque_append 100 (t_still_dist r) (still_distance h);
         still_energy := deque_append 100 (t_still_energy r) (still_energy h);
         detection_distance := deque_append 100 (t_detect_dist r) (detection_distance h);
         target_state := deque_append 100 (t_state r) (target_state h);
         light_value := deque_append 100 light (light_value h) |} in
    let s' := update_statistics (t_state r) (t_move_dist r) (t_move_energy r)
                (t_still_dist r) (t_still_energy r) (t_detect_dist r) (stats st) in
    let p' := analyze_behavior (t_detect_dist r) (patterns st) in
    let alerts := check_alerts (t_detect_dist r) (t_move_energy r)
                    (t_still_energy r) p' in
    {| raw_buffer := raw_buffer st;
       data_queue := (data_queue st ++ map MsgAlert alerts) ++ [MsgData r light];
       data_history := h';
       stats := s';
       patterns := p';
       clock_reads := S (clock_reads st) |}.

(** [analyze_frames]: footer search capped at [i + 50]. *)
Definition analyze_frames (st : State) : State :=
  let st' := scan_frames window_hi parse_data_frame (raw_buffer st) st in
  {| raw_buffer := cleanup 1000 500 (raw_buffer st');
     data_queue := data_queue st';
     data_history := data_history st';
     stats := stats st';
     patterns := patterns st';
     clock_reads := clock_reads st' |}.

(** The body of [data_reader_thread] for one chunk:
    [self.raw_buffer.extend(data); self.analyze_frames()]. *)
Definition receive (data : bytes) (st : State) : State :=
  analyze_frames
    {| raw_buffer := raw_buffer st ++ data;
       data_queue := data_queue st;
       data_history := data_history st;
       stats := stats st;
       patterns := patterns st;
       clock_reads := clock_reads st |}.

Definition feed_all (chunks : list bytes) (st : State) : State :=
  fold_left (fun s data => receive data s) chunks st.
End WithClock.

(** The decoded records on the queue, in order. *)
Definition records (q : list Message) : list (Telemetry * Z) :=
  flat_map (fun m => match m with MsgData r l => [(r, l)] | MsgAlert _ => [] end) q.

(** A state with every clock reading blanked: the ['time'] history and
    [stats['start_time']]. *)
Definition without_clock (st : State) : State :=
  let h := data_history st in
  let s := stats st in
  {| raw_buffer := raw_buffer st;
     data_queue := data_queue st;
     data_history := {| time := [];
                        moving_distance := moving_distance h;
                        moving_energy := moving_energy h;
                        still_distance := still_distance h;
                        still_energy := still_energy h;
                        detection_distance := detection_distance h;
                        target_state := target_state h;
                        light_value := light_value h |};
     stats := {| total_frames := total_frames s;
                 moving_detections := moving_detections s;
                 still_detections := still_detections s;
                 no_target := no_target s;
                 max_distance := max_distance s;
                 min_distance := min_distance s;
                 max_moving_energy := max_moving_energy s;
                 max_still_energy := max_still_energy s;
                 start_time := 0 |};
     patterns := patterns st;
     clock_reads := clock_reads st |}.

End AnalyzerCLI.

(** ** [ld2412_cli.py] *)

Module Cli.

(** What [parse_data_frame] prints for a frame: the decoded fields, and the
    light reading when it prints one. *)
Record Report := {
  fields : Telemetry;
  light_sensor : option Z
}.

(** [parse_data_frame]: nothing is decoded below 23 bytes; the light
    reading is [frame[45]], printed only [if len(frame) > 45]. *)
Definition parse_data_frame (frame : bytes) : option Report :=
  if (23 <=? length frame)%nat then
    Some {| fields := read_fields frame;
            light_sensor := if (45 <? length frame)%nat
                            then Some (byte_at frame 45) else None |}
  else None.

(** [b'\xFD\xFC\xFB\xFA'] and [b'\x04\x03\x02\x01'] *)
Definition CMD_HEADER : bytes := [0xFD; 0xFC; 0xFB; 0xFA].
Definition CMD_FOOTER : bytes := [0x04; 0x03; 0x02; 0x01].

(** The entries of [cmd_names] in [parse_cmd_frame]. *)
Inductive CmdName :=
| EnterConfig | ExitConfig | QueryVersion | QueryData
| SetDistance | SetThreshold | FactoryReset | Reboot.

(** [cmd_names.get(cmd_code, ...)]: [None] stands for the default label. *)
Definition cmd_names (cmd_code : Z) : option CmdName :=
  if cmd_code =? 0xFF then Some EnterConfig
  else if cmd_code =? 0xFE then Some ExitConfig
  else if cmd_code =? 0xA0 then Some QueryVersion
  else if cmd_code =? 0x12 then Some QueryData
  else if cmd_code =? 0x60 then Some SetDistance
  else if cmd_code =? 0x64 then Some SetThreshold
  else if cmd_code =? 0xA2 then Some FactoryReset
  else if cmd_code =? 0xA3 then Some Reboot
  else None.

(** What [parse_cmd_frame] prints beyond the frame itself: the command
    code with its name, and the command data [frame[8:-4]] when
    [len(frame) > 8]. *)
Record CmdReport := {
  cmd_code : Z;
  cmd_name : option CmdName;
  cmd_data : option bytes
}.

(** [parse_cmd_frame] *)
Definition parse_cmd_frame (frame : bytes) : option CmdReport :=
  if (7 <=? length frame)%nat then
    Some {| cmd_code := byte_at frame 6;
            cmd_name := cmd_names (byte_at frame 6);
            cmd_data := if (8 <? length frame)%nat
                        then Some (slice frame 8 (length frame - 4)) else None |}
  else None.

(** [self.stats] *)
Record Stats := {
  total_bytes : Z;
  data_frames : Z;
  cmd_frames : Z
}.

(** The blocks printed on the console: the received chunk, a data-frame
    analysis, a command-frame analysis. *)
Inductive Printed :=
| Received (data : bytes)
| DataFrame (frame : bytes) (report : option Report)
| CmdFrame (frame : bytes) (report : option CmdReport).

Record State := {
  raw_buffer : bytes;
  stats : Stats;
  console : list Printed
}.

(** [LD2412CLI.__init__] *)
Definition init : State :=
  {| raw_buffer := [];
     stats := {| total_bytes := 0; data_frames := 0; cmd_frames := 0 |};
     console := [] |}.

(** The inner [for j in range(j, j + n)] loop for an arbitrary footer. *)
Fixpoint find_magic_from (magic buffer : bytes) (j n : nat) : option nat :=
  match n with
  | O => None
  | S n' =>
      if bytes_eqb (slice buffer j (j + 4)) magic then Some (j + 4)%nat
      else find_magic_from magic buffer (S j) n'
  end.

(** A span found by the scan, by kind. *)
Inductive Span :=
| DataSpan (frame : bytes)
| CmdSpan (frame : bytes).

(** One iteration of the [while] body of [analyze_frames]: the data header
    is tried first, then the command header; both footer searches run to
    [len(buffer) - 3]. *)
Definition scan_step (buffer : bytes) (i : nat) : option Span * nat :=
  if bytes_eqb (slice buffer i (i + 4)) HEADER then
    match find_magic_from FOOTER buffer (i + 8) (length buffer - 3 - (i + 8)) with
    | Some end_pos => (Some (DataSpan (slice buffer i end_pos)), end_pos)
    | None => (None, (i + 1)%nat)
    end
  else if bytes_eqb (slice buffer i (i + 4)) CMD_HEADER then
    match find_magic_from CMD_FOOTER buffer (i + 8) (length buffer - 3 - (i + 8)) with
    | Some end_pos => (Some (CmdSpan (slice buffer i end_pos)), end_pos)
    | None => (None, (i + 1)%nat)
    end
  else (None, (i + 1)%nat).

(** What is done with a span: it is parsed and printed, and its counter
    goes up. *)
Definition handle (sp : option Span) (st : State) : State :=
  match sp with
  | Some (DataSpan frame) =>
      {| raw_buffer := raw_buffer st;
         stats := {| total_bytes := total_bytes (stats st);
                     data_frames := data_frames (stats st) + 1;
                     cmd_frames := cmd_frames (stats st) |};
         console := console st ++ [DataFrame frame (parse_data_frame frame)] |}
  | Some (CmdSpan frame) =>
      {| raw_buffer := raw_buffer st;
         stats := {| total_bytes := total_bytes (stats st);
                     data_frames := data_frames (stats st);
                     cmd_frames := cmd_frames (stats st) + 1 |};
         console := console st ++ [CmdFrame frame (parse_cmd_frame frame)] |}
  | None => st
  end.

(** The [while i < len(buffer) - 7] loop, as in [frame_loop]. *)
Fixpoint frame_loop (fuel : nat) (buffer : bytes) (i : nat) (st : State) : State :=
  match fuel with
  | O => st
  | S fuel' =>
      if (i + 7 <? length buffer)%nat then
        let '(sp, i') := scan_step buffer i in
        frame_loop fuel' buffer i' (handle sp st)
      else st
  end.

(** [analyze_frames] *)
Definition analyze_frames (st : State) : State :=
  let st' := frame_loop (length (raw_buffer st)) (raw_buffer st) 0 st in
  {| raw_buffer := cleanup 1000 500 (raw_buffer st');
     stats := stats st';
     console := console st' |}.

(** [process_received_data] *)
Definition process_received_data (data : bytes) (st : State) : State :=
  analyze_frames
    {| raw_buffer := raw_buffer st ++ data;
       stats := {| total_bytes := total_bytes (stats st) + Z.of_nat (length data);
                   data_frames := data_frames (stats st);
                   cmd_frames := cmd_frames (stats st) |};
       console := console st ++ [Received data] |}.

Definition feed_all (chunks : list bytes) (st : State) : State :=
  fold_left (fun s data => process_received_data data s) chunks st.

End Cli.

(** ** [test_data_analysis.py] *)

Module TestDataAnalysis.

(** [test_frame] of [test_frame_parsing] *)
Definition test_frame : bytes :=
  [0xF4; 0xF3; 0xF2; 0xF1;
   0x0B; 0x00;
   0x02;
   0xAA;
   0x03;
   0x78; 0x00;
   0x55;
   0x96; 0x00;
   0x40;
   0x78; 0x00;
   0x10;
   0xF8; 0xF7; 0xF6; 0xF5].

(** The decoding done by [test_frame_parsing] on its frame: fields and
    [light_value] when [len(test_frame) >= 21], nothing otherwise. *)
Definition parse (frame : bytes) : option (Telemetry * Z) :=
  if (21 <=? length frame)%nat then
    Some (read_fields frame,
          if (19 <=? length frame)%nat then byte_at frame 17 else 0)
  else None.

(** The counts of [test_data_analysis_logic] over the recorded states. *)
Definition moving_count (states : list Z) : Z :=
  Z.of_nat (length (filter (fun state => has_bits state 0x02) states)).

Definition still_count (states : list Z) : Z :=
  Z.of_nat (length (filter (fun state => has_bits state 0x04) states)).

Definition no_target_count (states : list Z) : Z :=
  Z.of_nat (length (filter (fun state => negb (has_bits state 0x01)) states)).

(** [distances = [d for d in ... if d > 0]] *)
Definition distances (detection_distance : list Z) : list Z :=
  filter (fun d => 0 <? d) detection_distance.

End TestDataAnalysis.

(** ** [ld2412_enhanced_gui.py] *)

Module EnhancedGui.

(** The distance block of [update_statistics], on
    [(stats['max_distance'], stats['min_distance'])]: a positive distance
    replaces a minimum that equals 9999 and is otherwise folded in. *)
Definition update_distance (detect_dist : Z) (mm : Z * Z) : Z * Z :=
  if 0 <? detect_dist then
    (Z.max (fst mm) detect_dist,
     if snd mm =? 9999 then detect_dist else Z.min (snd mm) detect_dist)
  else mm.

End EnhancedGui.

(** * Properties *)

(** ** Slices and byte comparison *)

Lemma bytes_eqb_eq (a b : bytes) : bytes_eqb a b = true <-> a = b.
Proof.
  revert b; induction a as [|x a IH]; intros [|y b]; simpl; split;
    try congruence; try reflexivity.
  - intros H. apply andb_true_iff in H as [Hx Hab].
    apply Z.eqb_eq in Hx. apply IH in Hab. congruence.
  - intros H. injection H as -> ->. rewrite Z.eqb_refl. simpl. now apply IH.
Qed.

Lemma bytes_eqb_neq (a b : bytes) : bytes_eqb a b = false <-> a <> b.
Proof.
  rewrite <- bytes_eqb_eq. destruct (bytes_eqb a b); split; congruence.
Qed.

Lemma slice_app_shift {A} (pre b : list A) (lo hi : nat) :
  slice (pre ++ b) (length pre + lo) (length pre + hi) = slice b lo hi.
Proof.
  unfold slice. rewrite skipn_app, skipn_all2 by lia. simpl.
  replace (length pre + lo - length pre)%nat with lo by lia.
  f_equal. lia.
Qed.

Lemma slice_app_l {A} (b post : list A) (lo hi : nat) :
  (hi <= length b)%nat -> slice (b ++ post) lo hi = slice b lo hi.
Proof.
  intros Hhi. unfold slice. rewrite skipn_app, firstn_app, length_skipn.
  replace (hi - lo - (length b - lo))%nat with 0%nat by lia.
  simpl. now rewrite app_nil_r.
Qed.

Lemma slice_full {A} (b : list A) : slice b 0 (length b) = b.
Proof. unfold slice. simpl. rewrite Nat.sub_0_r. apply firstn_all. Qed.

Lemma length_last_n {A} (n : nat) (b : list A) :
  length (last_n n b) = Nat.min n (length b).
Proof. unfold last_n. rewrite length_skipn. lia. Qed.

Lemma last_n_suffix {A} (n : nat) (b : list A) :
  b = firstn (length b - n) b ++ last_n n b.
Proof. unfold last_n. symmetry. apply firstn_skipn. Qed.

Lemma last_n_all {A} (n : nat) (b : list A) :
  (length b <= n)%nat -> last_n n b = b.
Proof. intros H. unfold last_n. now replace (length b - n)%nat with 0%nat by lia. Qed.

(** ** The footer search *)

Lemma find_footer_from_some (buffer : bytes) (n j e : nat) :
  find_footer_from buffer j n = Some e ->
  exists k, (j <= k < j + n)%nat /\ e = (k + 4)%nat /\
            slice buffer k (k + 4) = FOOTER /\
            forall k', (j <= k' < k)%nat -> slice buffer k' (k' + 4) <> FOOTER.
Proof.
  revert j; induction n as [|n IH]; intros j; simpl; [discriminate|].
  destruct (bytes_eqb (slice buffer j (j + 4)) FOOTER) eqn:E.
  - intros [= <-]. exists j. repeat split; try lia.
    now apply bytes_eqb_eq.
  - intros H. apply IH in H as (k & Hk & -> & Hf & Hfirst).
    exists k. repeat split; try lia; [exact Hf|].
    intros k' Hk'. destruct (Nat.eq_dec k' j) as [->|Hne].
    + now apply bytes_eqb_neq.
    + apply Hfirst. lia.
Qed.

Lemma find_footer_from_none (buffer : bytes) (n j : nat) :
  find_footer_from buffer j n = None <->
  forall k, (j <= k < j + n)%nat -> slice buffer k (k + 4) <> FOOTER.
Proof.
  revert j; induction n as [|n IH]; intros j; simpl.
  - split; [intros _ k Hk; lia | reflexivity].
  - destruct (bytes_eqb (slice buffer j (j + 4)) FOOTER) eqn:E.
    + split; [discriminate|]. intros H. exfalso.
      apply (H j); [lia|]. now apply bytes_eqb_eq.
    + rewrite IH. split; intros H k Hk.
      * destruct (Nat.eq_dec k j) as [->|Hne]; [now apply bytes_eqb_neq|].
        apply H. lia.
      * apply H. lia.
Qed.

Lemma find_footer_from_first (buffer : bytes) (n j k : nat) :
  (j <= k < j + n)%nat ->
  slice buffer k (k + 4) = FOOTER ->
  (forall k', (j <= k' < k)%nat -> slice buffer k' (k' + 4) <> FOOTER) ->
  find_footer_from buffer j n = Some (k + 4)%nat.
Proof.
  revert j; induction n as [|n IH]; intros j Hk Hf Hfirst; [lia|]. simpl.
  destruct (Nat.eq_dec j k) as [->|Hne].
  - apply bytes_eqb_eq in Hf. now rewrite Hf.
  - assert (E : bytes_eqb (slice buffer j (j + 4)) FOOTER = false).
    { apply bytes_eqb_neq, Hfirst. lia. }
    rewrite E. apply IH; [lia|exact Hf|]. intros k' Hk'. apply Hfirst. lia.
Qed.

(** ** The scan loop *)

Section ScannerFacts.
Context {St : Type}.
Variable hi : nat -> nat -> nat.
Variable handler : bytes -> St -> St.

Lemma scan_step_advances (buffer : bytes) (i : nat) :
  (i < snd (scan_step hi buffer i))%nat.
Proof.
  unfold scan_step.
  destruct (bytes_eqb _ HEADER); simpl; [|lia].
  destruct (find_footer _ _ _) as [e|] eqn:E; simpl; [|lia].
  apply find_footer_from_some in E as (k & Hk & -> & _). lia.
Qed.

(** The loop always terminates within [length buffer - i] iterations:
    any larger fuel gives the same result. *)
Lemma frame_loop_fuel (fuel1 fuel2 : nat) (buffer : bytes) (i : nat) (st : St) :
  (length buffer - i <= fuel1)%nat -> (length buffer - i <= fuel2)%nat ->
  frame_loop hi handler fuel1 buffer i st = frame_loop hi handler fuel2 buffer i st.
Proof.
  revert fuel2 i st; induction fuel1 as [|f1 IH]; intros fuel2 i st H1 H2.
  - destruct fuel2 as [|f2]; simpl; [reflexivity|].
    destruct (i + 7 <? length buffer)%nat eqn:E; [|reflexivity].
    apply Nat.ltb_lt in E. lia.
  - simpl. destruct (i + 7 <? length buffer)%nat eqn:E.
    + pose proof (proj1 (Nat.ltb_lt _ _) E) as E'.
      destruct fuel2 as [|f2]; [lia|]. simpl. rewrite E.
      pose proof (scan_step_advances buffer i) as Hadv.
      destruct (scan_step hi buffer i) as [fr i']. simpl in Hadv.
      apply IH; lia.
    + destruct fuel2 as [|f2]; simpl; [reflexivity|]. now rewrite E.
Qed.

(** At or past the end of the [while] condition the loop does nothing. *)
Lemma frame_loop_done (fuel : nat) (buffer : bytes) (i : nat) (st : St) :
  (length buffer <= i + 7)%nat -> frame_loop hi handler fuel buffer i st = st.
Proof.
  intros H. destruct fuel; simpl; [reflexivity|].
  assert (E : (i + 7 <? length buffer)%nat = false) by (apply Nat.ltb_ge; lia).
  now rewrite E.
Qed.

(** One unfolding of the loop with enough fuel. *)
Lemma frame_loop_unfold (fuel : nat) (buffer : bytes) (i : nat) (st : St) :
  (length buffer - i <= fuel)%nat -> (i + 7 < length buffer)%nat ->
  frame_loop hi handler fuel buffer i st =
  frame_loop hi handler fuel buffer (snd (scan_step hi buffer i))
             (deliver handler (fst (scan_step hi buffer i)) st).
Proof.
  intros Hf Hi. destruct fuel as [|f]; [lia|].
  pose proof (scan_step_advances buffer i) as Hadv.
  pose proof (proj2 (Nat.ltb_lt _ _) Hi) as E.
  destruct (scan_step hi buffer i) as [fr i'] eqn:Estep. cbn [fst snd] in *.
  rewrite (frame_loop_fuel (S f) f buffer i') by lia.
  cbn [frame_loop]. now rewrite E, Estep.
Qed.
End ScannerFacts.

(** The frames collected by a pass do not depend on what was collected
    before. *)
Lemma collect_acc (hi : nat -> nat -> nat) (fuel : nat) (buffer : bytes) (i : nat)
      (acc : list bytes) :
  frame_loop hi (fun frame a => a ++ [frame]) fuel buffer i acc =
  acc ++ frame_loop hi (fun frame a => a ++ [frame]) fuel buffer i [].
Proof.
  revert i acc; induction fuel as [|f IH]; intros i acc; simpl.
  - now rewrite app_nil_r.
  - destruct (i + 7 <? length buffer)%nat; [|now rewrite app_nil_r].
    destruct (scan_step hi buffer i) as [[frame|] i']; simpl.
    + rewrite IH. rewrite (IH i' [frame]). now rewrite <- app_assoc.
    + apply IH.
Qed.

(** A scan pass is a left fold of the parser over the frames it finds. *)
Lemma frame_loop_fold {St} (hi : nat -> nat -> nat) (handler : bytes -> St -> St)
      (fuel : nat) (buffer : bytes) (i : nat) (st : St) :
  frame_loop hi handler fuel buffer i st =
  fold_left (fun s frame => handler frame s)
            (frame_loop hi (fun frame a => a ++ [frame]) fuel buffer i []) st.
Proof.
  revert i st; induction fuel as [|f IH]; intros i st; simpl; [reflexivity|].
  destruct (i + 7 <? length buffer)%nat; [|reflexivity].
  destruct (scan_step hi buffer i) as [[frame|] i']; simpl.
  - rewrite collect_acc, fold_left_app. simpl. apply IH.
  - apply IH.
Qed.

Lemma scan_frames_fold {St} (hi : nat -> nat -> nat) (handler : bytes -> St -> St)
      (buffer : bytes) (st : St) :
  scan_frames hi handler buffer st =
  fold_left (fun s frame => handler frame s) (frames_of hi buffer) st.
Proof. apply frame_loop_fold. Qed.

(** ** Bit tests *)

Lemma has_bits_pow2 (x k : Z) : 0 <= k -> has_bits x (2 ^ k) = Z.testbit x k.
Proof.
  intros Hk. unfold has_bits.
  destruct (Z.testbit x k) eqn:E.
  - apply negb_true_iff, Z.eqb_neq. intros H0.
    assert (Hb : Z.testbit (Z.land x (2 ^ k)) k = true).
    { rewrite Z.land_spec, E, Z.pow2_bits_true by assumption. reflexivity. }
    rewrite H0, Z.bits_0 in Hb. discriminate.
  - apply negb_false_iff, Z.eqb_eq. apply Z.bits_inj'. intros n Hn.
    rewrite Z.land_spec, Z.bits_0, Z.pow2_bits_eqb by assumption.
    destruct (Z.eqb_spec k n) as [<-|Hne]; [now rewrite E|apply andb_false_r].
Qed.

Lemma has_bits_1 (x : Z) : has_bits x 0x01 = Z.testbit x 0.
Proof. exact (has_bits_pow2 x 0 ltac:(lia)). Qed.

Lemma has_bits_2 (x : Z) : has_bits x 0x02 = Z.testbit x 1.
Proof. exact (has_bits_pow2 x 1 ltac:(lia)). Qed.

Lemma has_bits_4 (x : Z) : has_bits x 0x04 = Z.testbit x 2.
Proof. exact (has_bits_pow2 x 2 ltac:(lia)). Qed.

(** ** [ld2412_analyzer.py]: what a frame and a record change *)

Module AnalyzerFacts.
Import Analyzer.

Lemma analyze_patterns_keeps (st : State) :
  raw_buffer (analyze_patterns st) = raw_buffer st /\
  data_history (analyze_patterns st) = data_history st /\
  stats (analyze_patterns st) = stats st.
Proof.
  unfold analyze_patterns.
  destruct (length (detection_distance (data_history st)) <? 10)%nat; auto.
Qed.

Lemma analyze_record_raw_buffer (r : Telemetry) (st : State) :
  raw_buffer (analyze_record r st) = raw_buffer st.
Proof. unfold analyze_record. now rewrite (proj1 (analyze_patterns_keeps _)). Qed.

Lemma analyze_record_history (r : Telemetry) (st : State) :
  data_history (analyze_record r st) = record_history r (data_history st).
Proof.
  unfold analyze_record.
  now rewrite (proj1 (proj2 (analyze_patterns_keeps _))).
Qed.

Lemma analyze_record_stats (r : Telemetry) (st : State) :
  stats (analyze_record r st) = update_stats r (stats st).
Proof.
  unfold analyze_record.
  now rewrite (proj2 (proj2 (analyze_patterns_keeps _))).
Qed.

Lemma analyze_record_patterns (r : Telemetry) (st : State) :
  patterns (analyze_record r st) =
  let h := record_history r (data_history st) in
  if (length (detection_distance h) <? 10)%nat then patterns st
  else classify_noise (last_n 10 (target_state h))
         (classify_trend (last_n 10 (detection_distance h)) (patterns st)).
Proof.
  unfold analyze_record, analyze_patterns. cbn [data_history patterns].
  destruct (length _ <? 10)%nat; reflexivity.
Qed.

Lemma parse_raw_buffer (frame : bytes) (st : State) :
  raw_buffer (parse_and_analyze_frame frame st) = raw_buffer st.
Proof.
  unfold parse_and_analyze_frame.
  destruct (length frame <? 23)%nat; [reflexivity|apply analyze_record_raw_buffer].
Qed.

Lemma fold_parse_raw_buffer (frames : list bytes) (st : State) :
  raw_buffer (fold_left (fun s f => parse_and_analyze_frame f s) frames st)
  = raw_buffer st.
Proof.
  revert st; induction frames as [|f fs IH]; intros st; simpl; [reflexivity|].
  now rewrite IH, parse_raw_buffer.
Qed.

(** The scan never touches the byte buffer; only the clean-up does. *)
Lemma process_received_data_raw_buffer (data : bytes) (st : State) :
  raw_buffer (process_received_data data st)
  = cleanup 1000 500 (raw_buffer st ++ data).
Proof.
  unfold process_received_data, analyze_frames. cbn [raw_buffer].
  now rewrite scan_frames_fold, fold_parse_raw_buffer.
Qed.

Lemma parse_total_frames_mono (frame : bytes) (st : State) :
  total_frames (stats st) <= total_frames (stats (parse_and_analyze_frame frame st)).
Proof.
  unfold parse_and_analyze_frame.
  destruct (length frame <? 23)%nat; [lia|].
  rewrite analyze_record_stats. simpl. lia.
Qed.

Lemma fold_parse_total_frames_mono (frames : list bytes) (st : State) :
  total_frames (stats st)
  <= total_frames (stats (fold_left (fun s f => parse_and_analyze_frame f s) frames st)).
Proof.
  revert st; induction frames as [|f fs IH]; intros st; simpl; [lia|].
  etransitivity; [apply (parse_total_frames_mono f)|apply IH].
Qed.
End AnalyzerFacts.

(** ** C1, C2: the minimum telemetry frame length *)

(** C1.  The 22-byte frame [F4 F3 F2 F1 0B 00 02 AA 03 78 00 55 96 00 40 78 00
    10 F8 F7 F6 F5] fed to a fresh analyser is found by the scan as one span,
    but [parse_and_analyze_frame] returns at [len(frame) < 23]: no record is
    stored and no counter moves (the command-line analyser does the same).
    The decoder of [test_frame_parsing], which accepts 21 bytes, reads
    targetState 0x03, moving 120 cm / 85, still 150 cm / 64, detection
    120 cm and light 16 from the same bytes. *)
Theorem C1_test_frame_dropped_by_pipeline :
  frames_of unbounded_hi TestDataAnalysis.test_frame = [TestDataAnalysis.test_frame]
  /\ Analyzer.process_received_data TestDataAnalysis.test_frame Analyzer.init
     = {| Analyzer.raw_buffer := TestDataAnalysis.test_frame;
          Analyzer.data_history := Analyzer.data_history Analyzer.init;
          Analyzer.stats := Analyzer.stats Analyzer.init;
          Analyzer.patterns := Analyzer.patterns Analyzer.init |}
  /\ (forall clock,
        AnalyzerCLI.records
          (AnalyzerCLI.data_queue
             (AnalyzerCLI.receive clock TestDataAnalysis.test_frame
                (AnalyzerCLI.init clock))) = [])
  /\ TestDataAnalysis.parse TestDataAnalysis.test_frame
     = Some ({| t_state := 0x03; t_move_dist := 120; t_move_energy := 85;
                t_still_dist := 150; t_still_energy := 64;
                t_detect_dist := 120 |}, 16).
Proof.
  split; [reflexivity|]. split; [reflexivity|]. split; [|reflexivity].
  intros clock. reflexivity.
Qed.

(** A 21-byte telemetry span: the test frame without its light byte. *)
Definition frame21 : bytes := firstn 17 TestDataAnalysis.test_frame ++ FOOTER.

(** C2.  [parse_and_analyze_frame] drops a span exactly when it is shorter
    than 23 bytes (the state is returned untouched); from 23 bytes on a
    record is stored and the frame count goes up by one.  Spans of 21 and 22
    bytes, which [test_frame_parsing] decodes, are therefore dropped. *)
Theorem C2_decode_threshold_is_23 :
  (forall frame st,
     if (length frame <? 23)%nat
     then Analyzer.parse_and_analyze_frame frame st = st
     else Analyzer.total_frames (Analyzer.stats (Analyzer.parse_and_analyze_frame frame st))
          = Analyzer.total_frames (Analyzer.stats st) + 1
          /\ length (Analyzer.time (Analyzer.data_history
                                      (Analyzer.parse_and_analyze_frame frame st)))
             = Nat.min 100 (S (length (Analyzer.time (Analyzer.data_history st)))))
  /\ length frame21 = 21%nat
  /\ Analyzer.parse_and_analyze_frame frame21 Analyzer.init = Analyzer.init
  /\ TestDataAnalysis.parse frame21 <> None
  /\ length TestDataAnalysis.test_frame = 22%nat
  /\ Analyzer.parse_and_analyze_frame TestDataAnalysis.test_frame Analyzer.init
     = Analyzer.init
  /\ TestDataAnalysis.parse TestDataAnalysis.test_frame <> None.
Proof.
  split.
  - intros frame st. unfold Analyzer.parse_and_analyze_frame.
    destruct (length frame <? 23)%nat; [reflexivity|].
    rewrite AnalyzerFacts.analyze_record_stats, AnalyzerFacts.analyze_record_history.
    split; [reflexivity|]. cbn [Analyzer.record_history Analyzer.time].
    unfold deque_append. rewrite length_last_n, length_app.
    cbn [length]. lia.
  - repeat split; try reflexivity; discriminate.
Qed.

(** ** C7: the ambient-light byte *)

(** A 50-byte telemetry span whose byte 17 is 0x10 and whose byte 45 is
    0x63: the test frame's first 18 bytes, 27 zero bytes, 0x63, footer. *)
Definition frame50 : bytes :=
  firstn 18 TestDataAnalysis.test_frame ++ repeat 0 27 ++ [0x63] ++ FOOTER.

(** The test frame with one more payload byte (23 bytes). *)
Definition frame23 : bytes :=
  firstn 18 TestDataAnalysis.test_frame ++ [0x00] ++ FOOTER.


(** C7.  [ld2412_cli.py] takes the light reading from byte 45, and only for
    spans longer than 45 bytes: on the 50-byte span it reports 0x63 (byte 45)
    and not 0x10 (byte 17), and on the 23-byte span it reports no light value
    although the span has more than 19 bytes.  The command-line analyser and
    [test_frame_parsing] read byte 17 of the same spans. *)
Theorem C7_cli_reads_light_at_offset_45 :
  length frame50 = 50%nat
  /\ byte_at frame50 17 = 0x10
  /\ byte_at frame50 45 = 0x63
  /\ option_map Cli.light_sensor (Cli.parse_data_frame frame50) = Some (Some 0x63)
  /\ option_map snd (TestDataAnalysis.parse frame50) = Some 0x10
  /\ (forall clock,
        AnalyzerCLI.records
          (AnalyzerCLI.data_queue
             (AnalyzerCLI.parse_data_frame clock frame50 (AnalyzerCLI.init clock)))
        = [(read_fields frame50, 0x10)])
  /\ length frame23 = 23%nat
  /\ option_map Cli.light_sensor (Cli.parse_data_frame frame23) = Some None
  /\ option_map snd (TestDataAnalysis.parse frame23) = Some 0x10.
Proof.
  repeat split; try reflexivity.
Qed.

(** ** C6: the statistics counters *)

(** C6, as stated, fails: with targetState 0x02 (bit1 set, bit0 clear) the
    moving-detection count is not incremented. *)
Lemma C6_counterexample :
  ~ (forall state move_dist move_energy still_dist still_energy detect_dist s,
       AnalyzerCLI.moving_detections
         (AnalyzerCLI.update_statistics state move_dist move_energy still_dist
            still_energy detect_dist s)
       = AnalyzerCLI.moving_detections s + (if Z.testbit state 1 then 1 else 0)).
Proof.
  intros H.
  specialize (H 0x02 0 0 0 0 0 (AnalyzerCLI.stats (AnalyzerCLI.init (fun _ => 0)))).
  vm_compute in H. discriminate.
Qed.

(** C6, amended.  Every statistics update adds one to the total-frame count;
    adds one to the moving-detection count exactly when bits 0 and 1 of
    targetState are both set; adds one to the still-detection count exactly
    when bits 0 and 2 are both set; adds one to the no-target count exactly
    when bit 0 is clear; and leaves the minimum and maximum detection
    distance as they were when the detection distance is 0.  This holds for
    [update_statistics] of the command-line analyser and for the inline
    update of [parse_and_analyze_frame]. *)
Theorem C6_statistics_update :
  (forall state move_dist move_energy still_dist still_energy detect_dist s,
     let s' := AnalyzerCLI.update_statistics state move_dist move_energy still_dist
                 still_energy detect_dist s in
     let s0 := AnalyzerCLI.update_statistics state move_dist move_energy still_dist
                 still_energy 0 s in
     AnalyzerCLI.total_frames s' = AnalyzerCLI.total_frames s + 1
     /\ AnalyzerCLI.moving_detections s'
        = AnalyzerCLI.moving_detections s
          + (if Z.testbit state 0 && Z.testbit state 1 then 1 else 0)
     /\ AnalyzerCLI.still_detections s'
        = AnalyzerCLI.still_detections s
          + (if Z.testbit state 0 && Z.testbit state 2 then 1 else 0)
     /\ AnalyzerCLI.no_target s'
        = AnalyzerCLI.no_target s + (if Z.testbit state 0 then 0 else 1)
     /\ AnalyzerCLI.min_distance s0 = AnalyzerCLI.min_distance s
     /\ AnalyzerCLI.max_distance s0 = AnalyzerCLI.max_distance s)
  /\ (forall r s,
        let s' := Analyzer.update_stats r s in
        Analyzer.total_frames s' = Analyzer.total_frames s + 1
        /\ Analyzer.moving_detections s'
           = Analyzer.moving_detections s
             + (if Z.testbit (t_state r) 0 && Z.testbit (t_state r) 1 then 1 else 0)
        /\ Analyzer.still_detections s'
           = Analyzer.still_detections s
             + (if Z.testbit (t_state r) 0 && Z.testbit (t_state r) 2 then 1 else 0)
        /\ Analyzer.no_target s'
           = Analyzer.no_target s + (if Z.testbit (t_state r) 0 then 0 else 1)
        /\ (if t_detect_dist r =? 0
            then Analyzer.min_distance s' = Analyzer.min_distance s
                 /\ Analyzer.max_distance s' = Analyzer.max_distance s
            else True)).
Proof.
  split.
  - intros state md me sd se dd s. cbn zeta.
    unfold AnalyzerCLI.update_statistics.
    cbn [AnalyzerCLI.total_frames AnalyzerCLI.moving_detections
         AnalyzerCLI.still_detections AnalyzerCLI.no_target
         AnalyzerCLI.min_distance AnalyzerCLI.max_distance].
    rewrite has_bits_1, has_bits_2, has_bits_4.
    destruct (Z.testbit state 0), (Z.testbit state 1), (Z.testbit state 2);
      cbn [andb Z.ltb Z.compare]; repeat split; lia.
  - intros r s. cbn zeta. unfold Analyzer.update_stats.
    cbn [Analyzer.total_frames Analyzer.moving_detections Analyzer.still_detections
         Analyzer.no_target Analyzer.min_distance Analyzer.max_distance].
    rewrite has_bits_1, has_bits_2, has_bits_4.
    destruct (Z.eqb_spec (t_detect_dist r) 0) as [->|Hne];
      destruct (Z.testbit (t_state r) 0), (Z.testbit (t_state r) 1),
               (Z.testbit (t_state r) 2);
      cbn [andb Z.ltb Z.compare]; repeat split; lia.
Qed.

(** ** C10: the minimum-distance sentinel *)

(** Pushing decoded records one after the other. *)
Definition push_all (rs : list Telemetry) (st : Analyzer.State) : Analyzer.State :=
  fold_left (fun s r => Analyzer.analyze_record r s) rs st.

(** The positive detection distances among the pushed records. *)
Definition positive_distances (rs : list Telemetry) : list Z :=
  filter (fun d => 0 <? d) (map t_detect_dist rs).

Lemma push_all_min_distance (rs : list Telemetry) (st : Analyzer.State) :
  Analyzer.min_distance (Analyzer.stats (push_all rs st))
  = fold_left Z.min (positive_distances rs) (Analyzer.min_distance (Analyzer.stats st)).
Proof.
  revert st; induction rs as [|r rs IH]; intros st; [reflexivity|].
  unfold push_all in *. cbn [fold_left]. rewrite IH.
  rewrite AnalyzerFacts.analyze_record_stats.
  unfold positive_distances. cbn [map filter Analyzer.update_stats Analyzer.min_distance].
  destruct (0 <? t_detect_dist r); reflexivity.
Qed.

Lemma fold_min_le_start (l : list Z) (a : Z) : fold_left Z.min l a <= a.
Proof.
  revert a; induction l as [|x l IH]; intros a; simpl; [lia|].
  specialize (IH (Z.min a x)). lia.
Qed.

Lemma fold_min_le_all (l : list Z) (a : Z) :
  Forall (fun d => fold_left Z.min l a <= d) l.
Proof.
  revert a; induction l as [|x l IH]; intros a; simpl; constructor.
  - pose proof (fold_min_le_start l (Z.min a x)). lia.
  - apply IH.
Qed.

Lemma fold_min_attained (l : list Z) (a : Z) :
  fold_left Z.min l a = a \/ In (fold_left Z.min l a) l.
Proof.
  revert a; induction l as [|x l IH]; intros a; simpl; [now left|].
  destruct (IH (Z.min a x)) as [H|H]; [|now right; right].
  rewrite H. destruct (Z.min_spec a x) as [[_ ->]|[_ ->]]; [now left|now right; left].
Qed.

(** A 23-byte telemetry frame whose detection distance (bytes 15 and 16) is
    [lo + 256 * hi]. *)
Definition frame_with_distance (lo hi : Z) : bytes :=
  firstn 15 TestDataAnalysis.test_frame ++ [lo; hi; 0x10; 0x00] ++ FOOTER.

(** C10.  After any sequence of pushes into a fresh analyser, [min_distance]
    is the minimum of 9999 and the positive detection distances seen: it is
    at most 9999, at most every positive distance seen, and equal to 9999 or
    to one of them.  A 16-bit distance above 9999 (20000 or 65535) leaves it
    at 9999, exactly as a reading of 9999 cm or no reading at all does. *)
Theorem C10_min_distance_sentinel :
  (forall rs : list Telemetry,
     let m := Analyzer.min_distance (Analyzer.stats (push_all rs Analyzer.init)) in
     m = fold_left Z.min (positive_distances rs) 9999
     /\ m <= 9999
     /\ Forall (fun d => m <= d) (positive_distances rs)
     /\ (m = 9999 \/ In m (positive_distances rs)))
  /\ t_detect_dist (read_fields (frame_with_distance 0x20 0x4E)) = 20000
  /\ t_detect_dist (read_fields (frame_with_distance 0xFF 0xFF)) = 65535
  /\ t_detect_dist (read_fields (frame_with_distance 0x0F 0x27)) = 9999
  /\ Analyzer.min_distance (Analyzer.stats Analyzer.init) = 9999
  /\ Analyzer.min_distance
       (Analyzer.stats (Analyzer.process_received_data (frame_with_distance 0x20 0x4E)
                          Analyzer.init)) = 9999
  /\ Analyzer.min_distance
       (Analyzer.stats (Analyzer.process_received_data (frame_with_distance 0xFF 0xFF)
                          Analyzer.init)) = 9999
  /\ Analyzer.min_distance
       (Analyzer.stats (Analyzer.process_received_data (frame_with_distance 0x0F 0x27)
                          Analyzer.init)) = 9999
  /\ Analyzer.total_frames
       (Analyzer.stats (Analyzer.process_received_data (frame_with_distance 0x20 0x4E)
                          Analyzer.init)) = 1.
Proof.
  split.
  - intros rs m. subst m. rewrite push_all_min_distance.
    change (Analyzer.min_distance (Analyzer.stats Analyzer.init)) with 9999.
    repeat split.
    + apply fold_min_le_start.
    + apply fold_min_le_all.
    + apply fold_min_attained.
  - repeat split; reflexivity.
Qed.

(** ** C3: the byte buffer stays bounded *)

(** C3.  After every feed the byte buffer holds at most 1000 bytes, whatever
    the bytes are (so in particular when they never form a frame).  A feed
    that takes the buffer past 1000 bytes leaves exactly its last 500 bytes;
    otherwise nothing is removed.  In both cases what remains is a suffix of
    the old buffer followed by the chunk: only front bytes are discarded.
    The clean-up of [ld2412_enhanced_gui.py], with marks 2000 and 1000,
    likewise leaves a suffix of at most 2000 bytes. *)
Theorem C3_buffer_bounded :
  (forall (chunks : list bytes) (st : Analyzer.State),
     Forall (fun s => (length (Analyzer.raw_buffer s) <= 1000)%nat)
            (Analyzer.feed_trace chunks st))
  /\ (forall (data : bytes) (st : Analyzer.State),
        let b := Analyzer.raw_buffer st ++ data in
        let b' := Analyzer.raw_buffer (Analyzer.process_received_data data st) in
        (exists front, b = front ++ b')
        /\ if (1000 <? length b)%nat
           then b' = last_n 500 b /\ length b' = 500%nat
           else b' = b)
  /\ (forall raw : bytes,
        (length (cleanup 2000 1000 raw) <= 2000)%nat
        /\ exists front, raw = front ++ cleanup 2000 1000 raw).
Proof.
  assert (Hstep : forall data st,
             (length (Analyzer.raw_buffer (Analyzer.process_received_data data st))
              <= 1000)%nat).
  { intros data st. rewrite AnalyzerFacts.process_received_data_raw_buffer.
    unfold cleanup.
    destruct (1000 <? length _)%nat eqn:E.
    - rewrite length_last_n. lia.
    - apply Nat.ltb_ge in E. exact E. }
  split; [|split].
  - intros chunks; induction chunks as [|data rest IH]; intros st; simpl;
      constructor; [apply Hstep|apply IH].
  - intros data st b b'. subst b b'.
    rewrite AnalyzerFacts.process_received_data_raw_buffer. unfold cleanup.
    destruct (1000 <? length _)%nat eqn:E.
    + apply Nat.ltb_lt in E. split; [|split; [reflexivity|]].
      * eexists. apply last_n_suffix.
      * rewrite length_last_n. lia.
    + split; [|reflexivity]. now exists [].
  - intros raw. unfold cleanup.
    destruct (2000 <? length raw)%nat eqn:E.
    + split; [rewrite length_last_n; lia|]. eexists. apply last_n_suffix.
    + apply Nat.ltb_ge in E. split; [exact E|now exists []].
Qed.

(** ** C5: trend classification *)

(** The three trend counters of [self.patterns]. *)
Definition trend_counts (p : Analyzer.Patterns) : Z * Z * Z :=
  (Analyzer.approach p, Analyzer.leave p, Analyzer.stable p).

(** The ten most recent detection distances, as [analyze_patterns] takes
    them from the history. *)
Definition distance_window (st : Analyzer.State) : list Z :=
  last_n 10 (Analyzer.detection_distance (Analyzer.data_history st)).

Fixpoint strictly_decreasing (l : list Z) : bool :=
  match l with
  | a :: ((b :: _) as t) => (b <? a) && strictly_decreasing t
  | _ => true
  end.

Lemma classify_noise_trend_counts (states : list Z) (p : Analyzer.Patterns) :
  trend_counts (Analyzer.classify_noise states p) = trend_counts p.
Proof.
  unfold Analyzer.classify_noise. destruct (5 <? _); reflexivity.
Qed.

Lemma forallb_positive (w : list Z) :
  forallb (fun d => 0 <? d) w = true <-> Forall (fun d => 0 < d) w.
Proof.
  rewrite forallb_forall, Forall_forall.
  split; intros H d Hd; specialize (H d Hd); now apply Z.ltb_lt.
Qed.

Lemma classify_trend_spec (w : list Z) (p : Analyzer.Patterns) :
  let delta := last w 0 - hd 0 w in
  (Forall (fun d => 0 < d) w ->
     (delta < -50 ->
        trend_counts (Analyzer.classify_trend w p)
        = (Analyzer.approach p + 1, Analyzer.leave p, Analyzer.stable p))
     /\ (50 < delta ->
           trend_counts (Analyzer.classify_trend w p)
           = (Analyzer.approach p, Analyzer.leave p + 1, Analyzer.stable p))
     /\ (-50 <= delta <= 50 ->
           trend_counts (Analyzer.classify_trend w p)
           = (Analyzer.approach p, Analyzer.leave p, Analyzer.stable p + 1)))
  /\ (Exists (fun d => d <= 0) w ->
        trend_counts (Analyzer.classify_trend w p) = trend_counts p).
Proof.
  intros delta. unfold Analyzer.classify_trend. fold delta. split.
  - intros Hpos. apply forallb_positive in Hpos. rewrite Hpos.
    destruct (Z.ltb_spec delta (-50)), (Z.ltb_spec 50 delta);
      repeat split; intros; try lia; reflexivity.
  - intros Hex. destruct (forallb _ w) eqn:E; [|reflexivity].
    apply forallb_positive in E. apply Exists_exists in Hex as (d & Hin & Hd).
    rewrite Forall_forall in E. specialize (E d Hin). lia.
Qed.

Lemma deque_append_room {A} (m : nat) (x : A) (d : list A) :
  (length d < m)%nat -> deque_append m x d = d ++ [x].
Proof.
  intros H. unfold deque_append. apply last_n_all.
  rewrite length_app. simpl. lia.
Qed.

(** With fewer than ten distances in the history nothing is classified. *)
Lemma push_all_short (rs : list Telemetry) (st : Analyzer.State) :
  (length (Analyzer.detection_distance (Analyzer.data_history st)) + length rs < 10)%nat ->
  Analyzer.patterns (push_all rs st) = Analyzer.patterns st
  /\ Analyzer.detection_distance (Analyzer.data_history (push_all rs st))
     = Analyzer.detection_distance (Analyzer.data_history st) ++ map t_detect_dist rs.
Proof.
  revert st; induction rs as [|r rs IH]; intros st Hlen.
  - simpl. now rewrite app_nil_r.
  - unfold push_all in *. cbn [fold_left length map] in *.
    assert (Hdd : Analyzer.detection_distance
                    (Analyzer.data_history (Analyzer.analyze_record r st))
                  = Analyzer.detection_distance (Analyzer.data_history st)
                    ++ [t_detect_dist r]).
    { rewrite AnalyzerFacts.analyze_record_history.
      cbn [Analyzer.record_history Analyzer.detection_distance].
      apply deque_append_room. lia. }
    destruct (IH (Analyzer.analyze_record r st)) as [Hp Hd].
    { rewrite Hdd, length_app. simpl. lia. }
    rewrite Hp, Hd, Hdd, <- app_assoc. split; [|reflexivity].
    rewrite AnalyzerFacts.analyze_record_patterns. cbn zeta.
    rewrite AnalyzerFacts.analyze_record_history in Hdd. rewrite Hdd.
    assert (E : (length (Analyzer.detection_distance (Analyzer.data_history st)
                         ++ [t_detect_dist r]) <? 10)%nat = true).
    { apply Nat.ltb_lt. rewrite length_app. simpl. lia. }
    now rewrite E.
Qed.

Lemma strictly_decreasing_above_last (l : list Z) :
  strictly_decreasing l = true -> Forall (fun d => last l 0 <= d) l.
Proof.
  induction l as [|a [|b t] IH]; intros H.
  - constructor.
  - constructor; [simpl; lia|constructor].
  - cbn [strictly_decreasing] in H. apply andb_true_iff in H as [Hba Hd].
    apply Z.ltb_lt in Hba. specialize (IH Hd).
    change (last (a :: b :: t) 0) with (last (b :: t) 0).
    constructor; [|exact IH].
    inversion IH; subst. lia.
Qed.

(** The distances 200, 189, ..., 112, 100: ten positive values, strictly
    decreasing from 200 to 100. *)
Definition approaching_distances : list Z :=
  [200; 189; 178; 167; 156; 145; 134; 123; 112; 100].

(** [analyze_behavior] of [ld2412_analyzer_cli.py], called once per
    distance. *)
Definition cli_trend_after (ds : list Z) (p : AnalyzerCLI.Patterns)
  : AnalyzerCLI.Patterns :=
  fold_left (fun q d => AnalyzerCLI.analyze_behavior d q) ds p.

(** The three trend counters of the command-line analyser. *)
Definition cli_trend_counts (p : AnalyzerCLI.Patterns) : Z * Z * Z :=
  (AnalyzerCLI.approach_count p, AnalyzerCLI.leave_count p,
   AnalyzerCLI.stable_count p).

(** C5.  The classifier of [ld2412_analyzer.py] does what is claimed: for
    every update (a record pushed, then [analyze_patterns]), when the window
    of the last ten detection distances is full and all ten are positive,
    with [delta = window[last] - window[first]], exactly one counter moves:
    [approach] if [delta < -50], [leave] if [delta > 50], [stable]
    otherwise; a full window with a non-positive sample moves none of the
    three; and a fresh analyser fed ten distances strictly decreasing from
    200 to 100 ends with approach = 1, leave = 0, stable = 0.

    The classifier of [ld2412_analyzer_cli.py], [analyze_behavior], does
    not: it keeps a trailing window of ten distances but judges the last
    three of them, against 30 per step.  Fed 200, 189, ..., 112, 100 from
    fresh it ends with approach = 0, leave = 0, stable = 8: every one of the
    eight verdicts is [stable], and the tenth update, whose window holds
    exactly ten positive values with [delta = -100], moves [stable] and not
    [approach].  The same holds when the ten distances arrive as ten
    telemetry frames in one chunk. *)
Theorem C5_trend_classification :
  (forall (r : Telemetry) (st : Analyzer.State),
     let st' := Analyzer.analyze_record r st in
     let w := distance_window st' in
     let delta := last w 0 - hd 0 w in
     let p := Analyzer.patterns st in
     length w = 10%nat ->
     (Forall (fun d => 0 < d) w ->
        (delta < -50 ->
           trend_counts (Analyzer.patterns st')
           = (Analyzer.approach p + 1, Analyzer.leave p, Analyzer.stable p))
        /\ (50 < delta ->
              trend_counts (Analyzer.patterns st')
              = (Analyzer.approach p, Analyzer.leave p + 1, Analyzer.stable p))
        /\ (-50 <= delta <= 50 ->
              trend_counts (Analyzer.patterns st')
              = (Analyzer.approach p, Analyzer.leave p, Analyzer.stable p + 1)))
     /\ (Exists (fun d => d <= 0) w ->
           trend_counts (Analyzer.patterns st') = trend_counts p))
  /\ (forall rs : list Telemetry,
        length rs = 10%nat ->
        strictly_decreasing (map t_detect_dist rs) = true ->
        hd 0 (map t_detect_dist rs) = 200 ->
        last (map t_detect_dist rs) 0 = 100 ->
        trend_counts (Analyzer.patterns (push_all rs Analyzer.init)) = (1, 0, 0))
  /\ (forall clock : nat -> Z,
        let p0 := AnalyzerCLI.patterns (AnalyzerCLI.init clock) in
        let p9 := cli_trend_after (firstn 9 approaching_distances) p0 in
        let p10 := AnalyzerCLI.analyze_behavior 100 p9 in
        let w := AnalyzerCLI.distance_trend p10 in
        p10 = cli_trend_after approaching_distances p0
        /\ w = approaching_distances
        /\ length w = 10%nat
        /\ Forall (fun d => 0 < d) w
        /\ strictly_decreasing w = true
        /\ last w 0 - hd 0 w = -100
        /\ cli_trend_counts p9 = (0, 0, 7)
        /\ cli_trend_counts p10 = (0, 0, 8)
        /\ AnalyzerCLI.patterns
             (AnalyzerCLI.receive clock
                (concat (map (fun d => frame_with_distance d 0) approaching_distances))
                (AnalyzerCLI.init clock))
           = p10).
Proof.
  split; [|split].
  - intros r st st' w delta p Hw.
    assert (Hp : trend_counts (Analyzer.patterns st')
                 = trend_counts (Analyzer.classify_trend w p)).
    { subst st' w p. unfold distance_window in *.
      rewrite AnalyzerFacts.analyze_record_history in *.
      rewrite AnalyzerFacts.analyze_record_patterns. cbn zeta.
      rewrite length_last_n in Hw.
      assert (E : (length (Analyzer.detection_distance
                             (Analyzer.record_history r (Analyzer.data_history st)))
                   <? 10)%nat = false) by (apply Nat.ltb_ge; lia).
      rewrite E. apply classify_noise_trend_counts. }
    rewrite Hp. apply classify_trend_spec.
  - intros rs Hlen Hdec Hhd Hlast.
    destruct (exists_last (l := rs)) as (rs9 & r10 & ->).
    { intros ->. discriminate. }
    rewrite length_app in Hlen. simpl in Hlen.
    destruct (push_all_short rs9 Analyzer.init) as [Hp Hd]; [simpl; lia|].
    unfold push_all in *. rewrite fold_left_app. cbn [fold_left].
    set (st9 := fold_left _ rs9 Analyzer.init) in *.
    assert (Hdd : Analyzer.detection_distance
                    (Analyzer.record_history r10 (Analyzer.data_history st9))
                  = map t_detect_dist (rs9 ++ [r10])).
    { cbn [Analyzer.record_history Analyzer.detection_distance].
      rewrite Hd. simpl. rewrite map_app. simpl.
      apply deque_append_room. rewrite length_map. lia. }
    rewrite AnalyzerFacts.analyze_record_patterns. cbn zeta. rewrite Hdd.
    assert (Hlen10 : length (map t_detect_dist (rs9 ++ [r10])) = 10%nat).
    { rewrite length_map, length_app. simpl. lia. }
    assert (E : (length (map t_detect_dist (rs9 ++ [r10])) <? 10)%nat = false).
    { rewrite Hlen10. reflexivity. }
    rewrite E, classify_noise_trend_counts, Hp.
    rewrite (last_n_all 10) by lia.
    pose proof (classify_trend_spec (map t_detect_dist (rs9 ++ [r10]))
                  (Analyzer.patterns Analyzer.init)) as [Hpos _].
    cbn zeta in Hpos. rewrite Hhd, Hlast in Hpos.
    destruct Hpos as [Happroach _].
    + apply strictly_decreasing_above_last in Hdec. rewrite Hlast in Hdec.
      eapply Forall_impl; [|exact Hdec]. simpl. intros d Hdle. lia.
    + rewrite Happroach by lia. reflexivity.
  - intros clock. cbv zeta.
    repeat match goal with |- _ /\ _ => split end;
      try (vm_compute; reflexivity).
    vm_compute. repeat constructor.
Qed.

(** Ten records with detection distances 200, 189, ..., 112, 100. *)
Definition record_at (d : Z) : Telemetry :=
  {| t_state := 0x03; t_move_dist := d; t_move_energy := 50;
     t_still_dist := 0; t_still_energy := 0; t_detect_dist := d |}.

Definition approaching_records : list Telemetry :=
  map record_at approaching_distances.

Lemma C5_witness :
  trend_counts (Analyzer.patterns (push_all approaching_records Analyzer.init)) = (1, 0, 0)
  /\ trend_counts
       (Analyzer.patterns
          (Analyzer.analyze_record (record_at 100)
             (push_all (firstn 9 approaching_records) Analyzer.init)))
     = (1, 0, 0).
Proof.
  split.
  - apply (proj1 (proj2 C5_trend_classification)); reflexivity.
  - refine (proj1 (proj1 (proj1 C5_trend_classification (record_at 100)
                             (push_all (firstn 9 approaching_records) Analyzer.init)
                             _) _) _).
    + reflexivity.
    + vm_compute. repeat constructor.
    + vm_compute. reflexivity.
Defined.

(** ** C4: resynchronisation after a false header *)










Section Resync.
Context {St : Type}.
Variable handler : bytes -> St -> St.


End Resync.






(** ** C9: a frame left in the buffer is decoded again on every feed *)

(** A span that the scan of [ld2412_analyzer.py], run on it alone, hands to
    the parser whole, and that is long enough to be decoded. *)
Definition complete_frame (F : bytes) : Prop :=
  scan_step unbounded_hi F 0 = (Some F, length F) /\ (23 <= length F)%nat.

(** [magic] occurs somewhere in [buffer]. *)
Definition occursb (magic buffer : bytes) : bool :=
  existsb (fun j => bytes_eqb (slice buffer j (j + 4)) magic) (seq 0 (length buffer)).

(** The records one scan pass pushes for the spans it finds: every span of
    at least 23 bytes, decoded. *)
Definition decoded (frames : list bytes) : list Telemetry :=
  map read_fields (filter (fun f => (23 <=? length f)%nat) frames).

(** The records pushed by one pass over the buffer [B], which always starts
    at index 0. *)
Definition pass_records (B : bytes) : list Telemetry :=
  decoded (frames_of unbounded_hi B).

(** A [deque(maxlen=100)] after the values [new] were appended to it. *)
Definition window_after (old new : list Z) : list Z := last_n 100 (old ++ new).

(** One append to the ['time'] deque: the entry is the length before it. *)
Definition stamp (l : list Z) : list Z := deque_append 100 (Z.of_nat (length l)) l.

(** How many of the records satisfy [p]. *)
Definition tally (p : Telemetry -> bool) (rs : list Telemetry) : Z :=
  Z.of_nat (length (filter p rs)).

Definition is_present (r : Telemetry) : bool := has_bits (t_state r) 0x01.
Definition is_moving (r : Telemetry) : bool := is_present r && has_bits (t_state r) 0x02.
Definition is_still (r : Telemetry) : bool := is_present r && has_bits (t_state r) 0x04.
Definition is_absent (r : Telemetry) : bool := negb (is_present r).

(** What [analyze_patterns] does to the pattern counters when the distance
    and state deques read [dd] and [ts]. *)
Definition verdict (dd ts : list Z) (p : Analyzer.Patterns) : Analyzer.Patterns :=
  if (length dd <? 10)%nat then p
  else Analyzer.classify_noise (last_n 10 ts)
         (Analyzer.classify_trend (last_n 10 dd) p).

(** No history deque holds more than its [maxlen]. *)
Definition windows_bounded (h : Analyzer.History) : Prop :=
  (length (Analyzer.time h) <= 100)%nat
  /\ (length (Analyzer.moving_distance h) <= 100)%nat
  /\ (length (Analyzer.moving_energy h) <= 100)%nat
  /\ (length (Analyzer.still_distance h) <= 100)%nat
  /\ (length (Analyzer.still_energy h) <= 100)%nat
  /\ (length (Analyzer.detection_distance h) <= 100)%nat
  /\ (length (Analyzer.target_state h) <= 100)%nat.

(** The analyser that holds the bytes [B] and has pushed the one record [r]
    [m] times over, [m >= 1], and nothing else: every deque holds the last
    100 copies, every counter that [r] moves stands at [m], the distance
    extrema are those of the one distance, and from the tenth push on each
    push of a positive distance is one [stable] verdict. *)
Definition after_repeats (B : bytes) (r : Telemetry) (m : nat) : Analyzer.State :=
  let k := Nat.min 100 m in
  let d := t_detect_dist r in
  {| Analyzer.raw_buffer := B;
     Analyzer.data_history :=
       {| Analyzer.time :=
            last_n 100 (map (fun j => Z.of_nat (Nat.min 100 j)) (seq 0 m));
          Analyzer.moving_distance := repeat (t_move_dist r) k;
          Analyzer.moving_energy := repeat (t_move_energy r) k;
          Analyzer.still_distance := repeat (t_still_dist r) k;
          Analyzer.still_energy := repeat (t_still_energy r) k;
          Analyzer.detection_distance := repeat d k;
          Analyzer.target_state := repeat (t_state r) k |};
     Analyzer.stats :=
       {| Analyzer.total_frames := Z.of_nat m;
          Analyzer.moving_detections := if is_moving r then Z.of_nat m else 0;
          Analyzer.still_detections := if is_still r then Z.of_nat m else 0;
          Analyzer.no_target := if is_absent r then Z.of_nat m else 0;
          Analyzer.avg_moving_distance := 0;
          Analyzer.avg_still_distance := 0;
          Analyzer.max_distance := if 0 <? d then d else 0;
          Analyzer.min_distance := if 0 <? d then Z.min 9999 d else 9999 |};
     Analyzer.patterns :=
       {| Analyzer.approach := 0;
          Analyzer.leave := 0;
          Analyzer.stable := if 0 <? d then Z.max 0 (Z.of_nat m - 9) else 0;
          Analyzer.noise := 0 |} |}.

(** The command-line tool [ld2412_cli.py] that holds the bytes [B] after the
    chunks [chunks] arrived, each of which made the scan find the one
    telemetry span [F] again. *)
Definition cli_after_chunks (B F : bytes) (chunks : list bytes) : Cli.State :=
  {| Cli.raw_buffer := B;
     Cli.stats := {| Cli.total_bytes := Z.of_nat (length (concat chunks));
                     Cli.data_frames := Z.of_nat (length chunks);
                     Cli.cmd_frames := 0 |};
     Cli.console :=
       flat_map (fun c => [Cli.Received c; Cli.DataFrame F (Cli.parse_data_frame F)])
                chunks |}.

(** With a complete frame at the front of the buffer, the first iteration
    of every scan pass matches it, whatever follows. *)
Lemma scan_step_front (F X : bytes) :
  complete_frame F ->
  scan_step unbounded_hi (F ++ X) 0 = (Some F, length F).
Proof.
  intros [Hstep HlenF]. unfold scan_step in *.
  cbn [Nat.add] in *. rewrite (slice_app_l F X 0 4) by lia.
  destruct (bytes_eqb (slice F 0 4) HEADER); [|discriminate].
  unfold find_footer, unbounded_hi in *.
  destruct (find_footer_from F 8 (length F - 3 - 8)) as [e|] eqn:E; [|discriminate].
  injection Hstep as Hslice He. subst e.
  apply find_footer_from_some in E as (k & Hk & Hke & Hfoot & Hfirst).
  rewrite (find_footer_from_first (F ++ X) _ 8 k).
  - rewrite <- Hke, slice_app_l by lia. now rewrite Hslice.
  - rewrite length_app. lia.
  - rewrite slice_app_l by lia. exact Hfoot.
  - intros k' Hk'. rewrite slice_app_l by lia. now apply Hfirst.
Qed.

Lemma slice_beyond {A} (b : list A) (lo hi : nat) :
  (length b <= lo)%nat -> slice b lo hi = [].
Proof. intros H. unfold slice. rewrite skipn_all2 by lia. apply firstn_nil. Qed.

Lemma occursb_false (magic buffer : bytes) :
  length magic = 4%nat -> occursb magic buffer = false ->
  forall j, slice buffer j (j + 4) <> magic.
Proof.
  intros Hm H j Heq. unfold occursb in H.
  destruct (Nat.lt_ge_cases j (length buffer)) as [Hlt|Hge].
  - assert (Hex : existsb (fun j => bytes_eqb (slice buffer j (j + 4)) magic)
                          (seq 0 (length buffer)) = true).
    { apply existsb_exists. exists j. split; [apply in_seq; lia|].
      now apply bytes_eqb_eq. }
    congruence.
  - rewrite slice_beyond in Heq by lia. subst magic. discriminate.
Qed.

(** A magic that does not occur in a buffer does not occur in a prefix of
    it. *)
Lemma absent_in_prefix (magic A B : bytes) :
  length magic = 4%nat ->
  (forall j, slice (A ++ B) j (j + 4) <> magic) ->
  forall j, slice A j (j + 4) <> magic.
Proof.
  intros Hm H j Heq.
  assert (Hlen : (j + 4 <= length A)%nat).
  { apply (f_equal (@length Z)) in Heq. unfold slice in Heq.
    rewrite length_firstn, length_skipn in Heq. lia. }
  apply (H j). now rewrite slice_app_l.
Qed.

(** *** The scan finds again what it found before *)

Module Rescan.

(** Behind a cursor from which no footer magic can be reached the parser is
    not called any more. *)
Lemma nothing_after {St} (handler : bytes -> St -> St) (buffer : bytes) (i0 : nat) :
  (forall j, (i0 + 8 <= j < length buffer - 3)%nat ->
             slice buffer j (j + 4) <> FOOTER) ->
  forall fuel i st, (i0 <= i)%nat ->
    frame_loop unbounded_hi handler fuel buffer i st = st.
Proof.
  intros Hno. induction fuel as [|fuel IH]; intros i st Hi; [reflexivity|].
  cbn [frame_loop].
  destruct (i + 7 <? length buffer)%nat; [|reflexivity].
  assert (Hstep : scan_step unbounded_hi buffer i = (None, (i + 1)%nat)).
  { unfold scan_step. destruct (bytes_eqb _ HEADER); [|reflexivity].
    assert (Hnone : find_footer buffer (i + 8) (unbounded_hi i (length buffer)) = None).
    { unfold find_footer, unbounded_hi. apply find_footer_from_none.
      intros k Hk. apply Hno. lia. }
    now rewrite Hnone. }
  rewrite Hstep. apply IH. lia.
Qed.

(** A step that hands nothing to the parser: no header at the cursor, or no
    footer anywhere behind it. *)
Lemma scan_step_none (B : bytes) (i e : nat) :
  scan_step unbounded_hi B i = (None, e) ->
  e = (i + 1)%nat
  /\ (bytes_eqb (slice B i (i + 4)) HEADER = false
      \/ forall j, (i + 8 <= j < length B - 3)%nat -> slice B j (j + 4) <> FOOTER).
Proof.
  unfold scan_step.
  destruct (bytes_eqb (slice B i (i + 4)) HEADER).
  - destruct (find_footer B (i + 8) (unbounded_hi i (length B))) as [e'|] eqn:E;
      [discriminate|].
    intros [= <-]. split; [reflexivity|right].
    unfold find_footer, unbounded_hi in E.
    rewrite find_footer_from_none in E. intros j Hj. apply E. lia.
  - intros [= <-]. split; [reflexivity|now left].
Qed.

(** A span found in [B] is found, at the same place, in [B] with more bytes
    behind it. *)
Lemma scan_step_app_some (B D : bytes) (i e : nat) (f : bytes) :
  scan_step unbounded_hi B i = (Some f, e) ->
  scan_step unbounded_hi (B ++ D) i = (Some f, e).
Proof.
  unfold scan_step.
  destruct (bytes_eqb (slice B i (i + 4)) HEADER) eqn:EH; [|discriminate].
  unfold find_footer, unbounded_hi.
  destruct (find_footer_from B (i + 8) (length B - 3 - (i + 8))) as [e'|] eqn:E;
    [|discriminate].
  intros [= <- <-].
  apply find_footer_from_some in E as (k & Hk & -> & Hf & Hfirst).
  rewrite slice_app_l by lia. rewrite EH.
  rewrite (find_footer_from_first (B ++ D) _ (i + 8) k).
  - now rewrite slice_app_l by lia.
  - rewrite length_app. lia.
  - now rewrite slice_app_l by lia.
  - intros k' Hk'. rewrite slice_app_l by lia. now apply Hfirst.
Qed.

Lemma scan_step_app_no_header (B D : bytes) (i : nat) :
  (i + 4 <= length B)%nat ->
  bytes_eqb (slice B i (i + 4)) HEADER = false ->
  scan_step unbounded_hi (B ++ D) i = (None, (i + 1)%nat).
Proof.
  intros Hi EH. unfold scan_step. rewrite slice_app_l by lia. now rewrite EH.
Qed.

Lemma collect_app (B D : bytes) (n : nat) :
  forall i, (length B - i <= n)%nat ->
  exists more,
    frame_loop unbounded_hi (fun frame a => a ++ [frame]) (length (B ++ D)) (B ++ D) i []
    = frame_loop unbounded_hi (fun frame a => a ++ [frame]) (length B) B i [] ++ more.
Proof.
  induction n as [|n IH]; intros i Hi.
  - rewrite (frame_loop_done _ _ (length B) B) by lia. now eexists.
  - destruct (Nat.le_gt_cases (length B) (i + 7)) as [Hend|Hin].
    { rewrite (frame_loop_done _ _ (length B) B) by lia. now eexists. }
    rewrite (frame_loop_unfold _ _ (length B) B) by lia.
    pose proof (scan_step_advances unbounded_hi B i) as Hadv.
    destruct (scan_step unbounded_hi B i) as [[f|] e] eqn:E; cbn [fst snd deliver] in *.
    + rewrite (frame_loop_unfold _ _ (length (B ++ D)) (B ++ D))
        by (rewrite ?length_app; lia).
      rewrite (scan_step_app_some B D i e f E). cbn [fst snd deliver app].
      rewrite collect_acc. rewrite (collect_acc _ (length B)).
      destruct (IH e) as [more Hmore]; [lia|].
      exists more. rewrite Hmore. now rewrite <- app_assoc.
    + apply scan_step_none in E as [-> [EH|Hno]].
      * rewrite (frame_loop_unfold _ _ (length (B ++ D)) (B ++ D))
          by (rewrite ?length_app; lia).
        rewrite (scan_step_app_no_header B D i) by (lia || exact EH).
        cbn [fst snd deliver]. apply IH. lia.
      * rewrite (nothing_after _ B i Hno) by lia. now eexists.
Qed.

(** The spans found in a buffer are found again, first and in the same
    order, once more bytes have been appended to it. *)
Lemma frames_of_app (B D : bytes) :
  exists more, frames_of unbounded_hi (B ++ D) = frames_of unbounded_hi B ++ more.
Proof.
  unfold frames_of, scan_frames. apply (collect_app B D (length B)). lia.
Qed.

(** A complete frame followed by bytes without a footer magic is the one
    span found. *)
Lemma frames_of_single (F X : bytes) :
  complete_frame F ->
  (forall j, slice X j (j + 4) <> FOOTER) ->
  frames_of unbounded_hi (F ++ X) = [F].
Proof.
  intros HF Hno. unfold frames_of, scan_frames.
  pose proof HF as [_ HlenF].
  rewrite frame_loop_unfold by (rewrite ?length_app; lia).
  rewrite (scan_step_front F X HF). cbn [fst snd deliver app].
  apply (nothing_after _ (F ++ X) (length F)); [|lia].
  intros j Hj.
  replace j with (length F + (j - length F))%nat by lia.
  rewrite <- Nat.add_assoc, slice_app_shift. apply Hno.
Qed.
End Rescan.

Module Reprocessing.
Import Analyzer.

(** One feed with the frame still at the front of the buffer: the frame is
    parsed once more and nothing is removed. *)
Lemma feed_again (F rest data : bytes) (st : State) :
  complete_frame F ->
  raw_buffer st ++ data = F ++ rest ->
  (length (F ++ rest) <= 1000)%nat ->
  raw_buffer (process_received_data data st) = F ++ rest
  /\ total_frames (stats st) + 1
     <= total_frames (stats (process_received_data data st)).
Proof.
  intros HF Hbuf Hlen. split.
  - rewrite AnalyzerFacts.process_received_data_raw_buffer, Hbuf.
    unfold cleanup.
    assert (E : (1000 <? length (F ++ rest))%nat = false) by (apply Nat.ltb_ge; lia).
    now rewrite E.
  - unfold process_received_data, analyze_frames. cbn [raw_buffer stats].
    rewrite Hbuf. unfold scan_frames.
    destruct HF as [Hstep HlenF].
    rewrite frame_loop_unfold by (rewrite ?length_app; lia).
    rewrite (scan_step_front F rest (conj Hstep HlenF)). cbn [fst snd deliver].
    rewrite frame_loop_fold.
    etransitivity; [|apply AnalyzerFacts.fold_parse_total_frames_mono].
    unfold parse_and_analyze_frame.
    assert (E : (length F <? 23)%nat = false) by (apply Nat.ltb_ge; lia).
    rewrite E, AnalyzerFacts.analyze_record_stats. simpl. lia.
Qed.

Lemma feed_all_again (F : bytes) (cs : list bytes) (rest : bytes) (st : State) :
  complete_frame F ->
  raw_buffer st = F ++ rest ->
  (length (F ++ rest ++ concat cs) <= 1000)%nat ->
  raw_buffer (feed_all cs st) = F ++ rest ++ concat cs
  /\ total_frames (stats st) + Z.of_nat (length cs)
     <= total_frames (stats (feed_all cs st)).
Proof.
  intros HF. revert rest st; induction cs as [|c cs IH]; intros rest st Hbuf Hlen.
  - simpl. rewrite app_nil_r. split; [exact Hbuf|lia].
  - cbn [feed_all fold_left concat length] in *.
    destruct (feed_again F (rest ++ c) c st HF) as [Hb Ht].
    { rewrite Hbuf. now rewrite app_assoc. }
    { rewrite !length_app in *. lia. }
    destruct (IH (rest ++ c) (process_received_data c st) Hb) as [Hb' Ht'].
    { rewrite <- app_assoc. exact Hlen. }
    fold (feed_all cs (process_received_data c st)).
    split; [now rewrite Hb', <- app_assoc|lia].
Qed.

(** An empty feed with exactly the frame in the buffer is one more run of
    the parser on it. *)
Lemma feed_empty (F : bytes) (st : State) :
  complete_frame F -> (length F <= 1000)%nat ->
  raw_buffer st = F ->
  process_received_data [] st = parse_and_analyze_frame F st.
Proof.
  intros HF Hlen Hbuf.
  unfold process_received_data, analyze_frames. cbn [raw_buffer].
  rewrite app_nil_r, Hbuf.
  assert (Hst : {| raw_buffer := F; data_history := data_history st;
                   stats := stats st; patterns := patterns st |} = st).
  { destruct st; simpl in *; now subst. }
  rewrite Hst. unfold scan_frames.
  pose proof (scan_step_front F [] HF) as Hstep. rewrite app_nil_r in Hstep.
  destruct HF as [_ HlenF].
  rewrite frame_loop_unfold by lia. rewrite Hstep. cbn [fst snd deliver].
  rewrite frame_loop_done by lia.
  set (st' := parse_and_analyze_frame F st).
  assert (Hb : raw_buffer st' = F).
  { subst st'. now rewrite AnalyzerFacts.parse_raw_buffer. }
  rewrite Hb. unfold cleanup.
  assert (E : (1000 <? length F)%nat = false) by (apply Nat.ltb_ge; lia).
  rewrite E. destruct st'; simpl in *; now subst.
Qed.

Lemma feed_all_empty (F : bytes) (n : nat) (st : State) :
  complete_frame F -> (length F <= 1000)%nat ->
  raw_buffer st = F ->
  feed_all (repeat [] n) st = Nat.iter n (parse_and_analyze_frame F) st.
Proof.
  intros HF Hlen. revert st; induction n as [|n IH]; intros st Hbuf; [reflexivity|].
  rewrite Nat.iter_succ_r.
  rewrite <- (feed_empty F st HF Hlen Hbuf).
  rewrite <- IH; [reflexivity|].
  rewrite (feed_empty F st HF Hlen Hbuf).
  now rewrite AnalyzerFacts.parse_raw_buffer.
Qed.
End Reprocessing.

(** The fresh analyser with [F] already in its byte buffer. *)
Definition holding (F : bytes) : Analyzer.State :=
  {| Analyzer.raw_buffer := F;
     Analyzer.data_history := Analyzer.data_history Analyzer.init;
     Analyzer.stats := Analyzer.stats Analyzer.init;
     Analyzer.patterns := Analyzer.patterns Analyzer.init |}.

(** *** What a pass pushes, field by field *)

Module Pushes.
Import Analyzer.

Lemma last_n_absorb {A} (m : nat) (l new : list A) :
  last_n m (last_n m l ++ new) = last_n m (l ++ new).
Proof.
  unfold last_n. set (k := (length l - m)%nat).
  assert (Hk : skipn k (l ++ new) = skipn k l ++ new).
  { rewrite skipn_app. replace (k - length l)%nat with 0%nat by lia. reflexivity. }
  rewrite <- Hk, skipn_skipn. f_equal.
  rewrite Hk, !length_app, length_skipn. lia.
Qed.

Lemma fold_deque_append {A} (m : nat) (new : list A) :
  forall old, (length old <= m)%nat ->
    fold_left (fun l x => deque_append m x l) new old = last_n m (old ++ new).
Proof.
  induction new as [|x new IH]; intros old Hold; cbn [fold_left].
  - rewrite app_nil_r. symmetry. now apply last_n_all.
  - rewrite IH by (unfold deque_append; rewrite length_last_n; lia).
    unfold deque_append. rewrite last_n_absorb, <- app_assoc. reflexivity.
Qed.

Lemma fold_left_same {A B} (f g : A -> B -> A) (l : list B) :
  (forall a b, f a b = g a b) ->
  forall a, fold_left f l a = fold_left g l a.
Proof.
  intros H. induction l as [|b l IH]; intros a; cbn [fold_left]; [reflexivity|].
  now rewrite H, IH.
Qed.

Lemma fold_left_shift {A} (f : A -> nat -> A) (l : list nat) (a : A) :
  fold_left f (map S l) a = fold_left (fun x k => f x (S k)) l a.
Proof.
  revert a; induction l as [|k l IH]; intros a; cbn [map fold_left]; [reflexivity|].
  apply IH.
Qed.

(** The parser run over spans is the push of their decoded records. *)
Lemma fold_parse_push (frames : list bytes) (st : State) :
  fold_left (fun s f => parse_and_analyze_frame f s) frames st
  = push_all (decoded frames) st.
Proof.
  revert st; induction frames as [|f fs IH]; intros st; [reflexivity|].
  cbn [fold_left]. rewrite IH. unfold decoded, parse_and_analyze_frame.
  cbn [filter].
  destruct (Nat.ltb_spec (length f) 23) as [Hs|Hl].
  - assert (E : (23 <=? length f)%nat = false) by (apply Nat.leb_gt; lia).
    now rewrite E.
  - assert (E : (23 <=? length f)%nat = true) by (apply Nat.leb_le; lia).
    now rewrite E.
Qed.

Lemma push_all_history (rs : list Telemetry) (st : State) :
  data_history (push_all rs st)
  = fold_left (fun h r => record_history r h) rs (data_history st).
Proof.
  revert st; induction rs as [|r rs IH]; intros st; [reflexivity|].
  unfold push_all in *. cbn [fold_left].
  now rewrite IH, AnalyzerFacts.analyze_record_history.
Qed.

Lemma push_all_stats (rs : list Telemetry) (st : State) :
  stats (push_all rs st) = fold_left (fun s r => update_stats r s) rs (stats st).
Proof.
  revert st; induction rs as [|r rs IH]; intros st; [reflexivity|].
  unfold push_all in *. cbn [fold_left].
  now rewrite IH, AnalyzerFacts.analyze_record_stats.
Qed.

(** The deques after a run of pushes. *)
Lemma history_windows (rs : list Telemetry) :
  forall h, windows_bounded h ->
    let h' := fold_left (fun h r => record_history r h) rs h in
    time h' = Nat.iter (length rs) stamp (time h)
    /\ moving_distance h' = window_after (moving_distance h) (map t_move_dist rs)
    /\ moving_energy h' = window_after (moving_energy h) (map t_move_energy rs)
    /\ still_distance h' = window_after (still_distance h) (map t_still_dist rs)
    /\ still_energy h' = window_after (still_energy h) (map t_still_energy rs)
    /\ detection_distance h'
       = window_after (detection_distance h) (map t_detect_dist rs)
    /\ target_state h' = window_after (target_state h) (map t_state rs)
    /\ windows_bounded h'.
Proof.
  unfold window_after.
  induction rs as [|r rs IH]; intros h Hb; cbn [fold_left map length].
  - destruct Hb as (H1 & H2 & H3 & H4 & H5 & H6 & H7).
    rewrite !app_nil_r, !last_n_all by assumption.
    repeat split; assumption.
  - assert (Hb' : windows_bounded (record_history r h)).
    { unfold windows_bounded, record_history, deque_append.
      cbn [time moving_distance moving_energy still_distance still_energy
           detection_distance target_state].
      rewrite !length_last_n. repeat split; lia. }
    specialize (IH (record_history r h) Hb'). cbv zeta in IH.
    destruct IH as (I1 & I2 & I3 & I4 & I5 & I6 & I7 & I8).
    rewrite I1, I2, I3, I4, I5, I6, I7.
    repeat match goal with |- _ /\ _ => split end; [| | | | | | |exact I8];
      unfold record_history, deque_append;
      cbn [time moving_distance moving_energy still_distance still_energy
           detection_distance target_state];
      rewrite ?last_n_absorb, <- ?app_assoc; cbn [app]; try reflexivity.
    rewrite Nat.iter_succ_r. reflexivity.
Qed.

(** The counters and extrema after a run of pushes. *)
Lemma stats_counters (rs : list Telemetry) :
  forall s,
    let s' := fold_left (fun s r => update_stats r s) rs s in
    total_frames s' = total_frames s + Z.of_nat (length rs)
    /\ moving_detections s' = moving_detections s + tally is_moving rs
    /\ still_detections s' = still_detections s + tally is_still rs
    /\ no_target s' = no_target s + tally is_absent rs
    /\ max_distance s' = fold_left Z.max (positive_distances rs) (max_distance s)
    /\ min_distance s' = fold_left Z.min (positive_distances rs) (min_distance s)
    /\ avg_moving_distance s' = avg_moving_distance s
    /\ avg_still_distance s' = avg_still_distance s.
Proof.
  induction rs as [|r rs IH]; intros s; cbn [fold_left].
  - unfold tally, positive_distances. cbn [filter map length fold_left Z.of_nat].
    repeat split; lia.
  - specialize (IH (update_stats r s)). cbv zeta in IH.
    destruct IH as (I1 & I2 & I3 & I4 & I5 & I6 & I7 & I8).
    rewrite I1, I2, I3, I4, I5, I6, I7, I8.
    unfold update_stats, tally, positive_distances, is_moving, is_still, is_absent,
      is_present.
    cbn [total_frames moving_detections still_detections no_target max_distance
         min_distance avg_moving_distance avg_still_distance filter map].
    destruct (has_bits (t_state r) 1), (has_bits (t_state r) 2),
             (has_bits (t_state r) 4), (0 <? t_detect_dist r);
      cbn [andb negb length fold_left]; rewrite ?Nat2Z.inj_succ;
      repeat split; try reflexivity; lia.
Qed.

(** The pattern counters after a run of pushes: one verdict per push, on
    the deques as they read after that push. *)
Lemma push_all_patterns (rs : list Telemetry) :
  forall st,
    patterns (push_all rs st)
    = fold_left
        (fun p k =>
           verdict
             (window_after (detection_distance (data_history st))
                           (firstn k (map t_detect_dist rs)))
             (window_after (target_state (data_history st))
                           (firstn k (map t_state rs)))
             p)
        (seq 1 (length rs)) (patterns st).
Proof.
  induction rs as [|r rs IH]; intros st; [reflexivity|].
  change (push_all (r :: rs) st) with (push_all rs (analyze_record r st)).
  rewrite IH. cbn [length map seq fold_left].
  rewrite <- (seq_shift (length rs) 1), fold_left_shift.
  rewrite AnalyzerFacts.analyze_record_patterns, AnalyzerFacts.analyze_record_history.
  cbv zeta. unfold window_after, verdict.
  cbn [record_history detection_distance target_state firstn]. unfold deque_append.
  apply fold_left_same. intros p k.
  cbn [firstn]. rewrite !last_n_absorb, <- !app_assoc. reflexivity.
Qed.

(** Pushing does not look at the byte buffer. *)
Lemma push_all_with_buffer (rs : list Telemetry) (st : State) (B : bytes) :
  let st0 := {| raw_buffer := B; data_history := data_history st;
                stats := stats st; patterns := patterns st |} in
  data_history (push_all rs st0) = data_history (push_all rs st)
  /\ stats (push_all rs st0) = stats (push_all rs st)
  /\ patterns (push_all rs st0) = patterns (push_all rs st).
Proof.
  cbv zeta. rewrite !push_all_history, !push_all_stats, !push_all_patterns.
  repeat split; reflexivity.
Qed.

(** A feed is the push of the records of one pass over the whole buffer,
    and the clean-up of the buffer. *)
Lemma process_as_push (data : bytes) (st : State) :
  let B := raw_buffer st ++ data in
  let st' := process_received_data data st in
  raw_buffer st' = cleanup 1000 500 B
  /\ data_history st' = data_history (push_all (pass_records B) st)
  /\ stats st' = stats (push_all (pass_records B) st)
  /\ patterns st' = patterns (push_all (pass_records B) st).
Proof.
  cbv zeta. split; [apply AnalyzerFacts.process_received_data_raw_buffer|].
  unfold process_received_data, analyze_frames.
  cbn [raw_buffer data_history stats patterns].
  rewrite scan_frames_fold, fold_parse_push.
  apply push_all_with_buffer.
Qed.
End Pushes.

(** *** One frame and nothing else: the closed form *)

Module Stationary.
Import Analyzer.

Lemma skipn_repeat {A} (x : A) (k n : nat) :
  skipn k (repeat x n) = repeat x (n - k).
Proof.
  revert n; induction k as [|k IH]; intros [|n]; cbn [skipn repeat Nat.sub];
    try reflexivity.
  apply IH.
Qed.

Lemma last_n_repeat {A} (x : A) (m n : nat) :
  last_n m (repeat x n) = repeat x (Nat.min m n).
Proof.
  unfold last_n. rewrite skipn_repeat, repeat_length. f_equal. lia.
Qed.

(** One more copy in a deque of copies. *)
Lemma deque_append_repeat {A} (x : A) (m : nat) :
  deque_append 100 x (repeat x (Nat.min 100 m)) = repeat x (Nat.min 100 (S m)).
Proof.
  unfold deque_append.
  replace (repeat x (Nat.min 100 m) ++ [x]) with (repeat x (S (Nat.min 100 m)))
    by (cbn [repeat]; apply repeat_cons).
  rewrite last_n_repeat. f_equal. lia.
Qed.

Lemma stamp_next (m : nat) :
  stamp (last_n 100 (map (fun j => Z.of_nat (Nat.min 100 j)) (seq 0 m)))
  = last_n 100 (map (fun j => Z.of_nat (Nat.min 100 j)) (seq 0 (S m))).
Proof.
  unfold stamp, deque_append.
  rewrite length_last_n, length_map, length_seq, Pushes.last_n_absorb.
  rewrite seq_S, map_app. reflexivity.
Qed.

Lemma trend_of_copies (d : Z) (p : Patterns) :
  classify_trend (repeat d 10) p
  = if 0 <? d
    then {| approach := approach p; leave := leave p; stable := stable p + 1;
            noise := noise p |}
    else p.
Proof.
  unfold classify_trend. cbn [repeat forallb last hd].
  destruct (0 <? d); cbn [andb]; [|reflexivity].
  rewrite Z.sub_diag. reflexivity.
Qed.

Lemma noise_of_copies (s : Z) (p : Patterns) :
  classify_noise (repeat s 10) p = p.
Proof.
  unfold classify_noise. cbn [repeat state_changes]. rewrite Z.eqb_refl. reflexivity.
Qed.

(** The first push into a fresh analyser. *)
Lemma first_push (B : bytes) (r : Telemetry) :
  analyze_record r (holding B) = after_repeats B r 1.
Proof.
  unfold analyze_record, analyze_patterns, after_repeats, holding.
  cbn [raw_buffer data_history stats patterns record_history init
       time moving_distance moving_energy still_distance still_energy
       detection_distance target_state].
  unfold update_stats, is_moving, is_still, is_absent, is_present.
  cbn [total_frames moving_detections still_detections no_target max_distance
       min_distance avg_moving_distance avg_still_distance].
  destruct (has_bits (t_state r) 1), (has_bits (t_state r) 2),
           (has_bits (t_state r) 4), (Z.ltb_spec 0 (t_detect_dist r));
    cbn [andb negb]; try (rewrite Z.max_r by lia); reflexivity.
Qed.

(** One more push of the same record. *)
Lemma next_push (B : bytes) (r : Telemetry) (m : nat) :
  (1 <= m)%nat ->
  analyze_record r (after_repeats B r m) = after_repeats B r (S m).
Proof.
  intros Hm.
  assert (Hh : record_history r (data_history (after_repeats B r m))
               = data_history (after_repeats B r (S m))).
  { unfold record_history, after_repeats.
    cbn [data_history time moving_distance moving_energy still_distance
         still_energy detection_distance target_state].
    fold (stamp (last_n 100 (map (fun j => Z.of_nat (Nat.min 100 j)) (seq 0 m)))).
    rewrite stamp_next, !deque_append_repeat. reflexivity. }
  assert (Hs : update_stats r (stats (after_repeats B r m))
               = stats (after_repeats B r (S m))).
  { unfold update_stats, after_repeats, is_moving, is_still, is_absent, is_present.
    cbn [stats total_frames moving_detections still_detections no_target
         max_distance min_distance avg_moving_distance avg_still_distance].
    rewrite Nat2Z.inj_succ.
    destruct (has_bits (t_state r) 1), (has_bits (t_state r) 2),
             (has_bits (t_state r) 4), (Z.ltb_spec 0 (t_detect_dist r));
      cbn [andb negb]; f_equal; lia. }
  assert (Hp : (if (Nat.min 100 (S m) <? 10)%nat then patterns (after_repeats B r m)
                else classify_noise (repeat (t_state r) 10)
                       (classify_trend (repeat (t_detect_dist r) 10)
                          (patterns (after_repeats B r m))))
               = patterns (after_repeats B r (S m))).
  { rewrite noise_of_copies, trend_of_copies. unfold after_repeats.
    cbn [patterns approach leave stable noise].
    destruct (Nat.ltb_spec (Nat.min 100 (S m)) 10) as [Hshort|Hfull];
      destruct (0 <? t_detect_dist r); try reflexivity; f_equal; lia. }
  unfold analyze_record, analyze_patterns.
  cbn [data_history stats patterns raw_buffer]. rewrite Hh, Hs.
  transitivity {| raw_buffer := B;
                  data_history := data_history (after_repeats B r (S m));
                  stats := stats (after_repeats B r (S m));
                  patterns := patterns (after_repeats B r (S m)) |};
    [|reflexivity].
  rewrite <- Hp.
  change (detection_distance (data_history (after_repeats B r (S m))))
    with (repeat (t_detect_dist r) (Nat.min 100 (S m))).
  change (target_state (data_history (after_repeats B r (S m))))
    with (repeat (t_state r) (Nat.min 100 (S m))).
  change (raw_buffer (after_repeats B r m)) with B.
  rewrite repeat_length, !last_n_repeat.
  destruct (Nat.ltb_spec (Nat.min 100 (S m)) 10) as [Hshort|Hfull].
  - reflexivity.
  - replace (Nat.min 10 (Nat.min 100 (S m))) with 10%nat by lia. reflexivity.
Qed.

(** One feed while the complete frame [F] at the front of the buffer is
    all the scan can find: the record of [F] is pushed once more. *)
Lemma feed_pushes_front (F X data : bytes) (st : State) :
  complete_frame F ->
  raw_buffer st ++ data = F ++ X ->
  (forall j, slice X j (j + 4) <> FOOTER) ->
  (length (F ++ X) <= 1000)%nat ->
  let st1 := analyze_record (read_fields F) st in
  process_received_data data st
  = {| raw_buffer := F ++ X; data_history := data_history st1;
       stats := stats st1; patterns := patterns st1 |}.
Proof.
  intros HF Hbuf Hno Hlen. cbv zeta.
  destruct (Pushes.process_as_push data st) as (Hb & Hh & Hs & Hp).
  rewrite Hbuf in *. unfold pass_records in *.
  rewrite (Rescan.frames_of_single F X HF Hno) in *.
  assert (Hdec : decoded [F] = [read_fields F]).
  { unfold decoded. cbn [filter]. destruct HF as [_ HlenF].
    assert (E : (23 <=? length F)%nat = true) by (apply Nat.leb_le; lia).
    now rewrite E. }
  rewrite Hdec in *. unfold push_all in *. cbn [fold_left] in *.
  assert (Hc : cleanup 1000 500 (F ++ X) = F ++ X).
  { unfold cleanup.
    assert (E : (1000 <? length (F ++ X))%nat = false) by (apply Nat.ltb_ge; lia).
    now rewrite E. }
  rewrite Hc in Hb.
  destruct (process_received_data data st) as [b h s p].
  cbn [raw_buffer data_history stats patterns] in *. now subst.
Qed.

Lemma with_buffer_after (B B' : bytes) (r : Telemetry) (m : nat) :
  {| raw_buffer := B';
     data_history := data_history (after_repeats B r m);
     stats := stats (after_repeats B r m);
     patterns := patterns (after_repeats B r m) |}
  = after_repeats B' r m.
Proof. reflexivity. Qed.

(** Every further feed that brings no footer magic pushes the record of
    [F] once more. *)
Lemma feed_all_repeats (F : bytes) (cs : list bytes) :
  complete_frame F ->
  forall (X : bytes) (m : nat),
    (1 <= m)%nat ->
    (forall j, slice (X ++ concat cs) j (j + 4) <> FOOTER) ->
    (length (F ++ X ++ concat cs) <= 1000)%nat ->
    feed_all cs (after_repeats (F ++ X) (read_fields F) m)
    = after_repeats (F ++ X ++ concat cs) (read_fields F) (m + length cs).
Proof.
  intros HF. induction cs as [|c cs IH]; intros X m Hm Hno Hlen.
  - cbn [feed_all fold_left concat length]. now rewrite app_nil_r, Nat.add_0_r.
  - cbn [feed_all fold_left concat length] in *.
    fold (feed_all cs
            (process_received_data c (after_repeats (F ++ X) (read_fields F) m))).
    rewrite (feed_pushes_front F (X ++ c) c).
    + rewrite next_push by exact Hm. rewrite with_buffer_after.
      rewrite (IH (X ++ c) (S m)).
      * rewrite <- !app_assoc. f_equal. lia.
      * lia.
      * rewrite <- app_assoc. exact Hno.
      * rewrite <- !app_assoc. exact Hlen.
    + exact HF.
    + cbn [raw_buffer after_repeats]. now rewrite app_assoc.
    + apply (absent_in_prefix FOOTER (X ++ c) (concat cs) eq_refl).
      rewrite <- app_assoc. exact Hno.
    + rewrite !length_app in *. lia.
Qed.

(** The first chunk is the frame itself; then come the others. *)
Lemma feed_all_from_fresh (F : bytes) (cs : list bytes) :
  complete_frame F ->
  (forall j, slice (concat cs) j (j + 4) <> FOOTER) ->
  (length (F ++ concat cs) <= 1000)%nat ->
  feed_all (F :: cs) init
  = after_repeats (F ++ concat cs) (read_fields F) (S (length cs)).
Proof.
  intros HF Hno Hlen. cbn [feed_all fold_left].
  fold (feed_all cs (process_received_data F init)).
  rewrite (feed_pushes_front F [] F init HF).
  - change {| raw_buffer := F ++ [];
              data_history := data_history (analyze_record (read_fields F) init);
              stats := stats (analyze_record (read_fields F) init);
              patterns := patterns (analyze_record (read_fields F) init) |}
      with {| raw_buffer := F ++ [];
              data_history := data_history (analyze_record (read_fields F) (holding F));
              stats := stats (analyze_record (read_fields F) (holding F));
              patterns := patterns (analyze_record (read_fields F) (holding F)) |}.
    rewrite first_push, with_buffer_after.
    apply (feed_all_repeats F cs HF [] 1%nat); [lia|exact Hno|exact Hlen].
  - cbn [raw_buffer init app]. now rewrite app_nil_r.
  - intros j. rewrite slice_beyond by (cbn [length]; lia). discriminate.
  - rewrite app_nil_r. rewrite length_app in Hlen. lia.
Qed.
End Stationary.

(** *** The same scan in [ld2412_cli.py] *)

Module CliRescan.

Lemma find_magic_footer (buffer : bytes) (n j : nat) :
  Cli.find_magic_from FOOTER buffer j n = find_footer_from buffer j n.
Proof.
  revert j; induction n as [|n IH]; intros j; cbn [Cli.find_magic_from find_footer_from];
    [reflexivity|].
  destruct (bytes_eqb (slice buffer j (j + 4)) FOOTER); [reflexivity|apply IH].
Qed.

Lemma find_magic_from_absent (magic buffer : bytes) (n j : nat) :
  (forall k, (j <= k < j + n)%nat -> slice buffer k (k + 4) <> magic) ->
  Cli.find_magic_from magic buffer j n = None.
Proof.
  revert j; induction n as [|n IH]; intros j H; cbn [Cli.find_magic_from];
    [reflexivity|].
  assert (E : bytes_eqb (slice buffer j (j + 4)) magic = false).
  { apply bytes_eqb_neq, H. lia. }
  rewrite E. apply IH. intros k Hk. apply H. lia.
Qed.

(** A complete telemetry frame at the front of the buffer is the first span
    of every pass of the command-line tool as well. *)
Lemma scan_step_data_front (F X : bytes) :
  complete_frame F ->
  Cli.scan_step (F ++ X) 0 = (Some (Cli.DataSpan F), length F).
Proof.
  intros HF. pose proof (scan_step_front F X HF) as H.
  unfold scan_step in H. unfold Cli.scan_step.
  destruct (bytes_eqb (slice (F ++ X) 0 (0 + 4)) HEADER); [|discriminate].
  rewrite find_magic_footer. unfold find_footer, unbounded_hi in H.
  destruct (find_footer_from (F ++ X) (0 + 8) (length (F ++ X) - 3 - (0 + 8)));
    [|discriminate].
  injection H as -> ->. reflexivity.
Qed.

(** Behind a cursor from which neither footer magic can be reached nothing
    is parsed or counted any more. *)
Lemma nothing_more (buffer : bytes) (i0 : nat) :
  (forall j, (i0 + 8 <= j)%nat -> slice buffer j (j + 4) <> FOOTER) ->
  (forall j, (i0 + 8 <= j)%nat -> slice buffer j (j + 4) <> Cli.CMD_FOOTER) ->
  forall fuel i st, (i0 <= i)%nat -> Cli.frame_loop fuel buffer i st = st.
Proof.
  intros Hd Hc. induction fuel as [|fuel IH]; intros i st Hi; [reflexivity|].
  cbn [Cli.frame_loop].
  destruct (i + 7 <? length buffer)%nat; [|reflexivity].
  assert (Hstep : Cli.scan_step buffer i = (None, (i + 1)%nat)).
  { unfold Cli.scan_step.
    rewrite !find_magic_from_absent by (intros k Hk; (apply Hd || apply Hc); lia).
    destruct (bytes_eqb _ HEADER); [reflexivity|].
    destruct (bytes_eqb _ Cli.CMD_HEADER); reflexivity. }
  rewrite Hstep. cbn [Cli.handle]. apply IH. lia.
Qed.

(** One feed while the complete frame [F] at the front of the buffer is
    all the scan can find: [F] is printed and counted once more. *)
Lemma feed_counts_front (F X data : bytes) (st : Cli.State) :
  complete_frame F ->
  Cli.raw_buffer st ++ data = F ++ X ->
  (forall j, slice X j (j + 4) <> FOOTER) ->
  (forall j, slice X j (j + 4) <> Cli.CMD_FOOTER) ->
  (length (F ++ X) <= 1000)%nat ->
  Cli.process_received_data data st
  = {| Cli.raw_buffer := F ++ X;
       Cli.stats :=
         {| Cli.total_bytes := Cli.total_bytes (Cli.stats st) + Z.of_nat (length data);
            Cli.data_frames := Cli.data_frames (Cli.stats st) + 1;
            Cli.cmd_frames := Cli.cmd_frames (Cli.stats st) |};
       Cli.console :=
         (Cli.console st ++ [Cli.Received data])
         ++ [Cli.DataFrame F (Cli.parse_data_frame F)] |}.
Proof.
  intros HF Hbuf Hd Hc Hlen. pose proof HF as [_ HlenF].
  unfold Cli.process_received_data, Cli.analyze_frames.
  cbn [Cli.raw_buffer]. rewrite Hbuf.
  assert (Hshift : forall magic, (forall j, slice X j (j + 4) <> magic) ->
             forall j, (length F + 8 <= j)%nat -> slice (F ++ X) j (j + 4) <> magic).
  { intros magic Hm j Hj.
    replace j with (length F + (j - length F))%nat by lia.
    rewrite <- Nat.add_assoc, slice_app_shift. apply Hm. }
  destruct (length (F ++ X)) as [|fuel] eqn:EF; [rewrite length_app in EF; lia|].
  cbn [Cli.frame_loop]. rewrite EF.
  assert (E : (0 + 7 <? S fuel)%nat = true)
    by (apply Nat.ltb_lt; rewrite length_app in EF; lia).
  rewrite E, (scan_step_data_front F X HF).
  rewrite (nothing_more (F ++ X) (length F) (Hshift _ Hd) (Hshift _ Hc)) by lia.
  cbn [Cli.handle Cli.raw_buffer Cli.stats Cli.console Cli.total_bytes
       Cli.data_frames Cli.cmd_frames].
  unfold cleanup.
  assert (Ec : (1000 <? length (F ++ X))%nat = false) by (apply Nat.ltb_ge; lia).
  rewrite Ec. reflexivity.
Qed.

Lemma next_chunk (F X c : bytes) (prev : list bytes) :
  complete_frame F ->
  (forall j, slice (X ++ c) j (j + 4) <> FOOTER) ->
  (forall j, slice (X ++ c) j (j + 4) <> Cli.CMD_FOOTER) ->
  (length (F ++ X ++ c) <= 1000)%nat ->
  Cli.process_received_data c (cli_after_chunks (F ++ X) F prev)
  = cli_after_chunks (F ++ X ++ c) F (prev ++ [c]).
Proof.
  intros HF Hd Hc Hlen.
  rewrite (feed_counts_front F (X ++ c) c); try assumption.
  - unfold cli_after_chunks.
    cbn [Cli.stats Cli.console Cli.total_bytes Cli.data_frames Cli.cmd_frames].
    rewrite concat_app, flat_map_app, !length_app. cbn [concat flat_map length].
    rewrite !app_nil_r, !Nat2Z.inj_add, <- app_assoc. reflexivity.
  - cbn [Cli.raw_buffer cli_after_chunks]. now rewrite app_assoc.
Qed.

Lemma feed_all_chunks (F : bytes) (cs : list bytes) :
  complete_frame F ->
  forall (X : bytes) (prev : list bytes),
    (forall j, slice (X ++ concat cs) j (j + 4) <> FOOTER) ->
    (forall j, slice (X ++ concat cs) j (j + 4) <> Cli.CMD_FOOTER) ->
    (length (F ++ X ++ concat cs) <= 1000)%nat ->
    Cli.feed_all cs (cli_after_chunks (F ++ X) F prev)
    = cli_after_chunks (F ++ X ++ concat cs) F (prev ++ cs).
Proof.
  intros HF. induction cs as [|c cs IH]; intros X prev Hd Hc Hlen.
  - cbn [Cli.feed_all fold_left concat]. now rewrite !app_nil_r.
  - cbn [Cli.feed_all fold_left concat] in *.
    fold (Cli.feed_all cs
            (Cli.process_received_data c (cli_after_chunks (F ++ X) F prev))).
    rewrite (next_chunk F X c prev HF).
    + rewrite (IH (X ++ c) (prev ++ [c])).
      * rewrite <- !app_assoc. reflexivity.
      * rewrite <- app_assoc. exact Hd.
      * rewrite <- app_assoc. exact Hc.
      * rewrite <- !app_assoc. exact Hlen.
    + apply (absent_in_prefix FOOTER (X ++ c) (concat cs) eq_refl).
      rewrite <- app_assoc. exact Hd.
    + apply (absent_in_prefix Cli.CMD_FOOTER (X ++ c) (concat cs) eq_refl).
      rewrite <- app_assoc. exact Hc.
    + rewrite !length_app in *. lia.
Qed.

Lemma cli_feed_all_from_fresh (F : bytes) (cs : list bytes) :
  complete_frame F ->
  (forall j, slice (concat cs) j (j + 4) <> FOOTER) ->
  (forall j, slice (concat cs) j (j + 4) <> Cli.CMD_FOOTER) ->
  (length (F ++ concat cs) <= 1000)%nat ->
  Cli.feed_all (F :: cs) Cli.init = cli_after_chunks (F ++ concat cs) F (F :: cs).
Proof.
  intros HF Hd Hc Hlen. cbn [Cli.feed_all fold_left].
  fold (Cli.feed_all cs (Cli.process_received_data F Cli.init)).
  assert (H1 : Cli.process_received_data F Cli.init = cli_after_chunks (F ++ []) F [F]).
  { rewrite (feed_counts_front F [] F Cli.init HF).
    - unfold cli_after_chunks. cbn [concat length flat_map app Cli.init Cli.stats
        Cli.console Cli.total_bytes Cli.data_frames Cli.cmd_frames].
      rewrite !app_nil_r. reflexivity.
    - cbn [Cli.raw_buffer Cli.init app]. now rewrite app_nil_r.
    - intros j. rewrite slice_beyond by (cbn [length]; lia). discriminate.
    - intros j. rewrite slice_beyond by (cbn [length]; lia). discriminate.
    - rewrite app_nil_r. rewrite length_app in Hlen. lia. }
  rewrite H1. apply (feed_all_chunks F cs HF [] [F]); assumption.
Qed.
End CliRescan.

(** C9.  Every scan pass of [ld2412_analyzer.py] starts at index 0 of the
    whole retained buffer, and the clean-up removes nothing while the buffer
    is at most 1000 bytes long.  So:

    - the spans a pass finds in a buffer are found again, first and in the
      same order, by the pass over the buffer with more bytes appended;
    - every feed, on any state, pushes the records of all the spans of the
      whole buffer, old and new: the frame count goes up by their number,
      the detection counters by the number of records with the bits set,
      the distance extrema take in every positive distance, each history
      deque ends as the last 100 of its old content followed by that field
      of all the records, the ['time'] deque is stamped once per record,
      and the pattern counters take one verdict per record, on the deques
      as they read after that record;
    - a complete frame [F] fed to a fresh analyser and followed by any
      chunks that bring no footer magic, the buffer staying within 1000
      bytes, has been pushed once per feed: after the [m]-th feed the state
      is [after_repeats] of [m] (frame count [m], the deques the last 100
      copies of its fields, [stable] at [m - 9] from the tenth feed on for a
      positive distance);
    - after [k] further feeds of any chunks the frame count is at least
      [k + 1], and with [n] empty feeds the state is that of [n + 1] runs
      of the parser on the one frame;
    - once the buffer has passed 1000 bytes and the frame is cut off, it is
      not decoded any more;
    - [ld2412_cli.py] rescans in the same way: the frame is printed and
      counted as a data frame once per chunk received. *)
Theorem C9_frame_decoded_on_every_feed :
  (forall B data : bytes,
     exists more : list bytes,
       frames_of unbounded_hi (B ++ data) = frames_of unbounded_hi B ++ more
       /\ pass_records (B ++ data) = pass_records B ++ decoded more)
  /\ (forall (data : bytes) (st : Analyzer.State),
        windows_bounded (Analyzer.data_history st) ->
        let B := Analyzer.raw_buffer st ++ data in
        let rs := pass_records B in
        let st' := Analyzer.process_received_data data st in
        let h := Analyzer.data_history st in
        let h' := Analyzer.data_history st' in
        let s := Analyzer.stats st in
        let s' := Analyzer.stats st' in
        Analyzer.raw_buffer st' = cleanup 1000 500 B
        /\ ((length B <= 1000)%nat -> Analyzer.raw_buffer st' = B)
        /\ Analyzer.total_frames s' = Analyzer.total_frames s + Z.of_nat (length rs)
        /\ Analyzer.moving_detections s'
           = Analyzer.moving_detections s + tally is_moving rs
        /\ Analyzer.still_detections s'
           = Analyzer.still_detections s + tally is_still rs
        /\ Analyzer.no_target s' = Analyzer.no_target s + tally is_absent rs
        /\ Analyzer.max_distance s'
           = fold_left Z.max (positive_distances rs) (Analyzer.max_distance s)
        /\ Analyzer.min_distance s'
           = fold_left Z.min (positive_distances rs) (Analyzer.min_distance s)
        /\ Analyzer.time h' = Nat.iter (length rs) stamp (Analyzer.time h)
        /\ Analyzer.moving_distance h'
           = window_after (Analyzer.moving_distance h) (map t_move_dist rs)
        /\ Analyzer.moving_energy h'
           = window_after (Analyzer.moving_energy h) (map t_move_energy rs)
        /\ Analyzer.still_distance h'
           = window_after (Analyzer.still_distance h) (map t_still_dist rs)
        /\ Analyzer.still_energy h'
           = window_after (Analyzer.still_energy h) (map t_still_energy rs)
        /\ Analyzer.detection_distance h'
           = window_after (Analyzer.detection_distance h) (map t_detect_dist rs)
        /\ Analyzer.target_state h'
           = window_after (Analyzer.target_state h) (map t_state rs)
        /\ Analyzer.patterns st'
           = fold_left
               (fun p k =>
                  verdict
                    (window_after (Analyzer.detection_distance h)
                                  (firstn k (map t_detect_dist rs)))
                    (window_after (Analyzer.target_state h)
                                  (firstn k (map t_state rs)))
                    p)
               (seq 1 (length rs)) (Analyzer.patterns st)
        /\ windows_bounded h')
  /\ (forall chunks : list bytes,
        windows_bounded (Analyzer.data_history (Analyzer.feed_all chunks Analyzer.init)))
  /\ (forall (F : bytes) (cs : list bytes),
        complete_frame F ->
        occursb FOOTER (concat cs) = false ->
        (length (F ++ concat cs) <= 1000)%nat ->
        Analyzer.feed_all (F :: cs) Analyzer.init
        = after_repeats (F ++ concat cs) (read_fields F) (S (length cs)))
  /\ (forall F : bytes,
        complete_frame F ->
        (forall cs : list bytes,
           (length (F ++ concat cs) <= 1000)%nat ->
           let st := Analyzer.feed_all (F :: cs) Analyzer.init in
           Analyzer.raw_buffer st = F ++ concat cs
           /\ 1 + Z.of_nat (length cs) <= Analyzer.total_frames (Analyzer.stats st))
        /\ (forall n : nat,
              (length F <= 1000)%nat ->
              let st := Analyzer.feed_all (F :: repeat [] n) Analyzer.init in
              st = Nat.iter (S n) (Analyzer.parse_and_analyze_frame F) (holding F)
              /\ Analyzer.total_frames (Analyzer.stats st) = 1 + Z.of_nat n))
  /\ (let st := Analyzer.feed_all [frame23; repeat 0x00 978] Analyzer.init in
      Analyzer.raw_buffer st = repeat 0x00 500
      /\ Analyzer.total_frames (Analyzer.stats st) = 2
      /\ Analyzer.feed_all [[]; [0x00]; []] st
         = {| Analyzer.raw_buffer := repeat 0x00 501;
              Analyzer.data_history := Analyzer.data_history st;
              Analyzer.stats := Analyzer.stats st;
              Analyzer.patterns := Analyzer.patterns st |})
  /\ (forall (F : bytes) (cs : list bytes),
        complete_frame F ->
        occursb FOOTER (concat cs) = false ->
        occursb Cli.CMD_FOOTER (concat cs) = false ->
        (length (F ++ concat cs) <= 1000)%nat ->
        Cli.feed_all (F :: cs) Cli.init
        = cli_after_chunks (F ++ concat cs) F (F :: cs)).
Proof.
  assert (Hfeed : forall (data : bytes) (st : Analyzer.State),
             windows_bounded (Analyzer.data_history st) ->
             windows_bounded
               (Analyzer.data_history (Analyzer.process_received_data data st))).
  { intros data st Hb.
    destruct (Pushes.process_as_push data st) as (_ & Hh & _).
    rewrite Hh, Pushes.push_all_history.
    apply (Pushes.history_windows _ _ Hb). }
  split; [|split; [|split; [|split; [|split; [|split]]]]].
  - intros B data. destruct (Rescan.frames_of_app B data) as [more Hmore].
    exists more. split; [exact Hmore|].
    unfold pass_records, decoded. rewrite Hmore, filter_app, map_app. reflexivity.
  - intros data st Hb B rs st' h h' s s'.
    destruct (Pushes.process_as_push data st) as (Hraw & Hh & Hs & Hp).
    fold B rs st' in Hraw, Hh, Hs, Hp.
    rewrite Pushes.push_all_history in Hh. rewrite Pushes.push_all_stats in Hs.
    rewrite Pushes.push_all_patterns in Hp.
    destruct (Pushes.history_windows rs h Hb)
      as (H1 & H2 & H3 & H4 & H5 & H6 & H7 & H8).
    destruct (Pushes.stats_counters rs s)
      as (S1 & S2 & S3 & S4 & S5 & S6 & _ & _).
    fold h in Hh, Hp. fold s in Hs. fold h' in Hh. fold s' in Hs.
    rewrite <- Hh in H1, H2, H3, H4, H5, H6, H7, H8.
    rewrite <- Hs in S1, S2, S3, S4, S5, S6.
    split; [exact Hraw|]. split.
    { intros Hlen. rewrite Hraw. unfold cleanup.
      assert (E : (1000 <? length B)%nat = false) by (apply Nat.ltb_ge; lia).
      now rewrite E. }
    repeat match goal with |- _ /\ _ => split end; assumption.
  - intros chunks. unfold Analyzer.feed_all.
    assert (Hgen : forall st, windows_bounded (Analyzer.data_history st) ->
               windows_bounded
                 (Analyzer.data_history
                    (fold_left (fun s data => Analyzer.process_received_data data s)
                               chunks st))).
    { induction chunks as [|c cs IH]; intros st Hb; cbn [fold_left]; [exact Hb|].
      apply IH, Hfeed, Hb. }
    apply Hgen. unfold windows_bounded. cbn. repeat split; lia.
  - intros F cs HF Hno Hlen.
    apply Stationary.feed_all_from_fresh; [exact HF| |exact Hlen].
    now apply occursb_false.
  - intros F HF. split.
    + intros cs Hlen st. subst st.
      change (F :: cs) with ([F] ++ cs). unfold Analyzer.feed_all.
      rewrite fold_left_app. fold (Analyzer.feed_all cs). cbn [fold_left].
      destruct (Reprocessing.feed_again F [] F Analyzer.init HF) as [Hb Ht].
      { simpl. now rewrite app_nil_r. }
      { rewrite length_app in *. simpl. lia. }
      rewrite app_nil_r in Hb.
      destruct (Reprocessing.feed_all_again F cs []
                  (Analyzer.process_received_data F Analyzer.init) HF) as [Hb' Ht'].
      { rewrite Hb. now rewrite app_nil_r. }
      { exact Hlen. }
      split; [exact Hb'|].
      change (Analyzer.total_frames (Analyzer.stats Analyzer.init)) with 0 in Ht.
      unfold Analyzer.feed_all in *. lia.
    + intros n Hlen st. subst st.
      assert (Hiter : Analyzer.feed_all (F :: repeat [] n) Analyzer.init
                      = Nat.iter (S n) (Analyzer.parse_and_analyze_frame F) (holding F)).
      { change (F :: repeat [] n) with ([F] ++ repeat [] n). unfold Analyzer.feed_all.
        rewrite fold_left_app. fold (Analyzer.feed_all (repeat [] n)). cbn [fold_left].
        assert (H1 : Analyzer.process_received_data F Analyzer.init
                     = Analyzer.parse_and_analyze_frame F (holding F)).
        { rewrite <- (Reprocessing.feed_empty F (holding F) HF Hlen eq_refl).
          unfold Analyzer.process_received_data. cbn [Analyzer.raw_buffer holding app].
          now rewrite app_nil_r. }
        rewrite H1, (Reprocessing.feed_all_empty F n _ HF Hlen).
        + now rewrite Nat.iter_succ_r.
        + now rewrite AnalyzerFacts.parse_raw_buffer. }
      split; [exact Hiter|]. rewrite Hiter.
      assert (Hcount : forall k st0,
                 Analyzer.total_frames
                   (Analyzer.stats (Nat.iter k (Analyzer.parse_and_analyze_frame F) st0))
                 = Analyzer.total_frames (Analyzer.stats st0) + Z.of_nat k).
      { induction k as [|k IH]; intros st0; [simpl; lia|].
        rewrite Nat.iter_succ. unfold Analyzer.parse_and_analyze_frame at 1.
        destruct HF as [_ HlenF].
        assert (E : (length F <? 23)%nat = false) by (apply Nat.ltb_ge; lia).
        rewrite E, AnalyzerFacts.analyze_record_stats.
        cbn [Analyzer.update_stats Analyzer.total_frames]. rewrite IH. lia. }
      rewrite Hcount.
      change (Analyzer.total_frames (Analyzer.stats (holding F))) with 0. lia.
  - cbv zeta. repeat split; vm_compute; reflexivity.
  - intros F cs HF Hd Hc Hlen.
    apply CliRescan.cli_feed_all_from_fresh; [exact HF| | |exact Hlen];
      now apply occursb_false.
Qed.

(** Eleven one-byte chunks; behind the frame of 23 bytes: twelve feeds. *)
Definition eleven_chunks : list bytes := repeat [0x00] 11.

Definition twelve_feeds : list bytes := frame23 :: eleven_chunks.

Lemma C9_witness :
  Analyzer.total_frames
    (Analyzer.stats (Analyzer.process_received_data frame23 Analyzer.init))
  = Analyzer.total_frames (Analyzer.stats Analyzer.init)
    + Z.of_nat (length (pass_records (Analyzer.raw_buffer Analyzer.init ++ frame23)))
  /\ Analyzer.feed_all (frame23 :: eleven_chunks) Analyzer.init
     = after_repeats (frame23 ++ concat eleven_chunks) (read_fields frame23)
                     (S (length eleven_chunks))
  /\ Analyzer.patterns (Analyzer.feed_all twelve_feeds Analyzer.init)
     = {| Analyzer.approach := 0; Analyzer.leave := 0; Analyzer.stable := 3;
          Analyzer.noise := 0 |}
  /\ Analyzer.detection_distance
       (Analyzer.data_history (Analyzer.feed_all twelve_feeds Analyzer.init))
     = repeat 120 12
  /\ (let st := Analyzer.feed_all (frame23 :: [[0x00]; []; [0x01; 0x02]]) Analyzer.init in
      Analyzer.raw_buffer st = frame23 ++ [0x00; 0x01; 0x02]
      /\ 1 + 3 <= Analyzer.total_frames (Analyzer.stats st))
  /\ Analyzer.total_frames
       (Analyzer.stats (Analyzer.feed_all (frame23 :: repeat [] 3) Analyzer.init))
     = 1 + 3
  /\ Cli.feed_all (frame23 :: eleven_chunks) Cli.init
     = cli_after_chunks (frame23 ++ concat eleven_chunks) frame23
                        (frame23 :: eleven_chunks).
Proof.
  assert (HF : complete_frame frame23).
  { split; [reflexivity|]. vm_compute. lia. }
  assert (Hb : windows_bounded (Analyzer.data_history Analyzer.init)).
  { unfold windows_bounded. cbn. repeat split; lia. }
  assert (Hd : occursb FOOTER (concat eleven_chunks) = false)
    by (vm_compute; reflexivity).
  assert (Hc : occursb Cli.CMD_FOOTER (concat eleven_chunks) = false)
    by (vm_compute; reflexivity).
  assert (Hlen : (length (frame23 ++ concat eleven_chunks) <= 1000)%nat)
    by (vm_compute; lia).
  pose proof (proj1 (proj2 C9_frame_decoded_on_every_feed) frame23 Analyzer.init Hb)
    as H2.
  cbv zeta in H2. destruct H2 as (_ & _ & H2 & _).
  pose proof (proj1 (proj2 (proj2 (proj2 C9_frame_decoded_on_every_feed)))
                frame23 eleven_chunks HF Hd Hlen) as H3.
  split; [exact H2|]. split; [exact H3|].
  split; [unfold twelve_feeds; rewrite H3; vm_compute; reflexivity|].
  split; [unfold twelve_feeds; rewrite H3; vm_compute; reflexivity|].
  split; [|split].
  - apply (proj1 (proj1 (proj2 (proj2 (proj2 (proj2 C9_frame_decoded_on_every_feed))))
                    frame23 HF) [[0x00]; []; [0x01; 0x02]]).
    vm_compute. lia.
  - apply (proj2 (proj1 (proj2 (proj2 (proj2 (proj2 C9_frame_decoded_on_every_feed))))
                    frame23 HF) 3%nat).
    vm_compute. lia.
  - apply (proj2 (proj2 (proj2 (proj2 (proj2 (proj2 C9_frame_decoded_on_every_feed)))))
             frame23 eleven_chunks HF Hd Hc Hlen).
Defined.

(** ** C8: two runs on the same chunks *)

Module TwoRuns.
Import AnalyzerCLI.

Ltac open_state s :=
  let h := fresh "h" in let t := fresh "t" in
  destruct s as [? ? h t ? ?]; destruct h, t.

(** Parsing a frame under two clocks keeps two states equal up to their
    clock readings. *)
Lemma parse_data_frame_agree (clock1 clock2 : nat -> Z) (frame : bytes)
      (s1 s2 : State) :
  without_clock s1 = without_clock s2 ->
  without_clock (parse_data_frame clock1 frame s1)
  = without_clock (parse_data_frame clock2 frame s2).
Proof.
  intros H. unfold parse_data_frame.
  destruct (length frame <? 23)%nat; [exact H|].
  open_state s1; open_state s2.
  unfold without_clock in *. cbn [raw_buffer data_queue data_history stats patterns
    clock_reads time moving_distance moving_energy still_distance still_energy
    detection_distance target_state light_value total_frames moving_detections
    still_detections no_target max_distance min_distance max_moving_energy
    max_still_energy start_time update_statistics] in *.
  injection H as; subst. reflexivity.
Qed.

Lemma fold_parse_agree (clock1 clock2 : nat -> Z) (frames : list bytes)
      (s1 s2 : State) :
  without_clock s1 = without_clock s2 ->
  without_clock (fold_left (fun s f => parse_data_frame clock1 f s) frames s1)
  = without_clock (fold_left (fun s f => parse_data_frame clock2 f s) frames s2).
Proof.
  revert s1 s2; induction frames as [|f fs IH]; intros s1 s2 H; simpl; [exact H|].
  apply IH, parse_data_frame_agree, H.
Qed.

Lemma without_clock_raw_buffer (s1 s2 : State) :
  without_clock s1 = without_clock s2 -> raw_buffer s1 = raw_buffer s2.
Proof. intros H. now apply (f_equal raw_buffer) in H. Qed.

Lemma extend_agree (b : bytes) (s1 s2 : State) :
  without_clock s1 = without_clock s2 ->
  without_clock
    {| raw_buffer := b; data_queue := data_queue s1;
       data_history := data_history s1; stats := stats s1;
       patterns := patterns s1; clock_reads := clock_reads s1 |}
  = without_clock
      {| raw_buffer := b; data_queue := data_queue s2;
         data_history := data_history s2; stats := stats s2;
         patterns := patterns s2; clock_reads := clock_reads s2 |}.
Proof.
  intros H. open_state s1; open_state s2.
  unfold without_clock in *. simpl in *. injection H as; subst. reflexivity.
Qed.

Lemma cleanup_agree (t1 t2 : State) :
  without_clock t1 = without_clock t2 ->
  without_clock
    {| raw_buffer := cleanup 1000 500 (raw_buffer t1); data_queue := data_queue t1;
       data_history := data_history t1; stats := stats t1;
       patterns := patterns t1; clock_reads := clock_reads t1 |}
  = without_clock
      {| raw_buffer := cleanup 1000 500 (raw_buffer t2); data_queue := data_queue t2;
         data_history := data_history t2; stats := stats t2;
         patterns := patterns t2; clock_reads := clock_reads t2 |}.
Proof.
  intros H. open_state t1; open_state t2.
  unfold without_clock in *. simpl in *. injection H as; subst. reflexivity.
Qed.

Lemma receive_agree (clock1 clock2 : nat -> Z) (data : bytes) (s1 s2 : State) :
  without_clock s1 = without_clock s2 ->
  without_clock (receive clock1 data s1) = without_clock (receive clock2 data s2).
Proof.
  intros H. unfold receive, analyze_frames. apply cleanup_agree.
  rewrite !scan_frames_fold. cbn [raw_buffer].
  rewrite (without_clock_raw_buffer s1 s2 H).
  apply fold_parse_agree, extend_agree, H.
Qed.

Lemma feed_all_agree (clock1 clock2 : nat -> Z) (chunks : list bytes) (s1 s2 : State) :
  without_clock s1 = without_clock s2 ->
  without_clock (feed_all clock1 chunks s1) = without_clock (feed_all clock2 chunks s2).
Proof.
  revert s1 s2; induction chunks as [|c cs IH]; intros s1 s2 H; simpl; [exact H|].
  apply IH, receive_agree, H.
Qed.
End TwoRuns.

(** The two runs store equally many clock readings. *)
Module ClockReadings.
Import AnalyzerCLI.

Definition same_count (s1 s2 : State) : Prop :=
  length (time (data_history s1)) = length (time (data_history s2)).

Lemma parse_same_count (clock1 clock2 : nat -> Z) (frame : bytes) (s1 s2 : State) :
  same_count s1 s2 ->
  same_count (parse_data_frame clock1 frame s1) (parse_data_frame clock2 frame s2).
Proof.
  unfold parse_data_frame, same_count. intros H.
  destruct (length frame <? 23)%nat; [exact H|].
  cbn [data_history time]. unfold deque_append.
  rewrite !length_last_n, !length_app. cbn [length]. lia.
Qed.

Lemma fold_same_count (clock1 clock2 : nat -> Z) (frames : list bytes) (s1 s2 : State) :
  same_count s1 s2 ->
  same_count (fold_left (fun s f => parse_data_frame clock1 f s) frames s1)
             (fold_left (fun s f => parse_data_frame clock2 f s) frames s2).
Proof.
  revert s1 s2; induction frames as [|f fs IH]; intros s1 s2 H; simpl; [exact H|].
  apply IH, parse_same_count, H.
Qed.

Lemma receive_same_count (clock1 clock2 : nat -> Z) (data : bytes) (s1 s2 : State) :
  without_clock s1 = without_clock s2 -> same_count s1 s2 ->
  same_count (receive clock1 data s1) (receive clock2 data s2).
Proof.
  intros Hw H. unfold receive, analyze_frames, same_count. cbn [data_history raw_buffer].
  rewrite !scan_frames_fold, (TwoRuns.without_clock_raw_buffer s1 s2 Hw).
  apply fold_same_count. exact H.
Qed.

Lemma feed_all_same_count (clock1 clock2 : nat -> Z) (chunks : list bytes)
      (s1 s2 : State) :
  without_clock s1 = without_clock s2 -> same_count s1 s2 ->
  same_count (feed_all clock1 chunks s1) (feed_all clock2 chunks s2).
Proof.
  revert s1 s2; induction chunks as [|c cs IH]; intros s1 s2 Hw H; simpl; [exact H|].
  apply IH; [apply TwoRuns.receive_agree, Hw|apply receive_same_count; assumption].
Qed.
End ClockReadings.

(** A clock that starts at 100 and advances by 7 per reading. *)
Definition late_clock (k : nat) : Z := 100 + 7 * Z.of_nat k.

(** C8, as stated, fails for the command-line analyser: its statistics hold
    the instance's start time and its history holds clock readings, so two
    instances fed the same single chunk under different clocks end in
    different statistics and histories. *)
Lemma C8_counterexample :
  ~ (forall (clock1 clock2 : nat -> Z) (chunks : list bytes),
       let s1 := AnalyzerCLI.feed_all clock1 chunks (AnalyzerCLI.init clock1) in
       let s2 := AnalyzerCLI.feed_all clock2 chunks (AnalyzerCLI.init clock2) in
       AnalyzerCLI.data_queue s1 = AnalyzerCLI.data_queue s2
       /\ AnalyzerCLI.data_history s1 = AnalyzerCLI.data_history s2
       /\ AnalyzerCLI.stats s1 = AnalyzerCLI.stats s2
       /\ AnalyzerCLI.patterns s1 = AnalyzerCLI.patterns s2).
Proof.
  intros H. specialize (H (fun _ => 0) late_clock [frame23]).
  destruct H as (_ & Hh & Hs & _).
  apply (f_equal AnalyzerCLI.time) in Hh. vm_compute in Hh. discriminate.
Qed.

(** C8, amended.  Two instances of the command-line analyser fed the same
    chunks in the same order, each under its own clock, queue the same
    records and alerts and end with the same byte buffer, the same history
    of distances, energies, states and light values, the same counters and
    extrema, and the same behaviour state; they may differ only in the clock
    readings they store (the ['time'] history and [start_time]), of which
    they hold equally many: the ['time'] histories have the same length and
    the clock has been read the same number of times. *)
Theorem C8_two_runs_agree_up_to_clock :
  forall (clock1 clock2 : nat -> Z) (chunks : list bytes),
    let s1 := AnalyzerCLI.feed_all clock1 chunks (AnalyzerCLI.init clock1) in
    let s2 := AnalyzerCLI.feed_all clock2 chunks (AnalyzerCLI.init clock2) in
    AnalyzerCLI.without_clock s1 = AnalyzerCLI.without_clock s2
    /\ AnalyzerCLI.records (AnalyzerCLI.data_queue s1)
       = AnalyzerCLI.records (AnalyzerCLI.data_queue s2)
    /\ AnalyzerCLI.patterns s1 = AnalyzerCLI.patterns s2
    /\ AnalyzerCLI.total_frames (AnalyzerCLI.stats s1)
       = AnalyzerCLI.total_frames (AnalyzerCLI.stats s2)
    /\ length (AnalyzerCLI.time (AnalyzerCLI.data_history s1))
       = length (AnalyzerCLI.time (AnalyzerCLI.data_history s2))
    /\ AnalyzerCLI.clock_reads s1 = AnalyzerCLI.clock_reads s2.
Proof.
  intros clock1 clock2 chunks s1 s2.
  assert (H : AnalyzerCLI.without_clock s1 = AnalyzerCLI.without_clock s2).
  { apply TwoRuns.feed_all_agree. reflexivity. }
  split; [exact H|].
  split; [exact (f_equal (fun s => AnalyzerCLI.records (AnalyzerCLI.data_queue s)) H)|].
  split; [exact (f_equal AnalyzerCLI.patterns H)|].
  split; [exact (f_equal (fun s => AnalyzerCLI.total_frames (AnalyzerCLI.stats s)) H)|].
  split; [|exact (f_equal AnalyzerCLI.clock_reads H)].
  apply ClockReadings.feed_all_same_count; reflexivity.
Qed.

(** * Further properties of the scanner and the analysers *)

(** ** Shape of the spans handed to the parser *)

Lemma length_slice {A} (b : list A) (lo hi : nat) :
  (hi <= length b)%nat -> length (slice b lo hi) = (hi - lo)%nat.
Proof.
  intros H. unfold slice. rewrite length_firstn, length_skipn. lia.
Qed.

Lemma firstn_slice {A} (b : list A) (lo hi n : nat) :
  (lo + n <= hi)%nat -> firstn n (slice b lo hi) = slice b lo (lo + n).
Proof.
  intros H. unfold slice. rewrite firstn_firstn.
  replace (Nat.min n (hi - lo)) with n by lia.
  f_equal. lia.
Qed.

Lemma last_n_slice {A} (b : list A) (lo hi n : nat) :
  (lo + n <= hi)%nat -> (hi <= length b)%nat ->
  last_n n (slice b lo hi) = slice b (hi - n) hi.
Proof.
  intros H Hhi. unfold last_n. rewrite length_slice by lia.
  unfold slice. rewrite skipn_firstn_comm, skipn_skipn.
  replace (hi - lo - n + lo)%nat with (hi - n)%nat by lia.
  f_equal. lia.
Qed.

Section FrameShape.
Variable hi : nat -> nat -> nat.
(** Both footer searches stop at [len(buffer) - 3] at the latest. *)
Hypothesis hi_le : forall i len, (hi i len <= len - 3)%nat.

Lemma scan_step_some (buffer : bytes) (i e : nat) (frame : bytes) :
  scan_step hi buffer i = (Some frame, e) ->
  frame = slice buffer i e
  /\ slice buffer i (i + 4) = HEADER
  /\ slice buffer (e - 4) e = FOOTER
  /\ (i + 12 <= e)%nat /\ (e - 4 < hi i (length buffer))%nat /\ (e <= length buffer)%nat.
Proof.
  unfold scan_step.
  destruct (bytes_eqb (slice buffer i (i + 4)) HEADER) eqn:Eh; [|discriminate].
  destruct (find_footer _ _ _) as [e'|] eqn:Ef; [|discriminate].
  intros [= <- <-]. apply bytes_eqb_eq in Eh.
  unfold find_footer in Ef.
  apply find_footer_from_some in Ef as (k & Hk & -> & Hfoot & _).
  pose proof (hi_le i (length buffer)).
  replace (k + 4 - 4)%nat with k by lia.
  repeat split; try assumption; lia.
Qed.

(** A span handed to the parser begins with the header magic, ends with the
    footer magic and is at least 12 bytes long. *)
Lemma scan_step_shape (buffer : bytes) (i e : nat) (frame : bytes) :
  scan_step hi buffer i = (Some frame, e) ->
  firstn 4 frame = HEADER /\ last_n 4 frame = FOOTER
  /\ length frame = (e - i)%nat /\ (12 <= length frame)%nat.
Proof.
  intros H. apply scan_step_some in H as (-> & Hh & Hf & Hlo & _ & Hhi).
  rewrite firstn_slice, last_n_slice, length_slice by lia.
  repeat split; try assumption; lia.
Qed.

Lemma collected_Forall (Q : bytes -> Prop) (buffer : bytes) :
  (forall i e frame, scan_step hi buffer i = (Some frame, e) -> Q frame) ->
  forall fuel i,
    Forall Q (frame_loop hi (fun frame a => a ++ [frame]) fuel buffer i []).
Proof.
  intros HQ. induction fuel as [|fuel IH]; intros i; simpl; [constructor|].
  destruct (i + 7 <? length buffer)%nat; [|constructor].
  destruct (scan_step hi buffer i) as [[frame|] i'] eqn:E; simpl.
  - rewrite collect_acc. apply Forall_app. split; [|apply IH].
    constructor; [|constructor]. eapply HQ, E.
  - apply IH.
Qed.

(** The spans of one pass lie one after the other in the buffer: together
    they are no longer than what is left from the cursor on. *)
Lemma collected_length (buffer : bytes) :
  forall fuel i, (i <= length buffer)%nat ->
    (length (concat (frame_loop hi (fun frame a => a ++ [frame]) fuel buffer i []))
     <= length buffer - i)%nat.
Proof.
  induction fuel as [|fuel IH]; intros i Hi; simpl; [lia|].
  destruct (i + 7 <? length buffer)%nat eqn:Ei; [|simpl; lia].
  apply Nat.ltb_lt in Ei.
  destruct (scan_step hi buffer i) as [[frame|] i'] eqn:E; simpl.
  - pose proof (scan_step_shape _ _ _ _ E) as (_ & _ & Hlen & _).
    apply scan_step_some in E as (_ & _ & _ & Hlo & _ & Hhi).
    rewrite collect_acc, concat_app, length_app. simpl. rewrite app_nil_r.
    specialize (IH i' Hhi). lia.
  - unfold scan_step in E.
    assert (i' = (i + 1)%nat) as ->.
    { destruct (bytes_eqb _ HEADER); [|now injection E].
      destruct (find_footer _ _ _); [discriminate|now injection E]. }
    specialize (IH (i + 1)%nat ltac:(lia)). lia.
Qed.
End FrameShape.

Lemma unbounded_hi_le (i len : nat) : (unbounded_hi i len <= len - 3)%nat.
Proof. unfold unbounded_hi. lia. Qed.

Lemma window_hi_le (i len : nat) : (window_hi i len <= len - 3)%nat.
Proof. unfold window_hi. lia. Qed.

(** Every span that a scan pass of [ld2412_analyzer.py] hands to the parser
    begins with F4 F3 F2 F1, ends with F8 F7 F6 F5 and has at least 12
    bytes; the spans do not overlap, so a pass over [n] bytes yields at most
    [n / 12] of them. *)
Theorem scan_spans_delimited (buffer : bytes) :
  Forall (fun frame => firstn 4 frame = HEADER /\ last_n 4 frame = FOOTER
                       /\ (12 <= length frame)%nat)
         (frames_of unbounded_hi buffer)
  /\ (length (concat (frames_of unbounded_hi buffer)) <= length buffer)%nat
  /\ (12 * length (frames_of unbounded_hi buffer) <= length buffer)%nat.
Proof.
  assert (HF : Forall (fun frame => firstn 4 frame = HEADER /\ last_n 4 frame = FOOTER
                                    /\ (12 <= length frame)%nat)
                      (frames_of unbounded_hi buffer)).
  { apply collected_Forall. intros i e frame H.
    apply (scan_step_shape _ unbounded_hi_le) in H as (? & ? & _ & ?). auto. }
  assert (HL : (length (concat (frames_of unbounded_hi buffer)) <= length buffer)%nat).
  { pose proof (collected_length _ unbounded_hi_le buffer (length buffer) 0) as H.
    unfold frames_of, scan_frames. lia. }
  split; [exact HF|]. split; [exact HL|].
  revert HF HL. generalize (frames_of unbounded_hi buffer) as fs.
  intros fs HF HL.
  assert (H12 : (12 * length fs <= length (concat fs))%nat).
  { clear HL. induction HF as [|f fs (_ & _ & Hf) _ IH]; simpl; [lia|].
    rewrite length_app. lia. }
  lia.
Qed.

(** With the footer search capped at [i + 50], as in
    [ld2412_analyzer_cli.py], a span is moreover at most 53 bytes long. *)
Theorem capped_scan_spans_short (buffer : bytes) :
  Forall (fun frame => firstn 4 frame = HEADER /\ last_n 4 frame = FOOTER
                       /\ (12 <= length frame <= 53)%nat)
         (frames_of window_hi buffer).
Proof.
  apply collected_Forall. intros i e frame H.
  pose proof (scan_step_shape _ window_hi_le _ _ _ _ H) as (Hh & Hf & Hlen & H12).
  apply (scan_step_some _ window_hi_le) in H as (_ & _ & _ & _ & Hwin & _).
  unfold window_hi in Hwin. repeat split; try assumption; lia.
Qed.

(** ** Streams without a complete frame *)

Section NothingFound.
Context {St : Type}.
Variable hi : nat -> nat -> nat.
Variable handler : bytes -> St -> St.

(** Without a footer magic at or beyond index 8 the parser is never
    called. *)
Lemma frame_loop_no_footer (buffer : bytes) :
  (forall j, (8 <= j)%nat -> slice buffer j (j + 4) <> FOOTER) ->
  forall fuel i st, frame_loop hi handler fuel buffer i st = st.
Proof.
  intros Hno. induction fuel as [|fuel IH]; intros i st; simpl; [reflexivity|].
  destruct (i + 7 <? length buffer)%nat; [|reflexivity].
  assert (Hstep : scan_step hi buffer i = (None, (i + 1)%nat)).
  { unfold scan_step. destruct (bytes_eqb _ HEADER); [|reflexivity].
    assert (Hnone : find_footer buffer (i + 8) (hi i (length buffer)) = None).
    { unfold find_footer. apply find_footer_from_none. intros k Hk. apply Hno. lia. }
    now rewrite Hnone. }
  rewrite Hstep. apply IH.
Qed.

(** Without a header magic the parser is never called either. *)
Lemma frame_loop_no_header (buffer : bytes) :
  (forall j, slice buffer j (j + 4) <> HEADER) ->
  forall fuel i st, frame_loop hi handler fuel buffer i st = st.
Proof.
  intros Hno. induction fuel as [|fuel IH]; intros i st; simpl; [reflexivity|].
  destruct (i + 7 <? length buffer)%nat; [|reflexivity].
  assert (Hstep : scan_step hi buffer i = (None, (i + 1)%nat)).
  { unfold scan_step.
    destruct (bytes_eqb _ HEADER) eqn:E; [|reflexivity].
    apply bytes_eqb_eq in E. now apply Hno in E. }
  rewrite Hstep. apply IH.
Qed.
End NothingFound.

Module Streams.
Import Analyzer.

Lemma same_state (st : State) (b : bytes) (h : History) (s : Stats) (p : Patterns) :
  raw_buffer st = b -> data_history st = h -> stats st = s -> patterns st = p ->
  st = {| raw_buffer := b; data_history := h; stats := s; patterns := p |}.
Proof. destruct st; simpl; intros; now subst. Qed.

(** A feed during which the parser is not called only extends (and
    possibly trims) the byte buffer. *)
Lemma process_quiet (data : bytes) (st : State) :
  (forall (T : Type) (handler : bytes -> T -> T) (t : T),
     scan_frames unbounded_hi handler (raw_buffer st ++ data) t = t) ->
  process_received_data data st
  = {| raw_buffer := cleanup 1000 500 (raw_buffer st ++ data);
       data_history := data_history st;
       stats := stats st;
       patterns := patterns st |}.
Proof.
  intros H. unfold process_received_data, analyze_frames. cbn [raw_buffer].
  now rewrite H.
Qed.
End Streams.

(** A feed after which the buffer holds no header magic, or no footer
    magic, decodes nothing: history, statistics and patterns stay as they
    were, whatever else the bytes contain. *)
Theorem garbage_changes_nothing (data : bytes) (st : Analyzer.State) :
  occursb HEADER (Analyzer.raw_buffer st ++ data) = false
  \/ occursb FOOTER (Analyzer.raw_buffer st ++ data) = false ->
  Analyzer.process_received_data data st
  = {| Analyzer.raw_buffer := cleanup 1000 500 (Analyzer.raw_buffer st ++ data);
       Analyzer.data_history := Analyzer.data_history st;
       Analyzer.stats := Analyzer.stats st;
       Analyzer.patterns := Analyzer.patterns st |}.
Proof.
  intros H. apply Streams.process_quiet. intros T handler t. unfold scan_frames.
  destruct H as [H|H].
  - apply frame_loop_no_header. now apply occursb_false.
  - apply frame_loop_no_footer. intros j _. revert j. now apply occursb_false.
Qed.

Lemma garbage_changes_nothing_witness :
  Analyzer.process_received_data (HEADER ++ repeat 0xF8 40) Analyzer.init
  = holding (HEADER ++ repeat 0xF8 40).
Proof.
  apply (garbage_changes_nothing (HEADER ++ repeat 0xF8 40) Analyzer.init).
  right. vm_compute. reflexivity.
Defined.

(** ** A frame split over two feeds *)

Lemma slice_firstn_short {A} (b : list A) (k j : nat) :
  (k < j + 4)%nat -> (length (slice (firstn k b) j (j + 4)) < 4)%nat.
Proof.
  intros H. unfold slice. rewrite length_firstn, length_skipn, length_firstn. lia.
Qed.

Lemma slice_firstn_inside {A} (b : list A) (k lo hi : nat) :
  (hi <= k)%nat -> slice (firstn k b) lo hi = slice b lo hi.
Proof.
  intros H. unfold slice. rewrite skipn_firstn_comm, firstn_firstn.
  f_equal. lia.
Qed.

(** No proper prefix of a complete frame holds a footer magic where a
    footer search could see it. *)
Lemma prefix_has_no_footer (F : bytes) (k : nat) :
  complete_frame F -> (k < length F)%nat ->
  forall j, (8 <= j)%nat -> slice (firstn k F) j (j + 4) <> FOOTER.
Proof.
  intros [Hstep HlenF] Hk j Hj Heq.
  unfold scan_step in Hstep.
  destruct (bytes_eqb (slice F 0 (0 + 4)) HEADER); [|discriminate].
  unfold find_footer, unbounded_hi in Hstep.
  destruct (find_footer_from F (0 + 8) _) as [e|] eqn:E; [|discriminate].
  injection Hstep as _ He. subst e.
  apply find_footer_from_some in E as (k0 & Hk0 & Hke & _ & Hfirst).
  destruct (Nat.le_gt_cases (j + 4) k) as [Hin|Hout].
  - rewrite slice_firstn_inside in Heq by lia.
    apply (Hfirst j); [simpl; lia|exact Heq].
  - pose proof (slice_firstn_short F k j Hout) as Hshort.
    rewrite Heq in Hshort. simpl in Hshort. lia.
Qed.

(** A complete frame that arrives in two pieces, cut at any index inside
    it, leaves the analyser in exactly the state of a single feed of the
    whole frame: nothing is decoded from the first piece and the frame is
    decoded once when the second arrives. *)
Theorem split_frame_decoded_once (F : bytes) (k : nat) :
  complete_frame F -> (length F <= 1000)%nat -> (k < length F)%nat ->
  Analyzer.feed_all [firstn k F; skipn k F] Analyzer.init
  = Analyzer.feed_all [F] Analyzer.init
  /\ Analyzer.total_frames
       (Analyzer.stats (Analyzer.feed_all [firstn k F; skipn k F] Analyzer.init)) = 1.
Proof.
  intros HF Hlen Hk.
  assert (H1 : Analyzer.process_received_data (firstn k F) Analyzer.init
               = holding (firstn k F)).
  { rewrite Streams.process_quiet.
    - cbn [Analyzer.raw_buffer Analyzer.init app]. unfold cleanup.
      assert (E : (1000 <? length (firstn k F))%nat = false).
      { apply Nat.ltb_ge. rewrite length_firstn. lia. }
      now rewrite E.
    - intros T handler t. apply frame_loop_no_footer.
      now apply prefix_has_no_footer. }
  assert (H2 : Analyzer.feed_all [firstn k F; skipn k F] Analyzer.init
               = Analyzer.feed_all [F] Analyzer.init).
  { cbn [Analyzer.feed_all fold_left]. rewrite H1.
    unfold Analyzer.process_received_data. cbn [Analyzer.raw_buffer holding].
    now rewrite firstn_skipn. }
  split; [exact H2|]. rewrite H2. cbn [Analyzer.feed_all fold_left].
  assert (H3 : Analyzer.process_received_data F Analyzer.init
               = Analyzer.parse_and_analyze_frame F (holding F)).
  { rewrite <- (Reprocessing.feed_empty F (holding F) HF Hlen eq_refl).
    unfold Analyzer.process_received_data. cbn [Analyzer.raw_buffer holding app].
    now rewrite app_nil_r. }
  rewrite H3. unfold Analyzer.parse_and_analyze_frame.
  destruct HF as [_ HlenF].
  assert (E : (length F <? 23)%nat = false) by (apply Nat.ltb_ge; lia).
  rewrite E, AnalyzerFacts.analyze_record_stats. reflexivity.
Qed.

Lemma split_frame_decoded_once_witness :
  Analyzer.feed_all [firstn 9 frame23; skipn 9 frame23] Analyzer.init
  = Analyzer.feed_all [frame23] Analyzer.init
  /\ Analyzer.total_frames
       (Analyzer.stats (Analyzer.feed_all [firstn 9 frame23; skipn 9 frame23]
                          Analyzer.init)) = 1.
Proof.
  apply (split_frame_decoded_once frame23 9).
  - split; [reflexivity|]. vm_compute. lia.
  - vm_compute. lia.
  - vm_compute. lia.
Defined.

(** ** The buffer is a suffix of the stream *)

(** Whatever has been fed, the byte buffer is a suffix of the bytes
    received so far (after those already there): bytes are only ever
    dropped from the front, never reordered or altered. *)
Theorem buffer_is_suffix_of_stream (chunks : list bytes) (st : Analyzer.State) :
  exists front,
    Analyzer.raw_buffer st ++ concat chunks
    = front ++ Analyzer.raw_buffer (Analyzer.feed_all chunks st).
Proof.
  revert st; induction chunks as [|c cs IH]; intros st.
  - exists []. simpl. now rewrite app_nil_r.
  - cbn [Analyzer.feed_all fold_left concat].
    destruct (IH (Analyzer.process_received_data c st)) as [front Hfront].
    unfold Analyzer.feed_all in Hfront.
    rewrite AnalyzerFacts.process_received_data_raw_buffer in Hfront at 1.
    unfold cleanup in Hfront.
    destruct (1000 <? length (Analyzer.raw_buffer st ++ c))%nat.
    + exists (firstn (length (Analyzer.raw_buffer st ++ c) - 500)
                     (Analyzer.raw_buffer st ++ c) ++ front).
      set (B := Analyzer.raw_buffer st ++ c) in *.
      rewrite <- (app_assoc _ front), <- Hfront, (app_assoc _ (last_n 500 B)).
      rewrite <- (last_n_suffix 500 B). subst B. now rewrite app_assoc.
    + exists front. now rewrite app_assoc.
Qed.

(** ** Invariants of the analyser state *)

Module Invariants.
Import Analyzer.

Section Lifting.
(** A property of history, statistics and patterns ... *)
Variable I : History -> Stats -> Patterns -> Prop.

Definition holds (st : State) : Prop :=
  I (data_history st) (stats st) (patterns st).

(** ... that every pushed record keeps ... *)
Hypothesis push_keeps : forall r st, holds st -> holds (analyze_record r st).

Lemma parse_keeps (frame : bytes) (st : State) :
  holds st -> holds (parse_and_analyze_frame frame st).
Proof.
  unfold parse_and_analyze_frame.
  destruct (length frame <? 23)%nat; [trivial|apply push_keeps].
Qed.

Lemma fold_parse_keeps (frames : list bytes) (st : State) :
  holds st -> holds (fold_left (fun s f => parse_and_analyze_frame f s) frames st).
Proof.
  revert st; induction frames as [|f fs IH]; intros st H; simpl; [exact H|].
  apply IH, parse_keeps, H.
Qed.

Lemma process_keeps (data : bytes) (st : State) :
  holds st -> holds (process_received_data data st).
Proof.
  intros H. unfold process_received_data, analyze_frames, holds.
  cbn [data_history stats patterns raw_buffer].
  rewrite scan_frames_fold. apply fold_parse_keeps. exact H.
Qed.

(** ... holds after every sequence of feeds. *)
Lemma feed_all_keeps (chunks : list bytes) (st : State) :
  holds st -> holds (feed_all chunks st).
Proof.
  revert st; induction chunks as [|c cs IH]; intros st H; simpl; [exact H|].
  apply IH, process_keeps, H.
Qed.
End Lifting.

(** The seven history series have the same length, the number of frames
    decoded so far capped at 100. *)
Definition aligned (h : History) (s : Stats) (p : Patterns) : Prop :=
  0 <= total_frames s
  /\ let n := Nat.min 100 (Z.to_nat (total_frames s)) in
     length (time h) = n /\ length (moving_distance h) = n
     /\ length (moving_energy h) = n /\ length (still_distance h) = n
     /\ length (still_energy h) = n /\ length (detection_distance h) = n
     /\ length (target_state h) = n.

Lemma length_deque_append {A} (m : nat) (x : A) (d : list A) :
  length (deque_append m x d) = Nat.min m (S (length d)).
Proof.
  unfold deque_append. rewrite length_last_n, length_app. simpl. lia.
Qed.

Lemma aligned_push (r : Telemetry) (st : State) :
  holds aligned st -> holds aligned (analyze_record r st).
Proof.
  unfold holds, aligned. intros (Ht & H1 & H2 & H3 & H4 & H5 & H6 & H7).
  rewrite AnalyzerFacts.analyze_record_history, AnalyzerFacts.analyze_record_stats.
  cbn [update_stats total_frames record_history time moving_distance moving_energy
       still_distance still_energy detection_distance target_state].
  rewrite !length_deque_append, H1, H2, H3, H4, H5, H6, H7.
  split; [lia|]. cbv zeta.
  replace (Z.to_nat (total_frames (stats st) + 1))
    with (S (Z.to_nat (total_frames (stats st)))) by lia.
  repeat split; lia.
Qed.

(** The counters are non-negative; moving and still detections are counted
    only for frames with a target; the two average keys are never written. *)
Definition counted (h : History) (s : Stats) (p : Patterns) : Prop :=
  0 <= moving_detections s /\ 0 <= still_detections s /\ 0 <= no_target s
  /\ moving_detections s + no_target s <= total_frames s
  /\ still_detections s + no_target s <= total_frames s
  /\ avg_moving_distance s = 0 /\ avg_still_distance s = 0.

Lemma counted_push (r : Telemetry) (st : State) :
  holds counted st -> holds counted (analyze_record r st).
Proof.
  unfold holds, counted. rewrite AnalyzerFacts.analyze_record_stats.
  cbn [update_stats total_frames moving_detections still_detections no_target
       avg_moving_distance avg_still_distance].
  destruct (has_bits (t_state r) 1), (has_bits (t_state r) 2),
           (has_bits (t_state r) 4); cbn [andb]; lia.
Qed.

(** Either no positive distance has been seen and the range is still
    9999 - 0, or it is a proper range with a positive minimum. *)
Definition ranged (h : History) (s : Stats) (p : Patterns) : Prop :=
  (max_distance s = 0 /\ min_distance s = 9999)
  \/ (0 < min_distance s /\ min_distance s <= max_distance s
      /\ min_distance s <= 9999).

Lemma ranged_push (r : Telemetry) (st : State) :
  holds ranged st -> holds ranged (analyze_record r st).
Proof.
  unfold holds, ranged. rewrite AnalyzerFacts.analyze_record_stats.
  cbn [update_stats max_distance min_distance].
  destruct (Z.ltb_spec 0 (t_detect_dist r)); lia.
Qed.

(** Trend and noise verdicts start with the tenth decoded frame, at most
    one of each per frame. *)
Definition judged (h : History) (s : Stats) (p : Patterns) : Prop :=
  aligned h s p
  /\ 0 <= approach p /\ 0 <= leave p /\ 0 <= stable p /\ 0 <= noise p
  /\ approach p + leave p + stable p <= Z.max 0 (total_frames s - 9)
  /\ noise p <= Z.max 0 (total_frames s - 9).

Lemma classify_trend_step (w : list Z) (p : Patterns) :
  let p' := classify_trend w p in
  approach p <= approach p' /\ leave p <= leave p' /\ stable p <= stable p'
  /\ noise p' = noise p
  /\ approach p' + leave p' + stable p' <= approach p + leave p + stable p + 1.
Proof.
  unfold classify_trend.
  destruct (forallb _ w); [|simpl; lia].
  destruct (_ <? -50); [simpl; lia|].
  destruct (50 <? _); simpl; lia.
Qed.

Lemma classify_noise_step (w : list Z) (p : Patterns) :
  let p' := classify_noise w p in
  approach p' = approach p /\ leave p' = leave p /\ stable p' = stable p
  /\ noise p <= noise p' <= noise p + 1.
Proof.
  unfold classify_noise. destruct (5 <? _); simpl; lia.
Qed.

Lemma judged_push (r : Telemetry) (st : State) :
  holds judged st -> holds judged (analyze_record r st).
Proof.
  intros [Hal Hp]. split; [exact (aligned_push r st Hal)|].
  pose proof (aligned_push r st Hal) as (Ht' & _ & _ & _ & _ & _ & Hdd' & _).
  destruct Hal as (Ht & _).
  rewrite AnalyzerFacts.analyze_record_stats in *.
  rewrite AnalyzerFacts.analyze_record_history in Hdd'.
  rewrite AnalyzerFacts.analyze_record_patterns. cbv zeta.
  cbn [update_stats total_frames] in *.
  destruct (length _ <? 10)%nat eqn:E.
  - lia.
  - apply Nat.ltb_ge in E. rewrite Hdd' in E.
    set (h' := record_history r (data_history st)).
    pose proof (classify_trend_step (last_n 10 (detection_distance h')) (patterns st)) as Ha.
    pose proof (classify_noise_step (last_n 10 (target_state h'))
                  (classify_trend (last_n 10 (detection_distance h')) (patterns st))) as Hb.
    cbv zeta in Ha, Hb. lia.
Qed.

Lemma init_holds :
  holds aligned init /\ holds counted init /\ holds ranged init /\ holds judged init.
Proof.
  assert (Ha : holds aligned init).
  { unfold holds, aligned. simpl. repeat split; lia. }
  repeat split; try exact Ha; try (unfold holds, counted, ranged; simpl; lia).
  all: simpl; lia.
Qed.
End Invariants.

(** After any byte stream fed to a fresh analyser, the seven history
    series have one common length: the number of frames decoded so far,
    capped at the deque length of 100. *)
Theorem history_series_aligned (chunks : list bytes) :
  let st := Analyzer.feed_all chunks Analyzer.init in
  let h := Analyzer.data_history st in
  let n := Nat.min 100 (Z.to_nat (Analyzer.total_frames (Analyzer.stats st))) in
  0 <= Analyzer.total_frames (Analyzer.stats st)
  /\ length (Analyzer.time h) = n
  /\ length (Analyzer.moving_distance h) = n
  /\ length (Analyzer.moving_energy h) = n
  /\ length (Analyzer.still_distance h) = n
  /\ length (Analyzer.still_energy h) = n
  /\ length (Analyzer.detection_distance h) = n
  /\ length (Analyzer.target_state h) = n.
Proof.
  exact (Invariants.feed_all_keeps Invariants.aligned Invariants.aligned_push chunks
           Analyzer.init (proj1 Invariants.init_holds)).
Qed.

(** After any byte stream, the detection counters are non-negative, the
    moving and the still count each stay within the number of frames that
    had a target ([total_frames - no_target]), and the statistics keys
    [avg_moving_distance] and [avg_still_distance] are still 0: no code
    path writes them. *)
Theorem detection_counters_consistent (chunks : list bytes) :
  let s := Analyzer.stats (Analyzer.feed_all chunks Analyzer.init) in
  0 <= Analyzer.moving_detections s
  /\ 0 <= Analyzer.still_detections s
  /\ 0 <= Analyzer.no_target s
  /\ Analyzer.moving_detections s + Analyzer.no_target s <= Analyzer.total_frames s
  /\ Analyzer.still_detections s + Analyzer.no_target s <= Analyzer.total_frames s
  /\ Analyzer.avg_moving_distance s = 0
  /\ Analyzer.avg_still_distance s = 0.
Proof.
  exact (Invariants.feed_all_keeps Invariants.counted Invariants.counted_push chunks
           Analyzer.init (proj1 (proj2 Invariants.init_holds))).
Qed.

(** After any byte stream, the distance range shown as
    [min_distance - max_distance] is either the initial 9999 - 0 (no
    positive detection distance yet) or a proper range
    [0 < min_distance <= max_distance]. *)
Theorem distance_range_valid (chunks : list bytes) :
  let s := Analyzer.stats (Analyzer.feed_all chunks Analyzer.init) in
  (Analyzer.max_distance s = 0 /\ Analyzer.min_distance s = 9999)
  \/ (0 < Analyzer.min_distance s
      /\ Analyzer.min_distance s <= Analyzer.max_distance s
      /\ Analyzer.min_distance s <= 9999).
Proof.
  exact (Invariants.feed_all_keeps Invariants.ranged Invariants.ranged_push chunks
           Analyzer.init (proj1 (proj2 (proj2 Invariants.init_holds)))).
Qed.

(** After any byte stream, the pattern counters are non-negative, and
    since no verdict is given before ten frames are in the history, the
    trend verdicts together, and the noise verdicts, number at most
    [total_frames - 9]. *)
Theorem verdicts_start_at_tenth_frame (chunks : list bytes) :
  let st := Analyzer.feed_all chunks Analyzer.init in
  let p := Analyzer.patterns st in
  let total := Analyzer.total_frames (Analyzer.stats st) in
  0 <= Analyzer.approach p /\ 0 <= Analyzer.leave p
  /\ 0 <= Analyzer.stable p /\ 0 <= Analyzer.noise p
  /\ Analyzer.approach p + Analyzer.leave p + Analyzer.stable p <= Z.max 0 (total - 9)
  /\ Analyzer.noise p <= Z.max 0 (total - 9).
Proof.
  exact (proj2 (Invariants.feed_all_keeps Invariants.judged Invariants.judged_push chunks
                  Analyzer.init (proj2 (proj2 (proj2 Invariants.init_holds))))).
Qed.

(** ** The noise verdict *)

Fixpoint all_adjacent_differ (l : list Z) : bool :=
  match l with
  | a :: ((b :: _) as t) => negb (a =? b) && all_adjacent_differ t
  | _ => true
  end.

Fixpoint all_adjacent_equal (l : list Z) : bool :=
  match l with
  | a :: ((b :: _) as t) => (a =? b) && all_adjacent_equal t
  | _ => true
  end.

Lemma state_changes_all_differ (l : list Z) :
  all_adjacent_differ l = true ->
  Analyzer.state_changes l = Z.of_nat (length l - 1).
Proof.
  induction l as [|a [|b t] IH]; intros H; try reflexivity.
  cbn [all_adjacent_differ] in H. apply andb_true_iff in H as [Hab Ht].
  apply negb_true_iff in Hab.
  change (Analyzer.state_changes (a :: b :: t))
    with ((if a =? b then 0 else 1) + Analyzer.state_changes (b :: t)).
  rewrite Hab, (IH Ht). cbn [length]. lia.
Qed.

Lemma state_changes_all_equal (l : list Z) :
  all_adjacent_equal l = true -> Analyzer.state_changes l = 0.
Proof.
  induction l as [|a [|b t] IH]; intros H; try reflexivity.
  cbn [all_adjacent_equal] in H. apply andb_true_iff in H as [Hab Ht].
  change (Analyzer.state_changes (a :: b :: t))
    with ((if a =? b then 0 else 1) + Analyzer.state_changes (b :: t)).
  rewrite Hab, (IH Ht). reflexivity.
Qed.

(** Once ten frames are in the history, a pushed record after which the
    last ten target states change at every step (nine changes) raises the
    noise counter by one, and one after which they are all the same leaves
    it alone. *)
Theorem noise_verdict (r : Telemetry) (st : Analyzer.State) :
  let st' := Analyzer.analyze_record r st in
  let w := last_n 10 (Analyzer.target_state (Analyzer.data_history st')) in
  (10 <= length (Analyzer.detection_distance (Analyzer.data_history st')))%nat ->
  length w = 10%nat ->
  (all_adjacent_differ w = true ->
     Analyzer.noise (Analyzer.patterns st') = Analyzer.noise (Analyzer.patterns st) + 1)
  /\ (all_adjacent_equal w = true ->
        Analyzer.noise (Analyzer.patterns st') = Analyzer.noise (Analyzer.patterns st)).
Proof.
  intros st' w Hdd Hw. subst st' w.
  rewrite AnalyzerFacts.analyze_record_history in *.
  rewrite AnalyzerFacts.analyze_record_patterns. cbv zeta.
  assert (E : (length (Analyzer.detection_distance
                         (Analyzer.record_history r (Analyzer.data_history st)))
               <? 10)%nat = false) by (apply Nat.ltb_ge; lia).
  rewrite E.
  set (w := last_n 10 (Analyzer.target_state _)) in *.
  set (p := Analyzer.classify_trend _ _).
  assert (Hp : Analyzer.noise p = Analyzer.noise (Analyzer.patterns st)).
  { apply (Invariants.classify_trend_step _ (Analyzer.patterns st)). }
  unfold Analyzer.classify_noise. split; intros H.
  - rewrite (state_changes_all_differ w H), Hw. simpl. lia.
  - rewrite (state_changes_all_equal w H). simpl. exact Hp.
Qed.

(** A record that carries only a target state. *)
Definition state_record (s : Z) : Telemetry :=
  {| t_state := s; t_move_dist := 0; t_move_energy := 0;
     t_still_dist := 0; t_still_energy := 0; t_detect_dist := 0 |}.

(** Nine records whose target state alternates between 1 and 3, and nine
    with target state 1 throughout. *)
Definition flickering_records : list Telemetry :=
  map state_record [1; 3; 1; 3; 1; 3; 1; 3; 1].

Definition steady_records : list Telemetry :=
  map state_record [1; 1; 1; 1; 1; 1; 1; 1; 1].

Lemma noise_verdict_witness :
  Analyzer.noise
    (Analyzer.patterns
       (Analyzer.analyze_record (state_record 3)
          (push_all flickering_records Analyzer.init)))
  = Analyzer.noise (Analyzer.patterns (push_all flickering_records Analyzer.init)) + 1
  /\ Analyzer.noise
       (Analyzer.patterns
          (Analyzer.analyze_record (state_record 1)
             (push_all steady_records Analyzer.init)))
     = Analyzer.noise (Analyzer.patterns (push_all steady_records Analyzer.init)).
Proof.
  split.
  - apply (noise_verdict (state_record 3) (push_all flickering_records Analyzer.init)).
    + vm_compute. lia.
    + vm_compute. reflexivity.
    + vm_compute. reflexivity.
  - apply (noise_verdict (state_record 1) (push_all steady_records Analyzer.init)).
    + vm_compute. lia.
    + vm_compute. reflexivity.
    + vm_compute. reflexivity.
Defined.

(** ** [clear_data] does not empty the byte buffer *)

(** After [clear_data] the analyser behaves as a fresh one that is first
    handed the bytes still in [raw_buffer]: the next feed scans them again.
    With a complete frame retained there, the first feed after the reset,
    even an empty one, already counts a frame that did not arrive after
    it. *)
Theorem clear_data_keeps_buffer (st : Analyzer.State) (data : bytes) :
  Analyzer.process_received_data data (Analyzer.clear_data st)
  = Analyzer.process_received_data (Analyzer.raw_buffer st ++ data) Analyzer.init
  /\ forall F rest : bytes,
       complete_frame F ->
       Analyzer.raw_buffer st = F ++ rest ->
       (length (F ++ rest ++ data) <= 1000)%nat ->
       1 <= Analyzer.total_frames
              (Analyzer.stats (Analyzer.process_received_data data
                                 (Analyzer.clear_data st))).
Proof.
  split; [reflexivity|].
  intros F rest HF Hbuf Hlen.
  destruct (Reprocessing.feed_again F (rest ++ data) data (Analyzer.clear_data st) HF)
    as [_ Ht].
  - cbn [Analyzer.clear_data Analyzer.raw_buffer]. rewrite Hbuf. now rewrite app_assoc.
  - exact Hlen.
  - exact Ht.
Qed.

Lemma clear_data_keeps_buffer_witness :
  1 <= Analyzer.total_frames
         (Analyzer.stats
            (Analyzer.process_received_data []
               (Analyzer.clear_data
                  (Analyzer.process_received_data frame23 Analyzer.init)))).
Proof.
  refine (proj2 (clear_data_keeps_buffer
                   (Analyzer.process_received_data frame23 Analyzer.init) [])
                frame23 [] _ _ _).
  - split; [reflexivity|]. vm_compute. lia.
  - reflexivity.
  - vm_compute. lia.
Defined.

(** ** The dominant pattern *)

(** Position of a key in [self.patterns]. *)
Definition key_index (k : Analyzer.PatternKey) : nat :=
  match k with
  | Analyzer.Approach => 0
  | Analyzer.Leave => 1
  | Analyzer.Stable => 2
  | Analyzer.Noise => 3
  end.

(** [get_dominant_pattern] reports insufficient data exactly when all four
    counters are 0.  Otherwise it names a counter that no other counter
    exceeds, and among equal maxima the first in the order approach, leave,
    stable, noise. *)
Theorem dominant_pattern_is_first_maximum (p : Analyzer.Patterns) :
  match Analyzer.get_dominant_pattern p with
  | None => forall k, Analyzer.pattern_get p k = 0
  | Some k =>
      (exists k', Analyzer.pattern_get p k' <> 0)
      /\ (forall k', Analyzer.pattern_get p k' <= Analyzer.pattern_get p k)
      /\ (forall k', (key_index k' < key_index k)%nat ->
                     Analyzer.pattern_get p k' < Analyzer.pattern_get p k)
  end.
Proof.
  unfold Analyzer.get_dominant_pattern, Analyzer.max_by_key, Analyzer.pattern_keys.
  cbn [existsb fold_left Analyzer.pattern_get].
  destruct (Z.eqb_spec (Analyzer.approach p) 0) as [Ea|Ea];
    destruct (Z.eqb_spec (Analyzer.leave p) 0) as [El|El];
    destruct (Z.eqb_spec (Analyzer.stable p) 0) as [Es|Es];
    destruct (Z.eqb_spec (Analyzer.noise p) 0) as [En|En];
    cbn [negb orb].
  1: { intros []; assumption. }
  all: split;
    [ first [ (exists Analyzer.Approach; exact Ea) | (exists Analyzer.Leave; exact El)
            | (exists Analyzer.Stable; exact Es) | (exists Analyzer.Noise; exact En) ] |].
  all: destruct (Z.ltb_spec (Analyzer.approach p) (Analyzer.leave p));
    cbn [Analyzer.pattern_get].
  all: match goal with
       | |- context [if ?a <? ?b then Analyzer.Stable else _] =>
           destruct (Z.ltb_spec a b); cbn [Analyzer.pattern_get]
       end.
  all: match goal with
       | |- context [if ?a <? ?b then Analyzer.Noise else _] =>
           destruct (Z.ltb_spec a b); cbn [Analyzer.pattern_get]
       end.
  all: split; intros []; cbn [key_index Analyzer.pattern_get]; lia.
Qed.

(** ** The trend window of [ld2412_analyzer_cli.py] *)

Module CliTrend.
Import AnalyzerCLI.

(** [analyze_behavior] called for each distance in turn. *)
Definition behave (ds : list Z) (p : Patterns) : Patterns :=
  fold_left (fun q d => analyze_behavior d q) ds p.

Definition positives (ds : list Z) : list Z := filter (fun d => 0 <? d) ds.

Definition verdicts (p : Patterns) : Z :=
  approach_count p + leave_count p + stable_count p.

Lemma skipn_succ_tl {A} (m : nat) (l : list A) : skipn (S m) l = tl (skipn m l).
Proof.
  revert l; induction m as [|m IH]; intros [|y l]; try reflexivity.
  exact (IH l).
Qed.

Lemma last_n_snoc_full {A} (n : nat) (l : list A) (x : A) :
  (n <= length l)%nat -> (0 < n)%nat ->
  tl (last_n n l ++ [x]) = last_n n (l ++ [x]).
Proof.
  intros Hn Hpos. unfold last_n. rewrite length_app. cbn [length].
  replace (length l + 1 - n)%nat with (S (length l - n)) by lia.
  rewrite skipn_app, skipn_succ_tl.
  replace (S (length l - n) - length l)%nat with 0%nat by lia.
  change (skipn 0 [x]) with [x].
  destruct (skipn (length l - n) l) as [|y t] eqn:E; [|reflexivity].
  apply (f_equal (@length A)) in E. rewrite length_skipn in E. simpl in E. lia.
Qed.

Lemma last_snoc {A} (l : list A) (x d : A) : last (l ++ [x]) d = x.
Proof. apply last_last. Qed.

(** One more distance: what [analyze_behavior] makes of a state that
    already satisfies the window law. *)
Lemma behave_step (P : list Z) (p : Patterns) (d : Z) :
  distance_trend p = last_n 10 P ->
  last_distance p = last P 0 ->
  verdicts p = Z.max 0 (Z.of_nat (length P) - 2) ->
  let P' := P ++ (if 0 <? d then [d] else []) in
  let p' := analyze_behavior d p in
  distance_trend p' = last_n 10 P'
  /\ last_distance p' = last P' 0
  /\ verdicts p' = Z.max 0 (Z.of_nat (length P') - 2).
Proof.
  intros Ht Hl Hv. cbv zeta. unfold analyze_behavior.
  destruct (0 <? d) eqn:Ed; [|now rewrite app_nil_r].
  cbn [distance_trend last_distance]. rewrite Ht.
  assert (Htrend : (if (10 <? length (last_n 10 P ++ [d]))%nat
                    then tl (last_n 10 P ++ [d]) else last_n 10 P ++ [d])
                   = last_n 10 (P ++ [d])).
  { rewrite length_app, length_last_n. cbn [length].
    destruct (10 <? Nat.min 10 (length P) + 1)%nat eqn:E.
    - apply Nat.ltb_lt in E. apply last_n_snoc_full; lia.
    - apply Nat.ltb_ge in E. rewrite (last_n_all 10 P) by lia.
      symmetry. apply last_n_all. rewrite length_app. simpl. lia. }
  rewrite Htrend. split; [reflexivity|]. split; [now rewrite last_snoc|].
  unfold verdicts in *. cbn [approach_count leave_count stable_count].
  rewrite length_last_n, !length_app. cbn [length].
  set (c := last _ 0 - hd 0 _).
  destruct (3 <=? Nat.min 10 (length P + 1))%nat eqn:E3.
  - apply Nat.leb_le in E3.
    destruct (c <? -60), (60 <? c); cbn [andb negb]; lia.
  - apply Nat.leb_gt in E3. cbn [andb]. lia.
Qed.

Lemma behave_law (ds : list Z) (p0 : Patterns) :
  distance_trend p0 = [] -> last_distance p0 = 0 -> verdicts p0 = 0 ->
  let p := behave ds p0 in
  distance_trend p = last_n 10 (positives ds)
  /\ last_distance p = last (positives ds) 0
  /\ verdicts p = Z.max 0 (Z.of_nat (length (positives ds)) - 2).
Proof.
  intros Ht Hl Hv. induction ds as [|d ds IH] using rev_ind.
  - simpl. repeat split; assumption.
  - cbv zeta in *. unfold behave in *. rewrite fold_left_app. cbn [fold_left].
    unfold positives in *. rewrite filter_app. cbn [filter].
    destruct IH as (IH1 & IH2 & IH3).
    exact (behave_step _ _ d IH1 IH2 IH3).
Qed.
End CliTrend.

(** In the command-line analyser, after any sequence of detection
    distances the trend window is exactly the last ten positive ones (zero
    distances are skipped), [last_distance] is the latest positive one, and
    every positive distance from the third on has been given exactly one
    verdict: the approach, leave and stable counts add up to the number of
    positive distances minus two. *)
Theorem cli_trend_window_law (clock : nat -> Z) (ds : list Z) :
  let p := CliTrend.behave ds (AnalyzerCLI.patterns (AnalyzerCLI.init clock)) in
  AnalyzerCLI.distance_trend p = last_n 10 (CliTrend.positives ds)
  /\ AnalyzerCLI.last_distance p = last (CliTrend.positives ds) 0
  /\ (length (AnalyzerCLI.distance_trend p) <= 10)%nat
  /\ Forall (fun d => 0 < d) (AnalyzerCLI.distance_trend p)
  /\ CliTrend.verdicts p
     = Z.max 0 (Z.of_nat (length (CliTrend.positives ds)) - 2).
Proof.
  destruct (CliTrend.behave_law ds (AnalyzerCLI.patterns (AnalyzerCLI.init clock))
              eq_refl eq_refl eq_refl) as (H1 & H2 & H3).
  cbv zeta. rewrite H1. repeat split; try assumption.
  - rewrite length_last_n. lia.
  - apply Forall_forall. intros d Hd.
    assert (Hin : In d (CliTrend.positives ds)).
    { unfold last_n in Hd.
      rewrite <- (firstn_skipn (length (CliTrend.positives ds) - 10)
                    (CliTrend.positives ds)).
      apply in_or_app. now right. }
    apply filter_In in Hin as [_ Hpos]. now apply Z.ltb_lt.
Qed.

(** ** The counts of [test_data_analysis_logic] against the analyser *)

Module Counting.
Import Analyzer.

Definition with_target (f : Z -> bool) (state : Z) : bool :=
  has_bits state 0x01 && f state.

Definition count (f : Z -> bool) (states : list Z) : Z :=
  Z.of_nat (length (filter f states)).

Lemma count_cons (f : Z -> bool) (x : Z) (l : list Z) :
  count f (x :: l) = (if f x then 1 else 0) + count f l.
Proof.
  unfold count. cbn [filter]. destruct (f x); cbn [length]; lia.
Qed.

(** The counters after pushing records are the counters before plus the
    number of pushed states that pass the analyser's nested tests. *)
Lemma push_all_counters (rs : list Telemetry) (st : State) :
  let s := stats (push_all rs st) in
  let states := map t_state rs in
  total_frames s = total_frames (stats st) + Z.of_nat (length rs)
  /\ moving_detections s
     = moving_detections (stats st)
       + count (with_target (fun x => has_bits x 0x02)) states
  /\ still_detections s
     = still_detections (stats st)
       + count (with_target (fun x => has_bits x 0x04)) states
  /\ no_target s
     = no_target (stats st) + count (fun x => negb (has_bits x 0x01)) states.
Proof.
  revert st; induction rs as [|r rs IH]; intros st.
  - unfold count. simpl. lia.
  - cbv zeta in *. unfold push_all in *. cbn [fold_left map].
    destruct (IH (analyze_record r st)) as (H1 & H2 & H3 & H4).
    rewrite H1, H2, H3, H4, !count_cons, AnalyzerFacts.analyze_record_stats.
    cbn [update_stats total_frames moving_detections still_detections no_target length].
    unfold with_target.
    destruct (has_bits (t_state r) 1), (has_bits (t_state r) 2),
             (has_bits (t_state r) 4); cbn [andb negb]; lia.
Qed.

Lemma count_le (f g : Z -> bool) (l : list Z) :
  (forall x, f x = true -> g x = true) -> count f l <= count g l.
Proof.
  intros H. induction l as [|x l IH]; [reflexivity|].
  rewrite !count_cons. specialize (H x).
  destruct (f x), (g x); lia.
Qed.

Lemma count_ext_in (f g : Z -> bool) (l : list Z) :
  Forall (fun x => f x = g x) l -> count f l = count g l.
Proof.
  induction 1 as [|x l Hx _ IH]; [reflexivity|].
  now rewrite !count_cons, Hx, IH.
Qed.
End Counting.

(** A target state whose moving or still bit is set also has the presence
    bit set. *)
Definition coherent_state (state : Z) : bool :=
  has_bits state 0x01 || negb (has_bits state 0x02 || has_bits state 0x04).

(** The counts that [test_data_analysis_logic] computes from the recorded
    states (moving: bit1, still: bit2, no target: bit0 clear) are upper
    bounds of the analyser's counters, the no-target count is the same, and
    all of them coincide when every state with the moving or still bit also
    has the presence bit. *)
Theorem test_counts_match_analyzer (rs : list Telemetry) :
  let s := Analyzer.stats (push_all rs Analyzer.init) in
  let states := map t_state rs in
  Analyzer.total_frames s = Z.of_nat (length states)
  /\ Analyzer.no_target s = TestDataAnalysis.no_target_count states
  /\ Analyzer.moving_detections s <= TestDataAnalysis.moving_count states
  /\ Analyzer.still_detections s <= TestDataAnalysis.still_count states
  /\ (forallb coherent_state states = true ->
      Analyzer.moving_detections s = TestDataAnalysis.moving_count states
      /\ Analyzer.still_detections s = TestDataAnalysis.still_count states).
Proof.
  destruct (Counting.push_all_counters rs Analyzer.init) as (H1 & H2 & H3 & H4).
  cbv zeta in *. rewrite H1, H2, H3, H4, length_map.
  change (Analyzer.total_frames (Analyzer.stats Analyzer.init)) with 0.
  change (Analyzer.moving_detections (Analyzer.stats Analyzer.init)) with 0.
  change (Analyzer.still_detections (Analyzer.stats Analyzer.init)) with 0.
  change (Analyzer.no_target (Analyzer.stats Analyzer.init)) with 0.
  rewrite !Z.add_0_l.
  fold (Counting.count (fun state => has_bits state 2) (map t_state rs)).
  unfold TestDataAnalysis.no_target_count, TestDataAnalysis.moving_count,
    TestDataAnalysis.still_count.
  fold (Counting.count (fun state => negb (has_bits state 1)) (map t_state rs)).
  fold (Counting.count (fun state => has_bits state 2) (map t_state rs)).
  fold (Counting.count (fun state => has_bits state 4) (map t_state rs)).
  split; [reflexivity|]. split; [reflexivity|].
  split; [|split].
  - apply Counting.count_le. unfold Counting.with_target. intros x H.
    now apply andb_true_iff in H.
  - apply Counting.count_le. unfold Counting.with_target. intros x H.
    now apply andb_true_iff in H.
  - intros Hc. rewrite forallb_forall in Hc.
    split; apply Counting.count_ext_in, Forall_forall; intros x Hx;
      specialize (Hc x Hx); unfold coherent_state, Counting.with_target in *;
      destruct (has_bits x 1), (has_bits x 2), (has_bits x 4);
      simpl in *; congruence.
Qed.

(** The states of the test data of [test_data_analysis_logic]. *)
Definition test_states : list Z := [0x03; 0x03; 0x03; 0x05; 0x05; 0x00].

Lemma test_counts_match_analyzer_witness :
  Analyzer.moving_detections
    (Analyzer.stats (push_all (map state_record test_states) Analyzer.init))
  = TestDataAnalysis.moving_count (map t_state (map state_record test_states))
  /\ Analyzer.still_detections
       (Analyzer.stats (push_all (map state_record test_states) Analyzer.init))
     = TestDataAnalysis.still_count (map t_state (map state_record test_states)).
Proof.
  apply (test_counts_match_analyzer (map state_record test_states)).
  vm_compute. reflexivity.
Defined.

(** ** The minimum distance of [ld2412_enhanced_gui.py] *)

Module GuiRange.
Import EnhancedGui.

(** [update_distance] for each distance in turn, from the initial
    [max_distance = 0], [min_distance = 9999]. *)
Definition ranges (ds : list Z) : Z * Z :=
  fold_left (fun mm d => update_distance d mm) ds (0, 9999).

Definition positives (ds : list Z) : list Z := filter (fun d => 0 <? d) ds.

(** While no positive distance equals the sentinel, the stored minimum is
    the sentinel exactly as long as nothing positive was seen, and then the
    least positive distance. *)
Lemma ranges_law (ds : list Z) :
  ~ In 9999 (positives ds) ->
  let m := snd (ranges ds) in
  (positives ds = [] /\ m = 9999)
  \/ (In m (positives ds) /\ Forall (fun d => m <= d) (positives ds)).
Proof.
  induction ds as [|d ds IH] using rev_ind; intros Hno; [now left|].
  cbv zeta in *. unfold ranges in *. rewrite fold_left_app. cbn [fold_left].
  unfold positives in *. rewrite filter_app in *. cbn [filter] in *.
  destruct (fold_left _ ds (0, 9999)) as [mx m]. cbn [snd] in IH.
  unfold update_distance. cbn [fst snd].
  destruct (0 <? d) eqn:Ed; cbn [snd].
  - right. apply Z.ltb_lt in Ed.
    assert (Hd : d <> 9999).
    { intros ->. apply Hno, in_or_app. right. now left. }
    destruct IH as [[Hnil Hm]|[Hin Hall]].
    + intros Hin. apply Hno, in_or_app. now left.
    + subst m. rewrite Hnil. simpl. split; [now left|].
      constructor; [lia|constructor].
    + assert (Hm : m <> 9999).
      { intros E. rewrite E in Hin. apply Hno, in_or_app. now left. }
      apply Z.eqb_neq in Hm. rewrite Hm.
      split.
      * apply in_or_app.
        destruct (Z.min_spec m d) as [[_ ->]|[_ ->]]; [now left|right; now left].
      * apply Forall_app. split.
        -- eapply Forall_impl; [|exact Hall]. simpl. lia.
        -- constructor; [lia|constructor].
  - rewrite app_nil_r in *. apply IH, Hno.
Qed.
End GuiRange.

(** In the enhanced GUI the first positive distance replaces the 9999
    sentinel instead of being compared with it.  So as long as no positive
    distance equals 9999, [min_distance] is 9999 only while nothing positive
    was seen and otherwise the least positive distance, also when all of
    them exceed 9999.  A genuine 9999 is taken for the sentinel: after
    distances 9999 and 20000 the stored minimum is 20000. *)
Theorem gui_min_distance_is_least_positive :
  (forall ds : list Z,
     ~ In 9999 (GuiRange.positives ds) ->
     let m := snd (GuiRange.ranges ds) in
     (GuiRange.positives ds = [] /\ m = 9999)
     \/ (In m (GuiRange.positives ds)
         /\ Forall (fun d => m <= d) (GuiRange.positives ds)))
  /\ snd (GuiRange.ranges [20000; 30000]) = 20000
  /\ snd (GuiRange.ranges [9999; 20000]) = 20000.
Proof.
  split; [exact GuiRange.ranges_law|]. split; reflexivity.
Qed.

Lemma gui_min_distance_is_least_positive_witness :
  In (snd (GuiRange.ranges [20000; 0; 30000; 15000]))
     (GuiRange.positives [20000; 0; 30000; 15000])
  /\ Forall (fun d => snd (GuiRange.ranges [20000; 0; 30000; 15000]) <= d)
            (GuiRange.positives [20000; 0; 30000; 15000]).
Proof.
  destruct (proj1 gui_min_distance_is_least_positive [20000; 0; 30000; 15000])
    as [[Hnil _]|H].
  - vm_compute. intros [H|[H|[H|[]]]]; discriminate.
  - discriminate.
  - exact H.
Defined.

(** ** Command frames in [ld2412_cli.py] *)

Module CliFacts.
Import Cli.

Lemma find_magic_from_first (magic buffer : bytes) (n j k : nat) :
  (j <= k < j + n)%nat ->
  slice buffer k (k + 4) = magic ->
  (forall k', (j <= k' < k)%nat -> slice buffer k' (k' + 4) <> magic) ->
  find_magic_from magic buffer j n = Some (k + 4)%nat.
Proof.
  revert j; induction n as [|n IH]; intros j Hk Hf Hfirst; [lia|]. simpl.
  destruct (Nat.eq_dec j k) as [->|Hne].
  - apply bytes_eqb_eq in Hf. now rewrite Hf.
  - assert (E : bytes_eqb (slice buffer j (j + 4)) magic = false).
    { apply bytes_eqb_neq, Hfirst. lia. }
    rewrite E. apply IH; [lia|exact Hf|]. intros k' Hk'. apply Hfirst. lia.
Qed.

Lemma cli_frame_loop_done (fuel : nat) (buffer : bytes) (i : nat) (st : State) :
  (length buffer <= i + 7)%nat -> frame_loop fuel buffer i st = st.
Proof.
  intros H. destruct fuel; simpl; [reflexivity|].
  assert (E : (i + 7 <? length buffer)%nat = false) by (apply Nat.ltb_ge; lia).
  now rewrite E.
Qed.

Lemma hd_error_skipn {A} (b : list A) (j : nat) :
  hd_error (skipn j b) = nth_error b j.
Proof.
  revert b; induction j as [|j IH]; intros [|y b]; try reflexivity.
  exact (IH b).
Qed.

Lemma hd_error_slice {A} (b : list A) (j : nat) :
  hd_error (slice b j (j + 4)) = nth_error b j.
Proof.
  unfold slice. replace (j + 4 - j)%nat with 4%nat by lia.
  rewrite <- hd_error_skipn. now destruct (skipn j b).
Qed.

(** A command frame: header, two length bytes, the command code, one more
    byte, the command data, footer. *)
Definition command_frame (l0 l1 code b7 : Z) (payload : bytes) : bytes :=
  CMD_HEADER ++ [l0; l1; code; b7] ++ payload ++ CMD_FOOTER.

Lemma command_frame_split (l0 l1 code b7 : Z) (payload : bytes) :
  command_frame l0 l1 code b7 payload
  = ((CMD_HEADER ++ [l0; l1; code; b7]) ++ payload) ++ CMD_FOOTER.
Proof. unfold command_frame. now rewrite <- !app_assoc. Qed.

Lemma length_command_frame (l0 l1 code b7 : Z) (payload : bytes) :
  length (command_frame l0 l1 code b7 payload) = (length payload + 12)%nat.
Proof. unfold command_frame. rewrite !length_app. simpl. lia. Qed.

Lemma command_frame_scan (l0 l1 code b7 : Z) (payload : bytes) :
  ~ In 0x04 payload ->
  let F := command_frame l0 l1 code b7 payload in
  scan_step F 0 = (Some (CmdSpan F), length F).
Proof.
  intros Hno F. unfold scan_step.
  assert (Hh : slice F 0 (0 + 4) = CMD_HEADER) by reflexivity.
  rewrite Hh.
  change (bytes_eqb CMD_HEADER HEADER) with false.
  change (bytes_eqb CMD_HEADER CMD_HEADER) with true. cbv iota.
  pose proof (length_command_frame l0 l1 code b7 payload) as Hlen. fold F in Hlen.
  rewrite (find_magic_from_first CMD_FOOTER F _ (0 + 8) (length payload + 8)).
  - replace (length payload + 8 + 4)%nat with (length F) by lia.
    now rewrite slice_full.
  - lia.
  - subst F. rewrite command_frame_split.
    replace (length payload + 8)%nat
      with (length ((CMD_HEADER ++ [l0; l1; code; b7]) ++ payload) + 0)%nat
      by (rewrite length_app; simpl; lia).
    rewrite <- Nat.add_assoc. now rewrite slice_app_shift.
  - intros k' Hk' Heq. apply (f_equal (@hd_error Z)) in Heq.
    rewrite hd_error_slice in Heq. simpl in Heq.
    subst F. unfold command_frame in Heq.
    rewrite app_assoc, nth_error_app2 in Heq by (simpl; lia).
    rewrite nth_error_app1 in Heq by (simpl in *; lia).
    apply nth_error_In in Heq. contradiction.
Qed.

Lemma command_frame_parse (l0 l1 code b7 : Z) (payload : bytes) :
  parse_cmd_frame (command_frame l0 l1 code b7 payload)
  = Some {| cmd_code := code; cmd_name := cmd_names code;
            cmd_data := Some payload |}.
Proof.
  unfold parse_cmd_frame. rewrite length_command_frame.
  assert (E1 : (7 <=? length payload + 12)%nat = true) by (apply Nat.leb_le; lia).
  assert (E2 : (8 <? length payload + 12)%nat = true) by (apply Nat.ltb_lt; lia).
  rewrite E1, E2.
  assert (Hd : slice (command_frame l0 l1 code b7 payload) 8 (length payload + 12 - 4)
               = payload).
  { unfold slice, command_frame. cbn [app CMD_HEADER skipn].
    replace (length payload + 12 - 4 - 8)%nat with (length payload + 0)%nat by lia.
    rewrite firstn_app_2. simpl. apply app_nil_r. }
  now rewrite Hd.
Qed.
End CliFacts.

(** A command frame FD FC FB FA, two length bytes, a command code, one
    more byte, command data without a 04 byte, 04 03 02 01, received in one
    chunk by a fresh [LD2412CLI], is reported as exactly one command frame:
    the whole chunk is the frame, the code is the one sent, its name is
    looked up in [cmd_names], and the command data come back as sent; one
    command frame and no data frame is counted, and the chunk stays in the
    buffer. *)
Theorem cli_command_frame_recognised (l0 l1 code b7 : Z) (payload : bytes) :
  ~ In 0x04 payload ->
  (length payload + 12 <= 1000)%nat ->
  let F := CliFacts.command_frame l0 l1 code b7 payload in
  Cli.process_received_data F Cli.init
  = {| Cli.raw_buffer := F;
       Cli.stats := {| Cli.total_bytes := Z.of_nat (length F);
                       Cli.data_frames := 0;
                       Cli.cmd_frames := 1 |};
       Cli.console :=
         [Cli.Received F;
          Cli.CmdFrame F (Some {| Cli.cmd_code := code;
                                   Cli.cmd_name := Cli.cmd_names code;
                                   Cli.cmd_data := Some payload |})] |}.
Proof.
  intros Hno Hlen F.
  pose proof (CliFacts.length_command_frame l0 l1 code b7 payload) as HlenF.
  fold F in HlenF.
  unfold Cli.process_received_data, Cli.analyze_frames.
  cbn [Cli.raw_buffer Cli.init app Cli.stats Cli.total_bytes Cli.data_frames
       Cli.cmd_frames Cli.console].
  destruct (length F) as [|fuel] eqn:EF; [lia|].
  cbn [Cli.frame_loop]. rewrite EF.
  assert (E : (0 + 7 <? S fuel)%nat = true) by (apply Nat.ltb_lt; lia).
  rewrite E.
  pose proof (CliFacts.command_frame_scan l0 l1 code b7 payload Hno) as Hscan.
  cbv zeta in Hscan. fold F in Hscan. rewrite Hscan, EF.
  rewrite CliFacts.cli_frame_loop_done by lia.
  cbn [Cli.handle Cli.raw_buffer Cli.stats Cli.console Cli.total_bytes
       Cli.data_frames Cli.cmd_frames app].
  pose proof (CliFacts.command_frame_parse l0 l1 code b7 payload) as Hparse.
  fold F in Hparse. rewrite Hparse.
  unfold cleanup.
  assert (Ec : (1000 <? S fuel)%nat = false) by (apply Nat.ltb_ge; lia).
  rewrite ?EF, Ec. reflexivity.
Qed.

Lemma cli_command_frame_recognised_witness :
  Cli.console
    (Cli.process_received_data
       [0xFD; 0xFC; 0xFB; 0xFA; 0x04; 0x00; 0xFF; 0x00; 0x01; 0x00;
        0x04; 0x03; 0x02; 0x01] Cli.init)
  = [Cli.Received (CliFacts.command_frame 0x04 0x00 0xFF 0x00 [0x01; 0x00]);
     Cli.CmdFrame (CliFacts.command_frame 0x04 0x00 0xFF 0x00 [0x01; 0x00])
       (Some {| Cli.cmd_code := 0xFF;
                Cli.cmd_name := Some Cli.EnterConfig;
                Cli.cmd_data := Some [0x01; 0x00] |})].
Proof.
  refine (f_equal Cli.console
            (cli_command_frame_recognised 0x04 0x00 0xFF 0x00 [0x01; 0x00] _ _)).
  - simpl. intros [H|[H|[]]]; discriminate.
  - simpl. lia.
Defined.

(** ** Hexadecimal text in [ld2412_cli.py] *)

From Stdlib Require Import Ascii.
From Stdlib Require String.

Module CliHex.

(** A Python [str] of ASCII characters. *)
Definition str := list ascii.

Definition space : ascii := ascii_of_nat 32.

(** One upper-case hexadecimal digit, for [0 <= n < 16]. *)
Definition hex_digit (n : Z) : ascii :=
  if n <? 10 then ascii_of_nat (48 + Z.to_nat n) else ascii_of_nat (55 + Z.to_nat n).

(** [f'{b:02X}'] for a byte [b]. *)
Definition format_02X (b : Z) : str := [hex_digit (b / 16); hex_digit (b mod 16)].

(** [sep.join(parts)] *)
Fixpoint join (sep : str) (parts : list str) : str :=
  match parts with
  | [] => []
  | [p] => p
  | p :: rest => p ++ sep ++ join sep rest
  end.

(** [' '.join(f'{b:02X}' for b in data)]: how [process_received_data],
    [parse_data_frame] and [parse_cmd_frame] print bytes. *)
Definition hex_dump (data : bytes) : str := join [space] (map format_02X data).

(** [s.replace(" ", "")] *)
Definition remove_spaces (s : str) : str :=
  filter (fun c => negb (Ascii.eqb c space)) s.

(** [s.lower()] on ASCII. *)
Definition lower_char (c : ascii) : ascii :=
  let n := nat_of_ascii c in
  if (65 <=? n)%nat && (n <=? 90)%nat then ascii_of_nat (n + 32) else c.

Definition lower (s : str) : str := map lower_char s.

(** ASCII white space, which [bytes.fromhex] skips between bytes. *)
Definition is_space (c : ascii) : bool :=
  let n := nat_of_ascii c in
  (n =? 32)%nat || ((9 <=? n)%nat && (n <=? 13)%nat).

Definition hex_value (c : ascii) : option Z :=
  let n := nat_of_ascii c in
  if (48 <=? n)%nat && (n <=? 57)%nat then Some (Z.of_nat (n - 48))
  else if (65 <=? n)%nat && (n <=? 70)%nat then Some (Z.of_nat (n - 55))
  else if (97 <=? n)%nat && (n <=? 102)%nat then Some (Z.of_nat (n - 87))
  else None.

(** [bytes.fromhex(s)]: white space is skipped before each byte; a byte is
    two hexadecimal digits; anything else raises [ValueError] ([None]). *)
Fixpoint fromhex (s : str) : option bytes :=
  match s with
  | [] => Some []
  | c :: s' =>
      if is_space c then fromhex s'
      else
        match hex_value c, s' with
        | Some h, d :: s'' =>
            match hex_value d with
            | Some l => option_map (cons (16 * h + l)) (fromhex s'')
            | None => None
            end
        | _, _ => None
        end
  end.

(** The bytes [send_custom_command] and [send_command] write to the port
    for a hexadecimal string: [bytes.fromhex(hex_string.replace(" ", ""))];
    [None] when that raises and the failure message is printed instead. *)
Definition to_send (hex_string : str) : option bytes :=
  fromhex (remove_spaces hex_string).

(** [self.predefined_commands]: key (the digits '1' to '7', as numbers) and
    hexadecimal string; the display names are left out. *)
Module Table.
Import String.
Definition predefined_commands : list (nat * string) :=
  [ (1%nat, "FD FC FB FA 04 00 FF 00 01 00 04 03 02 01"%string);
    (2%nat, "FD FC FB FA 02 00 FE 00 04 03 02 01"%string);
    (3%nat, "FD FC FB FA 02 00 A0 00 04 03 02 01"%string);
    (4%nat, "FD FC FB FA 02 00 12 00 04 03 02 01"%string);
    (5%nat, "FD FC FB FA 02 00 61 00 04 03 02 01"%string);
    (6%nat, "FD FC FB FA 02 00 A3 00 04 03 02 01"%string);
    (7%nat, "FD FC FB FA 02 00 A2 00 04 03 02 01"%string) ].
End Table.

(** What [send_command] writes for a key of the table, if anything. *)
Definition send_command (cmd_key : nat) : option bytes :=
  match find (fun entry => Nat.eqb (fst entry) cmd_key) Table.predefined_commands with
  | Some (_, hex_string) => to_send (String.list_ascii_of_string hex_string)
  | None => None
  end.

(** A character that stands for the hexadecimal digit [n] and survives
    [replace(" ", "")]. *)
Definition digit_for (c : ascii) (n : Z) : Prop :=
  is_space c = false /\ Ascii.eqb c space = false /\ hex_value c = Some n.

(** A property checked on the sixteen digit values holds for all of
    them. *)
Lemma all_nibbles (P : Z -> Prop) :
  Forall P (map Z.of_nat (seq 0 16)) -> forall n, 0 <= n < 16 -> P n.
Proof.
  intros H n Hn. rewrite Forall_forall in H. apply H.
  apply in_map_iff. exists (Z.to_nat n). split; [lia|]. apply in_seq. lia.
Qed.

Lemma hex_digit_good (n : Z) : 0 <= n < 16 -> digit_for (hex_digit n) n.
Proof.
  revert n. apply all_nibbles. unfold digit_for.
  repeat (constructor; [repeat split; reflexivity|]). constructor.
Qed.

Lemma lower_hex_digit_good (n : Z) :
  0 <= n < 16 -> digit_for (lower_char (hex_digit n)) n.
Proof.
  revert n. apply all_nibbles. unfold digit_for.
  repeat (constructor; [repeat split; reflexivity|]). constructor.
Qed.

Section RoundTrip.
(** A way of writing a byte as two digit characters. *)
Variable fmt : Z -> str.
Hypothesis fmt_digits :
  forall b, 0 <= b < 256 ->
    exists c1 c2, fmt b = [c1; c2]
                  /\ digit_for c1 (b / 16) /\ digit_for c2 (b mod 16).

Lemma remove_spaces_join (data : bytes) :
  Forall (fun b => 0 <= b < 256) data ->
  remove_spaces (join [space] (map fmt data)) = concat (map fmt data).
Proof.
  induction 1 as [|b rest Hb _ IH]; [reflexivity|].
  destruct (fmt_digits b Hb) as (c1 & c2 & Hf & (_ & H1 & _) & (_ & H2 & _)).
  assert (Hb' : remove_spaces (fmt b) = fmt b).
  { rewrite Hf. unfold remove_spaces. simpl. now rewrite H1, H2. }
  destruct rest as [|b' rest'].
  - simpl. rewrite app_nil_r. exact Hb'.
  - change (join [space] (map fmt (b :: b' :: rest')))
      with (fmt b ++ [space] ++ join [space] (map fmt (b' :: rest'))).
    unfold remove_spaces in *. rewrite !filter_app, Hb', IH. reflexivity.
Qed.

Lemma fromhex_concat (data : bytes) :
  Forall (fun b => 0 <= b < 256) data ->
  fromhex (concat (map fmt data)) = Some data.
Proof.
  induction 1 as [|b rest Hb _ IH]; [reflexivity|].
  destruct (fmt_digits b Hb) as (c1 & c2 & Hf & (S1 & _ & V1) & (_ & _ & V2)).
  cbn [map concat]. rewrite Hf. cbn [app fromhex].
  rewrite S1, V1, V2, IH. cbn [option_map]. f_equal. f_equal.
  pose proof (Z.div_mod b 16). lia.
Qed.

Lemma to_send_join (data : bytes) :
  Forall (fun b => 0 <= b < 256) data ->
  to_send (join [space] (map fmt data)) = Some data.
Proof.
  intros H. unfold to_send. rewrite remove_spaces_join by exact H.
  now apply fromhex_concat.
Qed.
End RoundTrip.

Lemma nibbles_in_range (b : Z) : 0 <= b < 256 -> 0 <= b / 16 < 16 /\ 0 <= b mod 16 < 16.
Proof.
  intros H. split.
  - split; [apply Z.div_pos; lia|apply Z.div_lt_upper_bound; lia].
  - apply Z.mod_pos_bound. lia.
Qed.

Lemma lower_join (data : bytes) :
  lower (hex_dump data) = join [space] (map (fun b => lower (format_02X b)) data).
Proof.
  unfold hex_dump. induction data as [|b [|b' rest] IH]; try reflexivity.
  change (join [space] (map format_02X (b :: b' :: rest)))
    with (format_02X b ++ [space] ++ join [space] (map format_02X (b' :: rest))).
  unfold lower in *. rewrite !map_app, IH. reflexivity.
Qed.
End CliHex.

(** Bytes printed by the command-line interface as hexadecimal text and
    typed back as a custom command are sent unchanged: for every sequence of
    bytes, the text [' '.join(f'{b:02X}' ...)], in upper case as printed or
    in lower case as the command loop passes it on, is turned by
    [bytes.fromhex(hex_string.replace(" ", ""))] into the same bytes. *)
Theorem hex_text_round_trip (data : bytes) :
  Forall (fun b => 0 <= b < 256) data ->
  CliHex.to_send (CliHex.hex_dump data) = Some data
  /\ CliHex.to_send (CliHex.lower (CliHex.hex_dump data)) = Some data.
Proof.
  intros H. split.
  - apply CliHex.to_send_join; [|exact H]. intros b Hb.
    destruct (CliHex.nibbles_in_range b Hb) as [Hh Hl].
    exists (CliHex.hex_digit (b / 16)), (CliHex.hex_digit (b mod 16)).
    split; [reflexivity|]. split; now apply CliHex.hex_digit_good.
  - rewrite CliHex.lower_join.
    apply (CliHex.to_send_join (fun b => CliHex.lower (CliHex.format_02X b))); [|exact H].
    intros b Hb. destruct (CliHex.nibbles_in_range b Hb) as [Hh Hl].
    exists (CliHex.lower_char (CliHex.hex_digit (b / 16))),
           (CliHex.lower_char (CliHex.hex_digit (b mod 16))).
    split; [reflexivity|]. split; now apply CliHex.lower_hex_digit_good.
Qed.

Lemma hex_text_round_trip_witness :
  CliHex.to_send (CliHex.hex_dump TestDataAnalysis.test_frame)
  = Some TestDataAnalysis.test_frame
  /\ CliHex.to_send (CliHex.lower (CliHex.hex_dump TestDataAnalysis.test_frame))
     = Some TestDataAnalysis.test_frame.
Proof.
  apply (hex_text_round_trip TestDataAnalysis.test_frame).
  unfold TestDataAnalysis.test_frame. repeat constructor; lia.
Defined.

(** Every entry of [predefined_commands] is sent as bytes that the same
    program, receiving them back in one chunk, reports as exactly one
    command frame spanning the whole chunk, with one command frame and no
    data frame counted.  Looked up in [cmd_names], the echoed codes of
    commands 1 to 4, 6 and 7 have a name; the code 0x61 of command 5 has
    none and is reported as unknown. *)
Theorem predefined_commands_echo :
  Forall (fun entry =>
            match CliHex.send_command (fst entry) with
            | Some F =>
                Cli.console (Cli.process_received_data F Cli.init)
                = [Cli.Received F; Cli.CmdFrame F (Cli.parse_cmd_frame F)]
                /\ Cli.parse_cmd_frame F <> None
                /\ Cli.cmd_frames (Cli.stats (Cli.process_received_data F Cli.init)) = 1
                /\ Cli.data_frames (Cli.stats (Cli.process_received_data F Cli.init)) = 0
            | None => False
            end)
         CliHex.Table.predefined_commands
  /\ map (fun entry =>
            match CliHex.send_command (fst entry) with
            | Some F => option_map Cli.cmd_name (Cli.parse_cmd_frame F)
            | None => None
            end)
         CliHex.Table.predefined_commands
     = [Some (Some Cli.EnterConfig); Some (Some Cli.ExitConfig);
        Some (Some Cli.QueryVersion); Some (Some Cli.QueryData);
        Some None; Some (Some Cli.Reboot); Some (Some Cli.FactoryReset)].
Proof.
  split; [|reflexivity].
  repeat constructor; try reflexivity; vm_compute; discriminate.
Qed.

(** ** The message queue and histories of [ld2412_analyzer_cli.py] *)

Module CliInvariants.
Import AnalyzerCLI.

Lemma records_after_frame (q : list Message) (alerts : list Alert)
      (r : Telemetry) (l : Z) :
  records ((q ++ map MsgAlert alerts) ++ [MsgData r l]) = records q ++ [(r, l)].
Proof.
  unfold records. rewrite !flat_map_app. simpl.
  replace (flat_map _ (map MsgAlert alerts)) with (@nil (Telemetry * Z)).
  - now rewrite app_nil_r.
  - symmetry. induction alerts; simpl; auto.
Qed.

(** One data message, one clock reading and one entry in each of the eight
    series per decoded frame. *)
Definition accounted (st : State) : Prop :=
  let n := Z.to_nat (total_frames (stats st)) in
  let h := data_history st in
  0 <= total_frames (stats st)
  /\ length (records (data_queue st)) = n
  /\ clock_reads st = S n
  /\ length (time h) = Nat.min 100 n
  /\ length (moving_distance h) = Nat.min 100 n
  /\ length (moving_energy h) = Nat.min 100 n
  /\ length (still_distance h) = Nat.min 100 n
  /\ length (still_energy h) = Nat.min 100 n
  /\ length (detection_distance h) = Nat.min 100 n
  /\ length (target_state h) = Nat.min 100 n
  /\ length (light_value h) = Nat.min 100 n.

Section WithClock.
Variable clock : nat -> Z.

Lemma accounted_parse (frame : bytes) (st : State) :
  accounted st -> accounted (parse_data_frame clock frame st).
Proof.
  unfold parse_data_frame. destruct (length frame <? 23)%nat; [trivial|].
  unfold accounted.
  cbn [data_queue data_history stats clock_reads time moving_distance moving_energy
       still_distance still_energy detection_distance target_state light_value
       update_statistics total_frames].
  intros (H0 & Hq & Hc & H1 & H2 & H3 & H4 & H5 & H6 & H7 & H8).
  rewrite records_after_frame, length_app, !Invariants.length_deque_append.
  rewrite Hq, Hc, H1, H2, H3, H4, H5, H6, H7, H8. cbn [length]. cbv zeta.
  replace (Z.to_nat (total_frames (stats st) + 1))
    with (S (Z.to_nat (total_frames (stats st)))) by lia.
  repeat split; lia.
Qed.

Lemma accounted_fold (frames : list bytes) (st : State) :
  accounted st ->
  accounted (fold_left (fun s f => parse_data_frame clock f s) frames st).
Proof.
  revert st; induction frames as [|f fs IH]; intros st H; simpl; [exact H|].
  apply IH, accounted_parse, H.
Qed.

Lemma accounted_receive (data : bytes) (st : State) :
  accounted st -> accounted (receive clock data st).
Proof.
  intros H. unfold receive, analyze_frames.
  rewrite scan_frames_fold. cbn [raw_buffer].
  set (st0 := {| raw_buffer := raw_buffer st ++ data; data_queue := data_queue st;
                 data_history := data_history st; stats := stats st;
                 patterns := patterns st; clock_reads := clock_reads st |}).
  assert (H0 : accounted st0) by exact H.
  apply (accounted_fold (frames_of window_hi (raw_buffer st ++ data))) in H0.
  exact H0.
Qed.

Lemma accounted_feed_all (chunks : list bytes) (st : State) :
  accounted st -> accounted (feed_all clock chunks st).
Proof.
  revert st; induction chunks as [|c cs IH]; intros st H; simpl; [exact H|].
  apply IH, accounted_receive, H.
Qed.
End WithClock.
End CliInvariants.

(** After any byte stream fed to a fresh command-line analyser, the queue
    holds exactly one data message per decoded frame (nothing in this class
    bounds it), the clock has been read once at start-up and once per
    decoded frame, and the eight history series all have the length of the
    frame count capped at 100. *)
Theorem cli_one_message_per_frame (clock : nat -> Z) (chunks : list bytes) :
  let st := AnalyzerCLI.feed_all clock chunks (AnalyzerCLI.init clock) in
  let n := Z.to_nat (AnalyzerCLI.total_frames (AnalyzerCLI.stats st)) in
  let h := AnalyzerCLI.data_history st in
  0 <= AnalyzerCLI.total_frames (AnalyzerCLI.stats st)
  /\ length (AnalyzerCLI.records (AnalyzerCLI.data_queue st)) = n
  /\ AnalyzerCLI.clock_reads st = S n
  /\ length (AnalyzerCLI.time h) = Nat.min 100 n
  /\ length (AnalyzerCLI.moving_distance h) = Nat.min 100 n
  /\ length (AnalyzerCLI.moving_energy h) = Nat.min 100 n
  /\ length (AnalyzerCLI.still_distance h) = Nat.min 100 n
  /\ length (AnalyzerCLI.still_energy h) = Nat.min 100 n
  /\ length (AnalyzerCLI.detection_distance h) = Nat.min 100 n
  /\ length (AnalyzerCLI.target_state h) = Nat.min 100 n
  /\ length (AnalyzerCLI.light_value h) = Nat.min 100 n.
Proof.
  apply (CliInvariants.accounted_feed_all clock chunks (AnalyzerCLI.init clock)).
  unfold CliInvariants.accounted. simpl. repeat split; lia.
Qed.

Lemma dominant_pattern_is_first_maximum_witness :
  let p := {| Analyzer.approach := 2; Analyzer.leave := 5;
              Analyzer.stable := 5; Analyzer.noise := 1 |} in
  Analyzer.get_dominant_pattern p = Some Analyzer.Leave
  /\ Analyzer.pattern_get p Analyzer.Approach < Analyzer.pattern_get p Analyzer.Leave.
Proof.
  intros p. split; [reflexivity|].
  pose proof (dominant_pattern_is_first_maximum p) as H.
  change (Analyzer.get_dominant_pattern p) with (Some Analyzer.Leave) in H.
  destruct H as (_ & _ & H). apply (H Analyzer.Approach). simpl. lia.
Defined.

(** ** The capped and the uncapped footer search *)

Lemma find_footer_from_shorter (buffer : bytes) (n n' j : nat) :
  (n' <= n)%nat ->
  match find_footer_from buffer j n with
  | Some e => (e - 4 < j + n')%nat -> find_footer_from buffer j n' = Some e
  | None => find_footer_from buffer j n' = None
  end.
Proof.
  intros Hle. destruct (find_footer_from buffer j n) as [e|] eqn:E.
  - intros He. apply find_footer_from_some in E as (k & Hk & -> & Hfoot & Hfirst).
    apply find_footer_from_first; [lia|exact Hfoot|exact Hfirst].
  - apply find_footer_from_none. intros k Hk.
    rewrite find_footer_from_none in E. apply E. lia.
Qed.

(** Where the uncapped scan finds nothing, or a span of at most 53 bytes,
    the capped scan takes the same step. *)
Lemma scan_step_capped_same (buffer : bytes) (i : nat) :
  match fst (scan_step unbounded_hi buffer i) with
  | Some frame => (length frame <= 53)%nat
  | None => True
  end ->
  scan_step window_hi buffer i = scan_step unbounded_hi buffer i.
Proof.
  intros Hshort.
  pose proof (fun e frame => scan_step_shape unbounded_hi unbounded_hi_le
                               buffer i e frame) as Hshape.
  unfold scan_step in *.
  destruct (bytes_eqb (slice buffer i (i + 4)) HEADER); [|reflexivity].
  unfold find_footer, unbounded_hi, window_hi in *.
  pose proof (find_footer_from_shorter buffer (length buffer - 3 - (i + 8))
                (Nat.min (i + 50) (length buffer - 3) - (i + 8)) (i + 8)
                ltac:(lia)) as Hsub.
  destruct (find_footer_from buffer (i + 8) (length buffer - 3 - (i + 8)))
    as [e|] eqn:E.
  - cbn [fst] in Hshort.
    destruct (Hshape e (slice buffer i e) eq_refl) as (_ & _ & Hlen & _).
    apply find_footer_from_some in E as (k & Hk & -> & _).
    rewrite Hsub; [reflexivity|]. lia.
  - now rewrite Hsub.
Qed.

Lemma collected_capped_same (buffer : bytes) :
  forall fuel i,
    Forall (fun frame => (length frame <= 53)%nat)
           (frame_loop unbounded_hi (fun frame a => a ++ [frame]) fuel buffer i []) ->
    frame_loop window_hi (fun frame a => a ++ [frame]) fuel buffer i []
    = frame_loop unbounded_hi (fun frame a => a ++ [frame]) fuel buffer i [].
Proof.
  induction fuel as [|fuel IH]; intros i Hall; [reflexivity|].
  cbn [frame_loop] in *.
  destruct (i + 7 <? length buffer)%nat; [|reflexivity].
  assert (Hstep : scan_step window_hi buffer i = scan_step unbounded_hi buffer i).
  { apply scan_step_capped_same.
    destruct (scan_step unbounded_hi buffer i) as [[frame|] i']; cbn [fst]; [|exact I].
    cbn [deliver] in Hall. rewrite collect_acc in Hall.
    apply Forall_app in Hall as [Hf _]. now inversion Hf. }
  rewrite Hstep.
  destruct (scan_step unbounded_hi buffer i) as [[frame|] i']; cbn [deliver] in *.
  - rewrite collect_acc, (collect_acc unbounded_hi) in *.
    apply Forall_app in Hall as [_ Hrest]. now rewrite (IH i' Hrest).
  - now apply IH.
Qed.

(** The 50-byte cap of [ld2412_analyzer_cli.py] changes the outcome of a
    scan pass only if the uncapped scan of [ld2412_analyzer.py] produces a
    span longer than 53 bytes: when all its spans are at most 53 bytes long,
    both scans hand the parser the same spans in the same order. *)
Theorem capped_scan_agrees_on_short_spans (buffer : bytes) :
  Forall (fun frame => (length frame <= 53)%nat) (frames_of unbounded_hi buffer) ->
  frames_of window_hi buffer = frames_of unbounded_hi buffer.
Proof. apply collected_capped_same. Qed.

Lemma capped_scan_agrees_on_short_spans_witness :
  frames_of window_hi (frame23 ++ [0x00; 0x01] ++ frame23)
  = frames_of unbounded_hi (frame23 ++ [0x00; 0x01] ++ frame23).
Proof.
  apply (capped_scan_agrees_on_short_spans (frame23 ++ [0x00; 0x01] ++ frame23)).
  vm_compute. repeat constructor; lia.
Defined.

(** ** The decoded fields as numbers *)

Lemma le16_value (frame : bytes) (k : nat) :
  0 <= byte_at frame k < 256 -> 0 <= byte_at frame (k + 1) < 256 ->
  le16 frame k = byte_at frame k + 256 * byte_at frame (k + 1).
Proof.
  unfold le16. generalize (byte_at frame k), (byte_at frame (k + 1)).
  intros lo hi Hlo Hhi.
  assert (Hdisj : Z.land (Z.shiftl hi 8) lo = 0).
  { apply Z.bits_inj'. intros n Hn. rewrite Z.land_spec, Z.bits_0.
    destruct (Z.lt_ge_cases n 8) as [Hlt|Hge].
    - rewrite Z.shiftl_spec_low by lia. reflexivity.
    - assert (Hb : Z.testbit lo n = false).
      { destruct (Z.eq_dec lo 0) as [->|Hnz]; [apply Z.bits_0|].
        apply Z.bits_above_log2; [lia|].
        assert (Z.log2 lo < 8) by (apply Z.log2_lt_pow2; lia). lia. }
      rewrite Hb. apply andb_false_r. }
  rewrite <- Z.lxor_lor, <- Z.add_nocarry_lxor by exact Hdisj.
  rewrite Z.shiftl_mul_pow2 by lia. change (2 ^ 8) with 256. lia.
Qed.

(** For a span of real bytes that is long enough to be decoded, the two
    bytes of each distance are combined low byte first, so that the three
    distances lie between 0 and 65535, and target state and energies are
    single bytes. *)
Theorem decoded_fields_in_range (frame : bytes) :
  Forall (fun b => 0 <= b < 256) frame -> (23 <= length frame)%nat ->
  let r := read_fields frame in
  t_move_dist r = byte_at frame 9 + 256 * byte_at frame 10
  /\ t_still_dist r = byte_at frame 12 + 256 * byte_at frame 13
  /\ t_detect_dist r = byte_at frame 15 + 256 * byte_at frame 16
  /\ 0 <= t_move_dist r <= 65535
  /\ 0 <= t_still_dist r <= 65535
  /\ 0 <= t_detect_dist r <= 65535
  /\ 0 <= t_state r < 256
  /\ 0 <= t_move_energy r < 256
  /\ 0 <= t_still_energy r < 256.
Proof.
  intros Hbytes Hlen.
  assert (Hb : forall k, (k < 23)%nat -> 0 <= byte_at frame k < 256).
  { intros k Hk. unfold byte_at. rewrite Forall_forall in Hbytes.
    apply Hbytes, nth_In. lia. }
  cbv zeta. unfold read_fields.
  cbn [t_state t_move_dist t_move_energy t_still_dist t_still_energy t_detect_dist].
  rewrite !le16_value by (apply Hb; simpl; lia).
  pose proof (Hb 8%nat ltac:(lia)). pose proof (Hb 9%nat ltac:(lia)).
  pose proof (Hb 10%nat ltac:(lia)). pose proof (Hb 11%nat ltac:(lia)).
  pose proof (Hb 12%nat ltac:(lia)). pose proof (Hb 13%nat ltac:(lia)).
  pose proof (Hb 14%nat ltac:(lia)). pose proof (Hb 15%nat ltac:(lia)).
  pose proof (Hb 16%nat ltac:(lia)).
  cbn [Nat.add] in *. repeat split; lia.
Qed.

Lemma decoded_fields_in_range_witness :
  t_detect_dist (read_fields (frame_with_distance 0x20 0x4E)) = 0x20 + 256 * 0x4E
  /\ 0 <= t_detect_dist (read_fields (frame_with_distance 0x20 0x4E)) <= 65535.
Proof.
  destruct (decoded_fields_in_range (frame_with_distance 0x20 0x4E))
    as (_ & _ & H1 & _ & _ & H2 & _).
  - vm_compute. repeat constructor; discriminate.
  - vm_compute. lia.
  - split; [exact H1|exact H2].
Defined.

(** ** Data frames in [ld2412_cli.py] *)

Module CliData.
Import Cli.

(** A telemetry span: header, body, footer. *)
Definition data_frame (body : bytes) : bytes := HEADER ++ body ++ FOOTER.

Lemma length_data_frame (body : bytes) :
  length (data_frame body) = (length body + 8)%nat.
Proof. unfold data_frame. rewrite !length_app. simpl. lia. Qed.

Lemma nth_error_skipn_shift {A} (l : list A) (n i : nat) :
  nth_error (skipn n l) i = nth_error l (n + i).
Proof.
  revert l; induction n as [|n IH]; intros [|y l]; try reflexivity.
  - now destruct i.
  - exact (IH l).
Qed.

Lemma data_frame_scan (body : bytes) :
  (4 <= length body)%nat -> ~ In 0xF8 (skipn 4 body) ->
  let F := data_frame body in
  scan_step F 0 = (Some (DataSpan F), length F).
Proof.
  intros Hlen Hno F. unfold scan_step.
  assert (Hh : slice F 0 (0 + 4) = HEADER) by reflexivity.
  rewrite Hh. change (bytes_eqb HEADER HEADER) with true. cbv iota.
  pose proof (length_data_frame body) as HlenF. fold F in HlenF.
  rewrite (CliFacts.find_magic_from_first FOOTER F _ (0 + 8) (length body + 4)).
  - replace (length body + 4 + 4)%nat with (length F) by lia.
    now rewrite slice_full.
  - lia.
  - subst F. unfold data_frame. rewrite app_assoc.
    replace (length body + 4)%nat with (length (HEADER ++ body) + 0)%nat
      by (rewrite length_app; simpl; lia).
    rewrite <- Nat.add_assoc. now rewrite slice_app_shift.
  - intros k' Hk' Heq. apply (f_equal (@hd_error Z)) in Heq.
    rewrite CliFacts.hd_error_slice in Heq. simpl in Heq.
    subst F. unfold data_frame in Heq.
    rewrite nth_error_app2 in Heq by (simpl; lia).
    rewrite nth_error_app1 in Heq by (simpl in *; lia).
    apply Hno.
    apply (nth_error_In (skipn 4 body) (k' - length HEADER - 4)).
    rewrite nth_error_skipn_shift. rewrite <- Heq. f_equal. simpl in *. lia.
Qed.
End CliData.

(** A telemetry span F4 F3 F2 F1, at least four body bytes of which none
    after the fourth is F8, F8 F7 F6 F5, received in one chunk by a fresh
    [LD2412CLI], is printed and counted as one data frame whatever its
    length, but its fields are decoded only from 23 bytes on: a shorter
    span raises [data_frames] without any analysis being printed. *)
Theorem cli_data_frame_counted (body : bytes) :
  (4 <= length body)%nat -> ~ In 0xF8 (skipn 4 body) ->
  (length body + 8 <= 1000)%nat ->
  let F := CliData.data_frame body in
  let st := Cli.process_received_data F Cli.init in
  Cli.console st = [Cli.Received F; Cli.DataFrame F (Cli.parse_data_frame F)]
  /\ Cli.data_frames (Cli.stats st) = 1
  /\ Cli.cmd_frames (Cli.stats st) = 0
  /\ Cli.raw_buffer st = F
  /\ (Cli.parse_data_frame F = None <-> (length F < 23)%nat).
Proof.
  intros Hlen Hno Hmax F st.
  pose proof (CliData.length_data_frame body) as HlenF. fold F in HlenF.
  assert (Hst : st = {| Cli.raw_buffer := F;
                        Cli.stats := {| Cli.total_bytes := Z.of_nat (length F);
                                        Cli.data_frames := 1;
                                        Cli.cmd_frames := 0 |};
                        Cli.console := [Cli.Received F;
                                        Cli.DataFrame F (Cli.parse_data_frame F)] |}).
  { subst st. unfold Cli.process_received_data, Cli.analyze_frames.
    cbn [Cli.raw_buffer Cli.init app Cli.stats Cli.total_bytes Cli.data_frames
         Cli.cmd_frames Cli.console].
    destruct (length F) as [|fuel] eqn:EF; [lia|].
    cbn [Cli.frame_loop]. rewrite EF.
    assert (E : (0 + 7 <? S fuel)%nat = true) by (apply Nat.ltb_lt; lia).
    rewrite E.
    pose proof (CliData.data_frame_scan body Hlen Hno) as Hscan.
    cbv zeta in Hscan. fold F in Hscan. rewrite Hscan, EF.
    rewrite CliFacts.cli_frame_loop_done by lia.
    cbn [Cli.handle Cli.raw_buffer Cli.stats Cli.console Cli.total_bytes
         Cli.data_frames Cli.cmd_frames app].
    unfold cleanup.
    assert (Ec : (1000 <? S fuel)%nat = false) by (apply Nat.ltb_ge; lia).
    rewrite ?EF, Ec. reflexivity. }
  rewrite Hst. cbn [Cli.console Cli.stats Cli.data_frames Cli.cmd_frames Cli.raw_buffer].
  repeat split.
  - unfold Cli.parse_data_frame.
    destruct (23 <=? length F)%nat eqn:E; [discriminate|].
    intros _. now apply Nat.leb_gt in E.
  - intros Hshort. unfold Cli.parse_data_frame.
    assert (E : (23 <=? length F)%nat = false) by (apply Nat.leb_gt; lia).
    now rewrite E.
Qed.

Lemma cli_data_frame_counted_witness :
  let st := Cli.process_received_data TestDataAnalysis.test_frame Cli.init in
  Cli.console st
  = [Cli.Received TestDataAnalysis.test_frame;
     Cli.DataFrame TestDataAnalysis.test_frame None]
  /\ Cli.data_frames (Cli.stats st) = 1.
Proof.
  destruct (cli_data_frame_counted
              (firstn 14 (skipn 4 TestDataAnalysis.test_frame)))
    as (H1 & H2 & _).
  - vm_compute. lia.
  - vm_compute. intros H. repeat (destruct H as [H|H]; [discriminate|]). exact H.
  - vm_compute. lia.
  - split; [exact H1|exact H2].
Defined.
